(** * MEXC futures downloader and stream recorder: a shallow embedding

    The development follows [mexc_xaut_usdt.py]: the retrying GET helper
    [req_get], the k-line page decoder [_kline_payload_to_df], the forward
    and backward k-line paginators, the funding-history paginator and
    [MexcWSRecorder] with its message dispatch.

    Conventions.
    - Python exceptions are values: a computation returns [Ok v] or
      [Raise e].
    - A [while True] loop is a function with a fuel argument that counts
      loop iterations; it returns the requests issued so far together
      with [Some r] when the loop has left within the fuel and [None]
      when it is still running.
    - The network is an oracle: a function from the number of requests
      already issued and the request to the reply.
    - The file system is a map from path to content, with an oracle
      for the paths [open] can open for writing.
    - A websocket connection is given by what [run_forever] makes of
      it: whether the handshake succeeds, when the connection is lost,
      and the frames that arrive; a handler's exception goes to
      [_on_error] and the receive loop goes on. *)

From Stdlib Require Import ZArith List String Ascii Bool Lia QArith.
From Stdlib Require Import Sorting.Sorted Sorting.Permutation.
From stdpp Require Import gmap strings list fin_maps.

Import ListNotations.

Local Open Scope Z_scope.
Local Set Warnings "-register-all".

(** ** Python values *)

Module Py.

(** Exception classes the modelled code can meet. *)
Inductive exn :=
  | ConnectionError | Timeout | HTTPError | JSONDecodeError
  | ValueError | TypeError | AttributeError | KeyError | OverflowError
  | OutOfBoundsDatetime | OSError.

Inductive result (A : Type) :=
  | Ok (a : A)
  | Raise (e : exn).
Arguments Ok {A} a.
Arguments Raise {A} e.

(** Sequencing: an exception of the first computation skips the rest.
    With these instances [x ← c; k] is the usual notation. *)
#[export] Instance result_ret : MRet result := fun A a => Ok a.
#[export] Instance result_bind : MBind result := fun A B k r =>
  match r with
  | Ok a => k a
  | Raise e => Raise e
  end.

(** What [json.loads] / [Response.json] produce: [None], [bool], [int],
    [float] (a finite double, kept as the rational it denotes), [str],
    [list] and [dict].  A [dict] is kept as its items; [dict_get] reads
    the first binding of a key. *)
Inductive json :=
  | JNull
  | JBool (b : bool)
  | JInt (z : Z)
  | JFloat (q : Q)
  | JStr (s : string)
  | JArr (items : list json)
  | JObj (fields : list (string * json)).

Fixpoint dict_get (k : string) (fields : list (string * json)) : option json :=
  match fields with
  | [] => None
  | (k', v) :: rest => if String.eqb k k' then Some v else dict_get k rest
  end.

(** [k in d] *)
Definition dict_has (k : string) (fields : list (string * json)) : bool :=
  match dict_get k fields with Some _ => true | None => false end.

(** [d.get(k, default)] *)
Definition get_or (k : string) (default : json) (fields : list (string * json)) : json :=
  match dict_get k fields with Some v => v | None => default end.

(** Python truth value of a decoded JSON value. *)
Definition truthy (v : json) : bool :=
  match v with
  | JNull => false
  | JBool b => b
  | JInt z => negb (z =? 0)
  | JFloat q => negb (Qnum q =? 0)
  | JStr s => negb (String.eqb s EmptyString)
  | JArr items => match items with [] => false | _ => true end
  | JObj fields => match fields with [] => false | _ => true end
  end.

(** [a or b] *)
Definition py_or (a b : json) : json := if truthy a then a else b.

(** What a loop hands back: the outcome ([None] while the loop is still
    running when the fuel is spent) and the requests issued, in order. *)
Definition run (Rq A : Type) : Type := (option (result A) * list Rq)%type.

(** What one pass through a loop body does: it leaves the loop, by
    [break] or by an exception, or goes round again with new variables. *)
Inductive step (St Rq A : Type) :=
  | Break (r : result A) (tr : list Rq)
  | Continue (s : St).
Arguments Break {St Rq A} r tr.
Arguments Continue {St Rq A} s.

End Py.
Import Py.

(** ** The GET helper *)

Module Client.

Definition BASE : string := "https://contract.mexc.com".

(** Outcome of one pass through the [try] block of [req_get] up to and
    including [r.json()]: any exception of [requests.get],
    [raise_for_status] or [json], or the decoded body. *)
Inductive http_result :=
  | HttpError (e : exn)
  | HttpBody (data : json).

(** What the helper does to the outside world, in order. *)
Inductive event :=
  | EvGet (url : string) (attempt : nat)
  | EvSleep (secs : Q).

(** [0.6 * (attempt + 1)], in seconds. *)
Definition backoff (attempt : nat) : Q :=
  ((6 # 10) * inject_Z (Z.of_nat attempt + 1))%Q.

(** The envelope test and unwrapping inside the [try] block. *)
Definition unwrap (data : json) : json :=
  match data with
  | JObj fields =>
      if dict_has "data" fields && (dict_has "success" fields || dict_has "code" fields)
      then get_or "data" JNull fields
      else data
  | _ => data
  end.

Section ReqGet.

(** [requests_get url params attempt]: the outcome of the [attempt]-th
    pass (counted from 0) for this call. *)
Variable requests_get : string -> option (list (string * json)) -> nat -> http_result.

(** [for attempt in range(5): ...] followed by [return {}]. *)
Fixpoint req_get_loop (url : string) (params : option (list (string * json)))
         (attempts : list nat) (tr : list event) : result json * list event :=
  match attempts with
  | [] => (Ok (JObj []), tr)
  | attempt :: rest =>
      let tr := tr ++ [EvGet url attempt] in
      match requests_get url params attempt with
      | HttpBody data => (Ok (unwrap data), tr)
      | HttpError e =>
          if (attempt =? 4)%nat then (Raise e, tr)
          else req_get_loop url params rest (tr ++ [EvSleep (backoff attempt)])
      end
  end.

Definition req_get (path : string) (params : option (list (string * json)))
  : result json * list event :=
  req_get_loop (String.append BASE path) params (seq 0 5) [].

End ReqGet.

(** Number of HTTP attempts in a trace. *)
Definition attempts_of (tr : list event) : nat :=
  List.length (List.filter (fun ev => match ev with EvGet _ _ => true | _ => false end) tr).

(** The sleeps of a trace, in order. *)
Definition sleeps_of (tr : list event) : list Q :=
  List.flat_map (fun ev => match ev with EvSleep secs => [secs] | _ => [] end) tr.

(** The pauses after the first, second, third and fourth failure:
    0.6 s, 1.2 s, 1.8 s and 2.4 s. *)
Definition pauses : list Q := [6 # 10; 12 # 10; 18 # 10; 24 # 10]%Q.

(** The trace of a call whose attempts [0 .. k-1] failed and that made
    attempt [k]: every failed attempt [i] is followed by the [i]-th
    pause. *)
Definition retry_trace (url : string) (k : nat) : list event :=
  List.flat_map (fun i => [EvGet url i; EvSleep (nth i pauses 0%Q)]) (seq 0 k)
  ++ [EvGet url k].

(** *** Sample transport *)

(** A transport whose first two passes fail and whose third returns an
    enveloped body. *)
Definition flaky_transport (url : string) (params : option (list (string * json)))
           (attempt : nat) : http_result :=
  match attempt with
  | O => HttpError Timeout
  | S O => HttpError HTTPError
  | _ => HttpBody (JObj [("success", JBool true); ("data", JArr [JInt 1])]%string)
  end.

End Client.

(** ** K-line pages and paginators *)

Module Kline.

Definition KLINE_MAX : Z := 2000.

Definition INTERVAL_SECONDS : gmap string Z :=
  list_to_map
    [("Min1", 60); ("Min5", 300); ("Min15", 900); ("Min30", 1800); ("Min60", 3600);
     ("Hour4", 14400); ("Hour8", 28800); ("Day1", 86400); ("Week1", 604800);
     ("Month1", 2592000)]%string.

(** One row of the frame [_kline_payload_to_df] returns; the fields are
    its columns ["t","t_iso","interval","open","high","low","close",
    "vol","amount"]. *)
Record candle := mk_candle {
  col_t : Z;
  col_t_iso : string;
  col_interval : string;
  col_open : json;
  col_high : json;
  col_low : json;
  col_close : json;
  col_vol : json;
  col_amount : json
}.

(** The [data] of a k-line reply, as the endpoint documents it: a dict
    of parallel arrays, each of which may be absent; the [time] array
    holds epoch seconds.  The arrays need not have equal lengths. *)
Record kline_dict := mk_kline_dict {
  time : option (list Z);
  open : option (list json);
  high : option (list json);
  low : option (list json);
  close : option (list json);
  vol : option (list json);
  amount : option (list json)
}.

Inductive kline_payload :=
  | NotADict                       (* [isinstance(payload, dict)] is false *)
  | Dict (d : kline_dict).

(** The query [req_get] is called with. *)
Record kline_request := mk_kline_request {
  rq_path : string;
  rq_interval : string;
  rq_start : option Z;
  rq_end : Z
}.

(** The key of [drop_duplicates(subset=["t","interval"])]. *)
Definition key_of (r : candle) : Z * string := (col_t r, col_interval r).

Definition key_eqb (k1 k2 : Z * string) : bool :=
  (fst k1 =? fst k2) && String.eqb (snd k1) (snd k2).

(** [df.drop_duplicates(subset=["t","interval"])] with pandas' default
    [keep="first"]: a row is kept iff no earlier row has its key. *)
Fixpoint drop_duplicates_from (seen : list (Z * string)) (rows : list candle) : list candle :=
  match rows with
  | [] => []
  | r :: rest =>
      if existsb (key_eqb (key_of r)) seen
      then drop_duplicates_from seen rest
      else r :: drop_duplicates_from (key_of r :: seen) rest
  end.

Definition drop_duplicates (rows : list candle) : list candle :=
  drop_duplicates_from [] rows.

(** [df.sort_values(["t"])]: ascending by [t]. *)
Fixpoint insert_by_t (r : candle) (sorted : list candle) : list candle :=
  match sorted with
  | [] => [r]
  | r' :: rest =>
      if col_t r <=? col_t r' then r :: sorted else r' :: insert_by_t r rest
  end.

Fixpoint sort_values (rows : list candle) : list candle :=
  match rows with
  | [] => []
  | r :: rest => insert_by_t r (sort_values rest)
  end.

(** [pd.concat(all_df, ignore_index=True)] *)
Definition pd_concat (all_df : list (list candle)) : list candle := concat all_df.

(** [out.drop_duplicates(subset=["t","interval"]).sort_values(["t"])
       .reset_index(drop=True)] *)
Definition dedup_sort (out : list candle) : list candle :=
  sort_values (drop_duplicates out).

(** [df["t"].min()] of a frame; the default is never used on the
    non-empty frames the loops apply it to. *)
Definition min_t (df : list candle) : Z :=
  match df with
  | [] => 0
  | r :: rest => fold_left Z.min (map col_t rest) (col_t r)
  end.

(** [df.empty] *)
Definition is_empty (df : list candle) : bool :=
  match df with [] => true | _ => false end.

(** The rows of a frame built from columns of equal length, with the
    [t_iso] and [interval] columns added: row [i] holds entry [i] of
    every column. *)
Fixpoint frame_rows (interval : string) (ts : list Z) (isos : list string)
         (o h l c v a : list json) : list candle :=
  match ts, isos, o, h, l, c, v, a with
  | t :: ts, iso :: isos, x1 :: o, x2 :: h, x3 :: l, x4 :: c, x5 :: v, x6 :: a =>
      {| col_t := t; col_t_iso := iso; col_interval := interval;
         col_open := x1; col_high := x2; col_low := x3; col_close := x4;
         col_vol := x5; col_amount := x6 |}
        :: frame_rows interval ts isos o h l c v a
  | _, _, _, _, _, _, _, _ => []
  end.

Section Decoding.

(** [str] of [pd.to_datetime(t, unit="s", utc=True)]; [None] where
    pandas raises [OutOfBoundsDatetime]. *)
Variable to_datetime_s : Z -> option string.

(** [pd.to_datetime(df["t"], unit="s", utc=True)...astype(str)] *)
Fixpoint t_iso_column (ts : list Z) : result (list string) :=
  match ts with
  | [] => Ok []
  | x :: rest =>
      match to_datetime_s x with
      | None => Raise OutOfBoundsDatetime
      | Some iso => isos ← t_iso_column rest; Ok (iso :: isos)
      end
  end.

(** [_kline_payload_to_df]. [pd.DataFrame] of a dict of lists raises
    [ValueError] unless all lists have the same length. *)
Definition _kline_payload_to_df (payload : kline_payload) (interval : string)
  : result (list candle) :=
  match payload with
  | NotADict => Ok []
  | Dict d =>
      match time d with
      | None => Ok []
      | Some [] => Ok []
      | Some ts =>
          let n := length ts in
          let col (c : option (list json)) := default (replicate n JNull) c in
          if forallb (fun c => Nat.eqb (length (col c)) n)
               [open d; high d; low d; close d; vol d; amount d]
          then
            isos ← t_iso_column ts;
            Ok (frame_rows interval ts isos (col (open d)) (col (high d)) (col (low d))
                           (col (close d)) (col (vol d)) (col (amount d)))
          else Raise ValueError
      end
  end.

End Decoding.

(** The variables of the backward loops, with the requests issued. *)
Record bstate := mk_bstate {
  st_all_df : list (list candle);
  st_last_min_t : option Z;
  st_end_s : Z;
  st_tr : list kline_request
}.


Section Paging.

Variable to_datetime_s : Z -> option string.

(** [datetime.utcfromtimestamp] accepts the timestamps between
    [utc_min] and [utc_max] (the years [MINYEAR .. MAXYEAR] where the
    platform allows them) and raises outside. *)
Variables utc_min utc_max : Z.

Definition utcfromtimestamp (ts : Z) : result unit :=
  if (utc_min <=? ts) && (ts <=? utc_max) then Ok tt else Raise OverflowError.

(** [req_get n rq]: what the call [req_get(path, params)] returns or
    raises when [n] requests were issued before it. *)
Variable req_get : nat -> kline_request -> result kline_payload.

(** [to_epoch_s(now_utc())] at the time of the call. *)
Variable now_s : Z.

Definition kline_path (symbol : string) : string :=
  String.append "/api/v1/contract/kline/" symbol.
Definition index_path (symbol : string) : string :=
  String.append "/api/v1/contract/kline/index_price/" symbol.
Definition fair_path (symbol : string) : string :=
  String.append "/api/v1/contract/kline/fair_price/" symbol.

(** The [while cur_start <= end_s] loop of [fetch_kline_range]. *)
Fixpoint range_loop (fuel : nat) (symbol interval : string) (step end_s : Z)
         (all_df : list (list candle)) (cur_start : Z) (tr : list kline_request)
  : run kline_request (list (list candle)) :=
  match fuel with
  | O => (None, tr)
  | S fuel' =>
      if cur_start <=? end_s then
        let cur_end := Z.min end_s (cur_start + step - 1) in
        let rq := {| rq_path := kline_path symbol; rq_interval := interval;
                     rq_start := Some cur_start; rq_end := cur_end |} in
        match req_get (length tr) rq with
        | Raise e => (Some (Raise e), tr ++ [rq])
        | Ok data =>
            match _kline_payload_to_df to_datetime_s data interval with
            | Raise e => (Some (Raise e), tr ++ [rq])
            | Ok df =>
                let all_df := all_df ++ [df] in
                match (_ ← utcfromtimestamp cur_start; utcfromtimestamp cur_end) with
                | Raise e => (Some (Raise e), tr ++ [rq])
                | Ok _ =>
                    range_loop fuel' symbol interval step end_s all_df (cur_end + 1)
                               (tr ++ [rq])
                end
            end
        end
      else (Some (Ok all_df), tr)
  end.

(** [fetch_kline_range] *)
Definition fetch_kline_range (fuel : nat) (symbol interval : string) (start_s end_s : Z)
  : run kline_request (list candle) :=
  let step := default 60 (INTERVAL_SECONDS !! interval) * KLINE_MAX in
  match range_loop fuel symbol interval step end_s [] start_s [] with
  | (Some (Ok all_df), tr) =>
      (Some (Ok (match all_df with
                 | [] => []
                 | _ => dedup_sort (pd_concat all_df)
                 end)), tr)
  | (Some (Raise e), tr) => (Some (Raise e), tr)
  | (None, tr) => (None, tr)
  end.

(** One pass through the body of the [while True] loop shared,
    statement for statement, by [fetch_kline_full_history],
    [fetch_index_kline_full] and [fetch_fair_kline_full] (they differ
    in the endpoint [path]): the loop is left, by [break] or by an
    exception, or goes round again with new variables. *)
Definition backward_body (path interval : string) (s : bstate)
  : step bstate kline_request (list (list candle)) :=
  let rq := {| rq_path := path; rq_interval := interval;
               rq_start := None; rq_end := st_end_s s |} in
  let tr := st_tr s ++ [rq] in
  match req_get (length (st_tr s)) rq with
  | Raise e => Break (Raise e) tr
  | Ok data =>
      match _kline_payload_to_df to_datetime_s data interval with
      | Raise e => Break (Raise e) tr
      | Ok df =>
          if is_empty df then Break (Ok (st_all_df s)) tr
          else
            let all_df := st_all_df s ++ [df] in
            let earliest := min_t df in
            if Z.of_nat (length df) <? KLINE_MAX then Break (Ok all_df) tr
            else if match st_last_min_t s with
                    | Some m => earliest >=? m
                    | None => false
                    end
            then Break (Ok all_df) tr
            else
              match utcfromtimestamp earliest with
              | Raise e => Break (Raise e) tr
              | Ok _ =>
                  Continue {| st_all_df := all_df; st_last_min_t := Some earliest;
                              st_end_s := earliest - 1; st_tr := tr |}
              end
      end
  end.

(** [while True: body] *)
Fixpoint backward_loop (fuel : nat) (path interval : string) (s : bstate)
  : run kline_request (list (list candle)) :=
  match fuel with
  | O => (None, st_tr s)
  | S fuel' =>
      match backward_body path interval s with
      | Break r tr => (Some r, tr)
      | Continue s' => backward_loop fuel' path interval s'
      end
  end.

(** The loop variables after [n] passes that all went round again. *)
Fixpoint backward_after (n : nat) (path interval : string) (s : bstate) : option bstate :=
  match n with
  | O => Some s
  | S n' =>
      match backward_body path interval s with
      | Break _ _ => None
      | Continue s' => backward_after n' path interval s'
      end
  end.

(** The variables on entry to the loop. *)
Definition backward_init (end_s : Z) : bstate :=
  {| st_all_df := []; st_last_min_t := None; st_end_s := end_s; st_tr := [] |}.

(** [fetch_kline_full_history] *)
Definition fetch_kline_full_history (fuel : nat) (symbol interval : string)
           (end_s : option Z) : run kline_request (list candle) :=
  let end_s := default now_s end_s in
  match backward_loop fuel (kline_path symbol) interval (backward_init end_s) with
  | (Some (Ok all_df), tr) =>
      (Some (Ok (match all_df with
                 | [] => []
                 | _ => dedup_sort (pd_concat all_df)
                 end)), tr)
  | (Some (Raise e), tr) => (Some (Raise e), tr)
  | (None, tr) => (None, tr)
  end.

(** [fetch_index_kline_full] *)
Definition fetch_index_kline_full (fuel : nat) (symbol interval : string)
  : run kline_request (list candle) :=
  match backward_loop fuel (index_path symbol) interval (backward_init now_s) with
  | (Some (Ok all_df), tr) =>
      (Some (Ok (match all_df with [] => [] | _ => pd_concat all_df end)), tr)
  | (Some (Raise e), tr) => (Some (Raise e), tr)
  | (None, tr) => (None, tr)
  end.

(** [fetch_fair_kline_full] *)
Definition fetch_fair_kline_full (fuel : nat) (symbol interval : string)
  : run kline_request (list candle) :=
  match backward_loop fuel (fair_path symbol) interval (backward_init now_s) with
  | (Some (Ok all_df), tr) =>
      (Some (Ok (match all_df with [] => [] | _ => pd_concat all_df end)), tr)
  | (Some (Raise e), tr) => (Some (Raise e), tr)
  | (None, tr) => (None, tr)
  end.

End Paging.

(** *** Vocabulary of the properties and sample upstreams *)

(** A reply with two timestamps, no [open] array and a [high] array of
    one entry. *)
Definition ragged_dict : kline_dict :=
  {| time := Some [1; 2]; open := None; high := Some [JInt 1]; low := None;
     close := None; vol := None; amount := None |}.

(** A reply with two timestamps and only the [close] prices. *)
Definition close_only_dict : kline_dict :=
  {| time := Some [60; 120]; open := None; high := None; low := None;
     close := Some [JInt 7; JInt 8]; vol := None; amount := None |}.

(** A conversion that accepts every timestamp; the text it renders is
    left blank. *)
Definition any_iso (ts : Z) : option string := Some EmptyString.

(** The first, respectively last, row of [acc] with key [k]. *)
Definition first_with_key (k : Z * string) (acc : list candle) : option candle :=
  List.find (fun r => key_eqb k (key_of r)) acc.

Definition last_with_key (k : Z * string) (acc : list candle) : option candle :=
  first_with_key k (rev acc).

(** [out] is strictly ascending by [t] and holds, for every key of
    [acc], the first row of [acc] with that key and nothing else. *)
Definition first_seen_sorted (acc out : list candle) : Prop :=
  StronglySorted (fun a b => col_t a < col_t b) out
  /\ forall r, In r out <-> first_with_key (key_of r) acc = Some r.

(** The same with the last row of each key: what "last-seen wins" asks. *)
Definition last_seen_sorted (acc out : list candle) : Prop :=
  StronglySorted (fun a b => col_t a <= col_t b) out
  /\ forall r, In r out <-> last_with_key (key_of r) acc = Some r.

(** The request the backward loop issues from the variables [s]. *)
Definition backward_request (path interval : string) (s : bstate) : kline_request :=
  {| rq_path := path; rq_interval := interval; rq_start := None; rq_end := st_end_s s |}.

(** An upper bound on the requests of one backward backfill. *)
Definition request_bound (utc_min utc_max : Z) : nat :=
  (Z.to_nat (utc_max - utc_min) + 2)%nat.

(** Every row of every page carries [interval]. *)
Definition pages_of (interval : string) (all_df : list (list candle)) : Prop :=
  Forall (Forall (fun r => col_interval r = interval)) all_df.

(** A reply with the timestamps [ts] and no other array. *)
Definition no_fields (ts : list Z) : kline_dict :=
  {| time := Some ts; open := None; high := None; low := None; close := None;
     vol := None; amount := None |}.

(** Sample upstreams.  [dup_api] answers every request with one page
    that holds the timestamp 5 twice; [history_api] serves a history of
    the timestamps 1000 .. 3999 backwards, a full page first;
    [repeat_api] answers every request with the same full page. *)
Definition dup_page : kline_dict :=
  {| time := Some [5; 5]; open := Some [JInt 1; JInt 2]; high := None; low := None;
     close := None; vol := None; amount := None |}.

Definition dup_api (n : nat) (rq : kline_request) : result kline_payload :=
  Ok (Dict dup_page).

(** The [n] consecutive timestamps from [start] on. *)
Fixpoint count_up (start : Z) (n : nat) : list Z :=
  match n with
  | O => []
  | S n' => start :: count_up (start + 1) n'
  end.

Definition full_page : kline_dict := no_fields (count_up 2000 2000).
Definition tail_page : kline_dict := no_fields (count_up 1000 1000).

Definition history_api (n : nat) (rq : kline_request) : result kline_payload :=
  if rq_end rq >=? 3999 then Ok (Dict full_page)
  else if rq_end rq >=? 1999 then Ok (Dict tail_page)
  else Ok (Dict (no_fields [])).

Definition repeat_api (n : nat) (rq : kline_request) : result kline_payload :=
  Ok (Dict full_page).

(** 0001-01-01 and 9999-12-31T23:59:59 in epoch seconds. *)
Definition year_1 : Z := -62135596800.
Definition year_9999 : Z := 253402300799.

(** Strictly ascending, as a test on the timestamps. *)
Fixpoint ascending_tb (ts : list Z) : bool :=
  match ts with
  | x :: (y :: _) as rest => (x <? y) && ascending_tb rest
  | _ => true
  end.

Definition not_ascending (out : list candle) : bool :=
  negb (ascending_tb (map col_t out)).

Definition blank_row : candle :=
  {| col_t := 0; col_t_iso := ""; col_interval := ""; col_open := JNull;
     col_high := JNull; col_low := JNull; col_close := JNull; col_vol := JNull;
     col_amount := JNull |}.

(** Rows 0 and 2000 exist and have the same key. *)
Definition same_key_0_2000 (out : list candle) : bool :=
  Nat.ltb 2000 (length out)
  && key_eqb (key_of (nth 0 out blank_row)) (key_of (nth 2000 out blank_row)).

(** The run returned a frame after exactly two requests, and the frame
    passes the test [p]. *)
Definition two_requests_and (p : list candle -> bool)
           (r : run kline_request (list candle)) : bool :=
  match r with
  | (Some (Ok out), tr) => Nat.eqb (length tr) 2 && p out
  | _ => false
  end.

(** The rows [dup_page] decodes to. *)
Definition dup_rows : list candle :=
  [ {| col_t := 5; col_t_iso := ""; col_interval := "Min1"; col_open := JInt 1;
       col_high := JNull; col_low := JNull; col_close := JNull; col_vol := JNull;
       col_amount := JNull |};
    {| col_t := 5; col_t_iso := ""; col_interval := "Min1"; col_open := JInt 2;
       col_high := JNull; col_low := JNull; col_close := JNull; col_vol := JNull;
       col_amount := JNull |} ].

End Kline.

(** ** Funding-rate history *)

Module Funding.

(** One element of [rows]. *)
Record funding_row := mk_funding_row {
  symbol : json;
  fundingRate : json;
  settleTime : json;
  settleTime_iso : string
}.

(** The query parameters of one page request. *)
Record funding_request := mk_funding_request {
  rq_symbol : string;
  page_num : Z;
  page_size : Z
}.

(** The variables of the loop, with the requests issued. *)
Record fstate := mk_fstate {
  pg_rows : list funding_row;
  pg_page : Z;
  pg_tr : list funding_request
}.


(** [for x in v]: a list yields its items, a dict its keys, a string
    its characters; the other values are not iterable. *)
Definition iter_json (v : json) : result (list json) :=
  match v with
  | JArr items => Ok items
  | JObj fields => Ok (map (fun kv => JStr (fst kv)) fields)
  | JStr s => Ok (map (fun c => JStr (String c EmptyString)) (list_ascii_of_string s))
  | _ => Raise TypeError
  end.

Section Paging.

(** [datetime.utcfromtimestamp(v / 1000).isoformat()] for the value
    [v = x.get("settleTime", 0)]; it raises for a value that is not a
    number and for a time out of range. *)
Variable isoformat_ms : json -> result string.

(** [int(s)] for a string; [None] where it raises [ValueError]. *)
Variable int_of_str : string -> option Z.

(** [req_get n rq]: what [req_get] returns or raises for the page
    request [rq] when [n] requests were issued before it. *)
Variable req_get : nat -> funding_request -> result json.

(** [int(v)] *)
Definition py_int (v : json) : result Z :=
  match v with
  | JInt z => Ok z
  | JBool b => Ok (if b then 1 else 0)
  | JFloat q => Ok (Z.quot (Qnum q) (Zpos (Qden q)))
  | JStr s => match int_of_str s with Some z => Ok z | None => Raise ValueError end
  | _ => Raise TypeError
  end.

(** The dict appended for one [x]. *)
Definition row_of (x : json) : result funding_row :=
  match x with
  | JObj f =>
      iso ← isoformat_ms (get_or "settleTime" (JInt 0) f);
      Ok {| symbol := get_or "symbol" JNull f;
            fundingRate := get_or "fundingRate" JNull f;
            settleTime := get_or "settleTime" JNull f;
            settleTime_iso := iso |}
  | _ => Raise AttributeError
  end.

(** [for x in data["resultList"]: rows.append({...})] *)
Fixpoint append_rows (rows : list funding_row) (items : list json)
  : result (list funding_row) :=
  match items with
  | [] => Ok rows
  | x :: rest => r ← row_of x; append_rows (rows ++ [r]) rest
  end.

(** One pass through the body of the [while True] loop of
    [get_funding_history]. *)
Definition funding_body (symbol : string) (page_size : Z) (s : fstate)
  : step fstate funding_request (list funding_row) :=
  let page := pg_page s in
  let rq := {| rq_symbol := symbol; page_num := page; page_size := page_size |} in
  let tr := pg_tr s ++ [rq] in
  match req_get (length (pg_tr s)) rq with
  | Raise e => Break (Raise e) tr
  | Ok (JObj data) =>
      match dict_get "resultList" data with
      | None => Break (Ok (pg_rows s)) tr
      | Some result_list =>
          match (items ← iter_json result_list;
                 rows ← append_rows (pg_rows s) items;
                 total_page ← py_int (get_or "totalPage" (JInt page) data);
                 Ok (rows, total_page)) with
          | Raise e => Break (Raise e) tr
          | Ok (rows, total_page) =>
              if page >=? total_page then Break (Ok rows) tr
              else Continue {| pg_rows := rows; pg_page := page + 1; pg_tr := tr |}
          end
      end
  | Ok _ => Break (Ok (pg_rows s)) tr
  end.

(** [while True: body] *)
Fixpoint funding_loop (fuel : nat) (symbol : string) (page_size : Z) (s : fstate)
  : run funding_request (list funding_row) :=
  match fuel with
  | O => (None, pg_tr s)
  | S fuel' =>
      match funding_body symbol page_size s with
      | Break r tr => (Some r, tr)
      | Continue s' => funding_loop fuel' symbol page_size s'
      end
  end.

(** The loop variables after [n] passes that all went round again. *)
Fixpoint funding_after (n : nat) (symbol : string) (page_size : Z) (s : fstate)
  : option fstate :=
  match n with
  | O => Some s
  | S n' =>
      match funding_body symbol page_size s with
      | Break _ _ => None
      | Continue s' => funding_after n' symbol page_size s'
      end
  end.

Definition funding_init : fstate := {| pg_rows := []; pg_page := 1; pg_tr := [] |}.

(** [get_funding_history]; [pd.DataFrame(rows)] is kept as [rows]. *)
Definition get_funding_history (fuel : nat) (symbol : string) (page_size : Z)
  : run funding_request (list funding_row) :=
  funding_loop fuel symbol page_size funding_init.

End Paging.

(** *** Vocabulary of the properties and sample upstreams *)

(** The request the loop issues from the variables [s]. *)
Definition request_of (symbol : string) (page_size : Z) (s : fstate) : funding_request :=
  {| rq_symbol := symbol; page_num := pg_page s; page_size := page_size |}.

(** The requests for the [k] pages from page [p] on. *)
Definition pages_from (symbol : string) (page_size p : Z) (k : nat) : list funding_request :=
  map (fun i => {| rq_symbol := symbol; page_num := p + Z.of_nat i; page_size := page_size |})
      (seq 0 k).
Arguments pages_from : simpl never.

(** [isinstance(data, dict)] fails or ["resultList"] is not a key. *)
Definition lacks_result_list (v : json) : Prop :=
  match v with
  | JObj data => dict_get "resultList" data = None
  | _ => True
  end.

(** Sample upstreams: every page is empty and declares one page more
    than its own number; every page holds one record and declares three
    pages; the first page is such a page and the second is not a dict. *)
Definition growing_api (n : nat) (rq : funding_request) : result json :=
  Ok (JObj [("resultList", JArr []); ("totalPage", JInt (page_num rq + 1))]%string).

Definition three_pages_api (n : nat) (rq : funding_request) : result json :=
  Ok (JObj [("resultList", JArr [JObj [("symbol", JStr "XAUT_USDT");
                                       ("settleTime", JInt (page_num rq))]]);
            ("totalPage", JInt 3)]%string).

Definition broken_second_page_api (n : nat) (rq : funding_request) : result json :=
  if page_num rq =? 1 then three_pages_api n rq else Ok (JArr []).

(** Stand-ins for the two library conversions: every settle time
    converts (to a blank text), no string is a number. *)
Definition iso_stub (v : json) : result string := Ok EmptyString.
Definition int_stub (x : string) : option Z := None.

End Funding.

(** ** The stream recorder *)

Module Recorder.

(** The attributes [__init__] sets; the threading handles ([_stop],
    [_ws], [_ping_thread]) are left to the session model below. *)
Record MexcWSRecorder := mk_recorder {
  symbol : string;
  outdir : string;
  run_seconds : Z;
  depth_limit : Z;
  ws_url : string;
  files : gmap string string
}.

(** The file system: path to content. *)
Abbreviation filesystem := (gmap string string).

Definition nl : string := String (ascii_of_nat 10) EmptyString.
Definition sep : ascii := ascii_of_nat 47.

Fixpoint ends_with_sep (a : string) : bool :=
  match a with
  | EmptyString => false
  | String c EmptyString => Ascii.eqb c sep
  | String _ rest => ends_with_sep rest
  end.

(** [os.path.join(a, b)] (POSIX). *)
Definition path_join (a b : string) : string :=
  match b with
  | String c _ =>
      if Ascii.eqb c sep then b
      else if String.eqb a EmptyString || ends_with_sep a then String.append a b
      else String.append a (String sep b)
  | EmptyString =>
      if String.eqb a EmptyString || ends_with_sep a then a
      else String.append a (String sep EmptyString)
  end.

(** The items of [self.files], in insertion order. *)
Definition sink_files (outdir : string) : list (string * string) :=
  [("deal", path_join outdir "stream_deal.csv");
   ("depth", path_join outdir "stream_depth_full.csv");
   ("ticker", path_join outdir "stream_ticker.csv");
   ("index", path_join outdir "stream_index_price.csv");
   ("fair", path_join outdir "stream_fair_price.csv");
   ("funding", path_join outdir "stream_funding_rate.csv")]%string.

Definition header_of (k : string) : string :=
  if String.eqb k "deal" then String.append "ts,symbol,p,v,T,O,M,t" nl
  else if String.eqb k "depth" then
    String.append "ts,symbol,limit,version,asks_json,bids_json" nl
  else if String.eqb k "ticker" then
    String.append
      "ts,symbol,lastPrice,bid1,ask1,volume24,holdVol,indexPrice,fairPrice,fundingRate" nl
  else if String.eqb k "index" then String.append "ts,symbol,price" nl
  else if String.eqb k "fair" then String.append "ts,symbol,price" nl
  else if String.eqb k "funding" then String.append "ts,symbol,rate" nl
  else EmptyString.

(** [open(path, "a")], once it has succeeded, has created a missing
    file; [f.write(text)] extends the content. *)
Definition open_append (path : string) (fs : filesystem) : filesystem :=
  match fs !! path with
  | Some _ => fs
  | None => <[path := EmptyString]> fs
  end.

Definition write (path text : string) (fs : filesystem) : filesystem :=
  <[path := String.append (default EmptyString (fs !! path)) text]> fs.

(** [d.get(k, default)] on a value that should be a dict. *)
Definition data_get (d : json) (k : string) (default : json) : result json :=
  match d with
  | JObj f => Ok (get_or k default f)
  | _ => Raise AttributeError
  end.

(** [ch == lit] for a string literal. *)
Definition is_str (ch : json) (lit : string) : bool :=
  match ch with
  | JStr s => String.eqb s lit
  | _ => false
  end.

Fixpoint join_strs (sepr : string) (l : list string) : string :=
  match l with
  | [] => EmptyString
  | [x] => x
  | x :: rest => String.append x (String.append sepr (join_strs sepr rest))
  end.

(** [",".join(row)]: [TypeError] unless every item is a [str]. *)
Fixpoint strs_of (row : list json) : result (list string) :=
  match row with
  | [] => Ok []
  | JStr x :: rest => xs ← strs_of rest; Ok (x :: xs)
  | _ :: _ => Raise TypeError
  end.

Definition join_comma (row : list json) : result string :=
  xs ← strs_of row; Ok (join_strs "," xs).

(** The dict [_on_open] passes to [_send] for one subscription. *)
Definition subscription (method : string) (param : list (string * json)) : json :=
  JObj [("method", JStr method); ("param", JObj param)]%string.

(** The two daemon threads [_on_open] starts: [_ping_loop] sends a ping
    frame at once and again after every [ping_every] seconds until
    [_stop] is set; [_stopper] sleeps [stop_after] seconds, sets [_stop]
    and closes the connection. *)
Record timers := mk_timers {
  ping_every : Z;
  stop_after : Z
}.

(** *** The connection, as [run_forever] presents it

    Times are seconds after the connection opened.  A frame comes with
    the value [int(time.time() * 1000)] has when its handler reads the
    clock. *)
Record frame := mk_frame {
  arrives : Q;
  clock_ms : Z;
  text : string
}.

(** [refused]: the exception of a handshake that fails ([None] when the
    connection opens); [lost_after]: when the peer closes the connection
    or it breaks ([None]: it never does); [inbox]: the text frames
    received, in order of arrival. *)
Record connection := mk_connection {
  refused : option exn;
  lost_after : option Q;
  inbox : list frame
}.

(** What one call of [run] amounts to: how long [run_forever] ran after
    the connection opened ([None]: it does not return), the frames
    [_on_open] sent, the exceptions [_on_error] was called with, and the
    files. *)
Record session := mk_session {
  duration : option Q;
  sent : list string;
  errors : list exn;
  files_after : filesystem
}.

Definition earlier (a b : Q) : Q := if Qle_bool a b then a else b.

(** When [_stopper] closes the connection: [time.sleep] raises
    [ValueError] for a negative length, which ends that thread before
    it closes anything. *)
Definition stopper_fires (t : timers) : option Q :=
  if stop_after t <? 0 then None else Some (inject_Z (stop_after t)).

(** [run_forever] returns when the connection is closed, by [_stopper]
    or from outside, whichever comes first. *)
Definition session_end (t : timers) (c : connection) : option Q :=
  match lost_after c, stopper_fires t with
  | Some lost, Some stop => Some (earlier lost stop)
  | Some lost, None => Some lost
  | None, stop => stop
  end.

(** The frames that arrive while the connection is open. *)
Definition arrives_before (end_s : option Q) (f : frame) : bool :=
  match end_s with
  | Some e => negb (Qle_bool e (arrives f))
  | None => true
  end.

Section Session.

(** Whether [open(path, mode)] succeeds for writing or appending: it
    raises [OSError] ([FileNotFoundError], [PermissionError]) where the
    directory is missing or may not be written. *)
Variable can_open : string -> bool.
(** [json.loads]; [None] where it raises. *)
Variable json_loads : string -> option json.
(** [str(v)] for a value that is not a [str]. *)
Variable str_of : json -> string.
(** [json.dumps(v)] and [json.dumps(v, ensure_ascii=False)]. *)
Variable json_dumps : json -> string.
Variable json_dumps_noascii : json -> string.

(** The header loop of [__init__]: a path that exists is skipped, a
    missing one is opened with mode ["w"] and gets its header; a failing
    [open] ends the loop with its exception. *)
Fixpoint init_headers (items : list (string * string)) (fs : filesystem)
  : result unit * filesystem :=
  match items with
  | [] => (Ok tt, fs)
  | (k, path) :: rest =>
      match fs !! path with
      | Some _ => init_headers rest fs
      | None =>
          if can_open path then init_headers rest (<[path := header_of k]> fs)
          else (Raise OSError, fs)
      end
  end.

(** [MexcWSRecorder.__init__] *)
Definition __init__ (symbol outdir : string) (run_seconds depth_limit : Z)
           (fs : filesystem) : result MexcWSRecorder * filesystem :=
  match init_headers (sink_files outdir) fs with
  | (Ok _, fs') =>
      (Ok {| symbol := symbol;
             outdir := outdir;
             run_seconds := Z.max 10 run_seconds;
             depth_limit := depth_limit;
             ws_url := "wss://contract.mexc.com/edge";
             files := list_to_map (sink_files outdir) |}, fs')
  | (Raise e, fs') => (Raise e, fs')
  end.

(** [str(v)], also what an f-string puts for [{v}]. *)
Definition py_str (v : json) : string :=
  match v with
  | JStr x => x
  | _ => str_of v
  end.

(** [with open(self.files[k], "a") as f: f.write(line + "\n")], where
    [line] is evaluated after the file is opened. *)
Definition append_line (self : MexcWSRecorder) (k : string) (line : result string)
           (fs : filesystem) : result unit * filesystem :=
  match files self !! k with
  | None => (Raise KeyError, fs)
  | Some path =>
      if can_open path then
        let fs := open_append path fs in
        match line with
        | Raise e => (Raise e, fs)
        | Ok text => (Ok tt, write path (String.append text nl) fs)
        end
      else (Raise OSError, fs)
  end.

(** The statement [if ch == ... elif ...] that ends [_on_message],
    for a decoded dict [obj]. *)
Definition route (self : MexcWSRecorder) (ch ts sym data : json) (fs : filesystem)
  : result unit * filesystem :=
  let s v := JStr (py_str v) in
  if is_str ch "push.deal" then
    match (p ← data_get data "p" (JStr ""); v ← data_get data "v" (JStr "");
           T ← data_get data "T" (JStr ""); O ← data_get data "O" (JStr "");
           M ← data_get data "M" (JStr ""); t ← data_get data "t" (JStr "");
           Ok [s ts; sym; s p; s v; s T; s O; s M; s t]) with
    | Raise e => (Raise e, fs)
    | Ok row => append_line self "deal" (join_comma row) fs
    end
  else if is_str ch "push.depth" then
    match (asks ← data_get data "asks" (JArr []);
           bids ← data_get data "bids" (JArr []);
           version ← data_get data "version" (JStr "");
           let asks_json := json_dumps_noascii asks in
           let bids_json := json_dumps_noascii bids in
           Ok [s ts; sym; s (JInt (depth_limit self)); s version;
               JStr (json_dumps (JStr asks_json)); JStr (json_dumps (JStr bids_json))]) with
    | Raise e => (Raise e, fs)
    | Ok row => append_line self "depth" (join_comma row) fs
    end
  else if is_str ch "push.ticker" then
    let d := py_or data (JObj []) in
    match (lastPrice ← data_get d "lastPrice" (JStr ""); bid1 ← data_get d "bid1" (JStr "");
           ask1 ← data_get d "ask1" (JStr ""); volume24 ← data_get d "volume24" (JStr "");
           holdVol ← data_get d "holdVol" (JStr "");
           indexPrice ← data_get d "indexPrice" (JStr "");
           fairPrice ← data_get d "fairPrice" (JStr "");
           fundingRate ← data_get d "fundingRate" (JStr "");
           Ok [s ts; sym; s lastPrice; s bid1; s ask1; s volume24; s holdVol;
               s indexPrice; s fairPrice; s fundingRate]) with
    | Raise e => (Raise e, fs)
    | Ok row => append_line self "ticker" (join_comma row) fs
    end
  else if is_str ch "push.index.price" then
    match data_get data "price" (JStr "") with
    | Raise e => (Raise e, fs)
    | Ok price =>
        append_line self "index"
          (Ok (join_strs "," [py_str ts; py_str sym; py_str price])) fs
    end
  else if is_str ch "push.fair.price" then
    match data_get data "price" (JStr "") with
    | Raise e => (Raise e, fs)
    | Ok price =>
        append_line self "fair"
          (Ok (join_strs "," [py_str ts; py_str sym; py_str price])) fs
    end
  else if is_str ch "push.funding.rate" then
    match data_get data "rate" (JStr "") with
    | Raise e => (Raise e, fs)
    | Ok rate =>
        append_line self "funding"
          (Ok (join_strs "," [py_str ts; py_str sym; py_str rate])) fs
    end
  else (Ok tt, fs).

(** [MexcWSRecorder._on_message]; [now_ms] is [int(time.time() * 1000)]. *)
Definition _on_message (self : MexcWSRecorder) (now_ms : Z) (message : string)
           (fs : filesystem) : result unit * filesystem :=
  match json_loads message with
  | None => (Ok tt, fs)
  | Some (JObj obj) =>
      let ch := py_or (get_or "channel" JNull obj) (JStr "") in
      let ts := py_or (get_or "ts" JNull obj) (JInt now_ms) in
      let sym := py_or (get_or "symbol" JNull obj) (JStr (symbol self)) in
      let data := get_or "data" (JObj []) obj in
      route self ch ts sym data fs
  | Some _ => (Raise AttributeError, fs)
  end.

(** [MexcWSRecorder._on_open]: the six frames [_send] sends, in order,
    and the two threads started. *)
Definition _on_open (self : MexcWSRecorder) : list string * timers :=
  let sym := ("symbol", JStr (symbol self)) in
  (map json_dumps
       [subscription "sub.ticker" [sym];
        subscription "sub.deal" [sym];
        subscription "sub.depth.full" [sym; ("limit", JInt (depth_limit self))];
        subscription "sub.index.price" [sym];
        subscription "sub.fair.price" [sym];
        subscription "sub.funding.rate" [sym]]%string,
   {| ping_every := 15; stop_after := run_seconds self |}).

(** The receive loop of [run_forever]: every frame is handed to
    [_on_message]; an exception of the handler is handed to [_on_error],
    which prints it, and the loop goes on. *)
Fixpoint deliver (self : MexcWSRecorder) (frames : list frame) (errs : list exn)
         (fs : filesystem) : list exn * filesystem :=
  match frames with
  | [] => (errs, fs)
  | f :: rest =>
      match _on_message self (clock_ms f) (text f) fs with
      | (Ok _, fs') => deliver self rest errs fs'
      | (Raise e, fs') => deliver self rest (errs ++ [e]) fs'
      end
  end.

(** [MexcWSRecorder.run]: [run_forever] over the connection [c].  A
    handshake that fails is reported to [_on_error] and [run_forever]
    returns at once; otherwise [_on_open] runs, and the frames that
    arrive before the connection is closed are delivered. *)
Definition MexcWSRecorder_run (self : MexcWSRecorder) (c : connection) (fs : filesystem)
  : session :=
  match refused c with
  | Some e => {| duration := Some 0%Q; sent := []; errors := [e]; files_after := fs |}
  | None =>
      let opened := _on_open self in
      let end_s := session_end (snd opened) c in
      let done := deliver self (List.filter (arrives_before end_s) (inbox c)) [] fs in
      {| duration := end_s; sent := fst opened; errors := fst done;
         files_after := snd done |}
  end.

(** *** Vocabulary of the properties *)

(** The file name and the [data] fields of each channel's rows, and
    the line a push of channel [c] with time [ts], symbol [sym] and
    data [d] is to leave in that file. *)
Definition sink_name (c : string) : string :=
  if String.eqb c "push.deal" then "stream_deal.csv"
  else if String.eqb c "push.depth" then "stream_depth_full.csv"
  else if String.eqb c "push.ticker" then "stream_ticker.csv"
  else if String.eqb c "push.index.price" then "stream_index_price.csv"
  else if String.eqb c "push.fair.price" then "stream_fair_price.csv"
  else if String.eqb c "push.funding.rate" then "stream_funding_rate.csv"
  else EmptyString.

Definition sink_path (self : MexcWSRecorder) (c : string) : string :=
  path_join (outdir self) (sink_name c).

Definition data_fields (c : string) : list string :=
  if String.eqb c "push.deal" then ["p"; "v"; "T"; "O"; "M"; "t"]%string
  else if String.eqb c "push.ticker" then
    ["lastPrice"; "bid1"; "ask1"; "volume24"; "holdVol"; "indexPrice"; "fairPrice";
     "fundingRate"]%string
  else if String.eqb c "push.index.price" then ["price"]%string
  else if String.eqb c "push.fair.price" then ["price"]%string
  else if String.eqb c "push.funding.rate" then ["rate"]%string
  else [].

Definition expected_line (self : MexcWSRecorder) (c : string) (ts sym : json)
           (d : list (string * json)) : string :=
  if String.eqb c "push.depth" then
    join_strs ","
      [py_str ts; py_str sym; py_str (JInt (depth_limit self));
       py_str (get_or "version" (JStr "") d);
       json_dumps (JStr (json_dumps_noascii (get_or "asks" (JArr []) d)));
       json_dumps (JStr (json_dumps_noascii (get_or "bids" (JArr []) d)))]
  else
    join_strs ","
      (py_str ts :: py_str sym
         :: map (fun k => py_str (get_or k (JStr "") d)) (data_fields c)).

(** The message is dropped: the handler returns without raising and
    without touching a file, and the session goes on as if the frame
    had not arrived, whatever else the connection carries. *)
Definition dropped_quietly (self : MexcWSRecorder) (now_ms : Z) (message : string)
           (fs : filesystem) : Prop :=
  _on_message self now_ms message fs = (Ok tt, fs)
  /\ forall (c c' : connection) pre post f fs0,
      text f = message ->
      inbox c = pre ++ f :: post ->
      inbox c' = pre ++ post ->
      refused c' = refused c ->
      lost_after c' = lost_after c ->
      MexcWSRecorder_run self c fs0 = MexcWSRecorder_run self c' fs0.

End Session.

(** The six channel tags [_on_message] acts on. *)
Definition channels : list string :=
  ["push.deal"; "push.depth"; "push.ticker"; "push.index.price"; "push.fair.price";
   "push.funding.rate"]%string.

(** *** Samples *)

Definition always_open (path : string) : bool := true.
Definition never_open (path : string) : bool := false.

(** The recorder [__init__] builds for the directory [out] and
    [run_seconds=r], and sample messages as [json.loads] returns them:
    an index-price push, and a ticker push whose [data] is a string. *)
Definition recorder_for (r : Z) : MexcWSRecorder :=
  {| symbol := "XAUT_USDT"; outdir := "out"; run_seconds := Z.max 10 r; depth_limit := 20;
     ws_url := "wss://contract.mexc.com/edge"; files := list_to_map (sink_files "out") |}.

Definition sample_recorder : MexcWSRecorder := recorder_for 180.

Definition index_push : json :=
  JObj [("channel", JStr "push.index.price"); ("ts", JInt 1700000000000);
        ("symbol", JStr "XAUT_USDT"); ("data", JObj [("price", JInt 3)])]%string.

Definition odd_ticker_push : json :=
  JObj [("channel", JStr "push.ticker"); ("data", JStr "x")]%string.

(** A stand-in for [str] and [json.dumps]: every text is blank. *)
Definition str_stub (v : json) : string := EmptyString.

(** A stand-in for [str] that prints the two integers of [index_push]. *)
Definition digits_stub (v : json) : string :=
  match v with
  | JInt 3 => "3"
  | JInt 1700000000000 => "1700000000000"
  | _ => EmptyString
  end.

(** A connection that opens and stays up, and one that the peer closes
    three seconds after it opened. *)
Definition steady : connection :=
  {| refused := None; lost_after := None; inbox := [] |}.

Definition cut_at_3 : connection :=
  {| refused := None; lost_after := Some (3 # 1); inbox := [] |}.

(** The channel tag of a decoded dict, as [_on_message] reads it. *)
Definition channel_of (obj : list (string * json)) : json :=
  py_or (get_or "channel" JNull obj) (JStr "").

End Recorder.

(** ** One-shot endpoints and the main workflow *)

Module Glue.
Import Client Kline.

Definition OUTDIR : string := "mexc_xaut_usdt".

Definition KLINE_INTERVALS : list string :=
  ["Min1"; "Min5"; "Min15"; "Min30"; "Min60"; "Hour4"; "Day1"]%string.

(** One row of the frame [_depth_side_to_df] returns. *)
Record depth_row := mk_depth_row {
  side : string;
  price : json;
  volume : json;
  order_count : json
}.

(** [x[i] if len(x) > i else None] *)
Definition item_or_none (x : list json) (i : nat) : json :=
  if Nat.ltb i (length x) then nth i x JNull else JNull.

(** [_depth_side_to_df], the helper local to [main]; its argument is
    typed [list[list[float]] | None] in the source. *)
Definition _depth_side_to_df (side : option (list (list json))) (side_name : string)
  : list depth_row :=
  map (fun x => {| side := side_name;
                   price := item_or_none x 0;
                   volume := item_or_none x 1;
                   order_count := item_or_none x 2 |})
      (default [] side).

Section Endpoints.

Variable requests_get : string -> option (list (string * json)) -> nat -> http_result.
(** [int(s)] for a string; [None] where it raises [ValueError]. *)
Variable int_of_str : string -> option Z.

(** What [get_server_time] makes of the value [req_get] returned.  A
    [bool] is an [int] for [isinstance] and is returned as it is. *)
Definition server_time_of (data : json) : result json :=
  let int_of (v : json) := z ← Funding.py_int int_of_str v; Ok (JInt z) in
  match data with
  | JInt _ | JBool _ => Ok data
  | JObj f =>
      if dict_has "data" f then int_of (get_or "data" JNull f)
      else int_of (py_or data (JInt 0))
  | _ => int_of (py_or data (JInt 0))
  end.

(** [get_server_time] *)
Definition get_server_time : result json * list event :=
  match req_get requests_get "/api/v1/contract/ping" None with
  | (Ok data, tr) => (server_time_of data, tr)
  | (Raise e, tr) => (Raise e, tr)
  end.

End Endpoints.

Section Main.

(** [df.to_csv(path, index=False)]: the text written for a frame. *)
Variable to_csv : list candle -> string.

(** [save_csv]: the file is created or overwritten. *)
Definition save_csv (df : list candle) (filename : string)
           (fs : gmap string string) : gmap string string :=
  <[Recorder.path_join OUTDIR filename := to_csv df]> fs.

Definition kline_filename (itv : string) : string :=
  String.append "kline_" (String.append itv ".csv").

(** One round of the loop [for itv in KLINE_INTERVALS] of [main]:
    [fetch] is the outcome of the backfill call for [itv]; the [except]
    clause prints and goes on. *)
Definition main_kline_round (fetch : string -> result (list candle))
           (fs : gmap string string) (itv : string) : gmap string string :=
  match fetch itv with
  | Ok df => if is_empty df then fs else save_csv df (kline_filename itv) fs
  | Raise _ => fs
  end.

Definition main_klines (fetch : string -> result (list candle))
           (fs : gmap string string) : gmap string string :=
  fold_left (main_kline_round fetch) KLINE_INTERVALS fs.

End Main.

End Glue.

(** ** Further vocabulary of the properties *)

Module Vocab.
Import Client Kline Funding.

(** The seconds slept in a trace of [req_get]. *)
Fixpoint total_sleep (tr : list event) : Q :=
  match tr with
  | [] => 0
  | EvSleep secs :: rest => (secs + total_sleep rest)%Q
  | EvGet _ _ :: rest => total_sleep rest
  end.

(** [tr] is the sequence of windows that tiles [cur .. end_s] in steps
    of [step] seconds. *)
Fixpoint tiles (path interval : string) (step end_s cur : Z) (tr : list kline_request)
  : Prop :=
  match tr with
  | [] => end_s < cur
  | rq :: rest =>
      cur <= end_s
      /\ rq = {| rq_path := path; rq_interval := interval; rq_start := Some cur;
                 rq_end := Z.min end_s (cur + step - 1) |}
      /\ tiles path interval step end_s (Z.min end_s (cur + step - 1) + 1) rest
  end.

(** The requests [tr] of a forward backfill of [start_s .. end_s]: none
    iff the range is empty; the first window starts at [start_s], every
    next one a second after the previous ended, the last one ends at
    [end_s]; every window lies in the range and spans at most [step]
    seconds. *)
Definition covers_range (path interval : string) (step start_s end_s : Z)
           (tr : list kline_request) : Prop :=
  (tr = [] <-> end_s < start_s)
  /\ (forall rq rest, tr = rq :: rest -> rq_start rq = Some start_s)
  /\ (forall i rq rq', tr !! i = Some rq -> tr !! S i = Some rq' ->
                       rq_start rq' = Some (rq_end rq + 1))
  /\ (forall rq, last tr = Some rq -> rq_end rq = end_s)
  /\ (forall rq, In rq tr ->
                 rq_path rq = path /\ rq_interval rq = interval
                 /\ exists s, rq_start rq = Some s
                              /\ start_s <= s <= rq_end rq /\ rq_end rq <= end_s
                              /\ rq_end rq < s + step).

(** The pages accumulated by rounds of a backward loop that all went
    on: full pages whose earliest timestamps strictly decrease, with
    the cursor one second before everything in the latest page. *)
Definition walks_backward (s : bstate) : Prop :=
  StronglySorted (fun a b => min_t b < min_t a) (st_all_df s)
  /\ Forall (fun df => KLINE_MAX <= Z.of_nat (length df)) (st_all_df s)
  /\ length (st_all_df s) = length (st_tr s)
  /\ match last (st_all_df s) with
     | None => st_last_min_t s = None
     | Some df =>
         st_last_min_t s = Some (min_t df)
         /\ st_end_s s = min_t df - 1
         /\ Forall (fun r => st_end_s s < col_t r) df
     end.

(** Every sink file is there; a file that existed keeps its content, a
    new one holds the header of its channel; no other path changes. *)
Definition headers_written (outdir : string) (fs fs' : gmap string string) : Prop :=
  (forall k path, In (k, path) (Recorder.sink_files outdir) ->
                  fs' !! path = Some (default (Recorder.header_of k) (fs !! path)))
  /\ (forall p, ~ In p (map snd (Recorder.sink_files outdir)) -> fs' !! p = fs !! p).

(** [fs'] extends [fs]: every file keeps what it held, at its start,
    and at most the file [path] differs. *)
Definition appends_only (fs fs' : gmap string string) : Prop :=
  (forall p c, fs !! p = Some c ->
               exists more, fs' !! p = Some (String.append c more))
  /\ exists path, forall p, p <> path -> fs' !! p = fs !! p.

(** Sample upstreams for the forward and backward loops. *)
Definition empty_api (n : nat) (rq : kline_request) : result kline_payload :=
  Ok (Dict (no_fields [])).

Definition failing_api (n : nat) (rq : kline_request) : result kline_payload :=
  Raise ConnectionError.

(** A page without [totalPage]; a page whose [resultList] holds a
    number. *)
Definition untotalled_api (n : nat) (rq : funding_request) : result json :=
  Ok (JObj [("resultList", JArr [JObj [("symbol", JStr "XAUT_USDT")]])]%string).

Definition bad_item_api (n : nat) (rq : funding_request) : result json :=
  Ok (JObj [("resultList", JArr [JInt 7]); ("totalPage", JInt 1)]%string).

(** A fetch that fails for ["Min5"] and returns the rows [dup_rows] for
    every other interval. *)
Definition patchy_fetch (itv : string) : result (list candle) :=
  if String.eqb itv "Min5" then Raise ConnectionError else Ok dup_rows.

Definition csv_stub (df : list candle) : string := "csv".

(** A transport that answers at once with the documented ping reply. *)
Definition ping_transport (url : string) (params : option (list (string * json)))
           (attempt : nat) : http_result :=
  HttpBody (JObj [("success", JBool true); ("data", JInt 1587442022003)]%string).

(** The path [main] saves the k-lines of [itv] under, and what the round
    of [main]'s loop for [itv] leaves there. *)
Definition kline_csv (itv : string) : string :=
  Recorder.path_join Glue.OUTDIR (Glue.kline_filename itv).

Definition kline_file_after (to_csv : list candle -> string)
           (fetch : string -> result (list candle))
           (fs : gmap string string) (itv : string) : option string :=
  match fetch itv with
  | Ok df => if is_empty df then fs !! kline_csv itv else Some (to_csv df)
  | Raise _ => fs !! kline_csv itv
  end.

(** The row [three_pages_api] yields on page [i]. *)
Definition funding_row_at (i : Z) : funding_row :=
  {| symbol := JStr "XAUT_USDT"; fundingRate := JNull; settleTime := JInt i;
     settleTime_iso := "" |}.

End Vocab.

(** * Properties *)

(** ** The GET helper retries at most five times *)

Module ClientSpec.
Import Client.

Lemma backoff_tenths (attempt : nat) :
  (backoff attempt == inject_Z (6 * (Z.of_nat attempt + 1)) / 10)%Q.
Proof.
  unfold backoff, Qeq, Qdiv, Qmult, Qinv, inject_Z. simpl. lia.
Qed.

Lemma attempts_of_retry_trace (url : string) (k : nat) :
  attempts_of (retry_trace url k) = S k.
Proof.
  unfold attempts_of, retry_trace.
  rewrite List.filter_app, List.length_app. simpl.
  assert (H : forall n m,
             List.length
               (List.filter (fun ev => match ev with EvGet _ _ => true | _ => false end)
                  (List.flat_map (fun i => [EvGet url i; EvSleep (nth i pauses 0%Q)])
                                 (seq m n)))
             = n).
  { induction n as [|n IH]; intros m; simpl; [reflexivity | now rewrite IH]. }
  rewrite H. lia.
Qed.

Lemma pauses_formula (i : nat) (q : Q) :
  nth_error pauses i = Some q -> (q == (6 # 10) * inject_Z (Z.of_nat i + 1))%Q.
Proof.
  intros H. destruct i as [|[|[|[|i]]]]; simpl in H;
    try (injection H as <-; reflexivity).
  destruct i; discriminate H.
Qed.

Lemma nth_error_firstn_Some {A : Type} (n i : nat) (l : list A) (x : A) :
  nth_error (firstn n l) i = Some x -> nth_error l i = Some x.
Proof.
  revert n l. induction i as [|i IH]; intros [|n] [|a l] H; simpl in *;
    try discriminate H; [exact H | now apply (IH n)].
Qed.

(** C6. Every call of [req_get] makes at most five attempts, and
    between attempts it sleeps 0.6 s, 1.2 s, 1.8 s and 2.4 s, in this
    order: 0.6 s times the number of the attempt that failed, one sleep
    fewer than attempts.  When the attempts before the [k]-th failed
    and the [k]-th (k < 5) succeeds, the call returns the body,
    unwrapped from its envelope, after exactly [k + 1] attempts, each
    failed one followed by its sleep.  When all five attempts fail, the
    exception of the fifth is raised after exactly five attempts and
    four sleeps; there is no sixth attempt. *)
Theorem req_get_bounded_retry
  (requests_get : string -> option (list (string * json)) -> nat -> http_result)
  (path : string) (params : option (list (string * json))) :
  let url := String.append BASE path in
  let out := req_get requests_get path params in
  (attempts_of (snd out) <= 5)%nat
  /\ sleeps_of (snd out)
     = firstn (attempts_of (snd out) - 1) [6 # 10; 12 # 10; 18 # 10; 24 # 10]%Q
  /\ (forall i q, nth_error (sleeps_of (snd out)) i = Some q ->
                  (q == (6 # 10) * inject_Z (Z.of_nat i + 1))%Q)
  /\ (forall k data,
        (k < 5)%nat ->
        (forall i, (i < k)%nat -> exists e, requests_get url params i = HttpError e) ->
        requests_get url params k = HttpBody data ->
        out = (Ok (unwrap data), retry_trace url k))
  /\ (forall e4,
        (forall i, (i < 4)%nat -> exists e, requests_get url params i = HttpError e) ->
        requests_get url params 4%nat = HttpError e4 ->
        out = (Raise e4, retry_trace url 4)).
Proof.
  intros url out. subst out. unfold req_get. fold url.
  assert (Hsleeps :
            sleeps_of (snd (req_get_loop requests_get url params (seq 0 5) []))
            = firstn (attempts_of (snd (req_get_loop requests_get url params (seq 0 5) []))
                      - 1) pauses).
  { simpl.
    destruct (requests_get url params 0%nat); [|vm_compute; reflexivity].
    destruct (requests_get url params 1%nat); [|vm_compute; reflexivity].
    destruct (requests_get url params 2%nat); [|vm_compute; reflexivity].
    destruct (requests_get url params 3%nat); [|vm_compute; reflexivity].
    destruct (requests_get url params 4%nat); vm_compute; reflexivity. }
  split; [|split; [|split; [|split]]].
  - unfold attempts_of. simpl.
    destruct (requests_get url params 0%nat); [|cbn; rewrite ?List.filter_app; cbn; lia].
    destruct (requests_get url params 1%nat); [|cbn; rewrite ?List.filter_app; cbn; lia].
    destruct (requests_get url params 2%nat); [|cbn; rewrite ?List.filter_app; cbn; lia].
    destruct (requests_get url params 3%nat); [|cbn; rewrite ?List.filter_app; cbn; lia].
    destruct (requests_get url params 4%nat); cbn; rewrite ?List.filter_app; cbn; lia.
  - exact Hsleeps.
  - intros i q H. rewrite Hsleeps in H.
    apply nth_error_firstn_Some in H. now apply pauses_formula.
  - intros k data Hk Hfail Hok.
    assert (F : forall i, (i < k)%nat ->
                match requests_get url params i with HttpError _ => True | _ => False end).
    { intros i Hi. destruct (Hfail i Hi) as [e ->]. exact I. }
    clear Hfail Hsleeps. simpl.
    destruct k as [|[|[|[|[|k]]]]]; try lia.
    + rewrite Hok. reflexivity.
    + pose proof (F 0%nat ltac:(lia)) as F0.
      destruct (requests_get url params 0%nat); [|contradiction].
      rewrite Hok. reflexivity.
    + pose proof (F 0%nat ltac:(lia)) as F0. pose proof (F 1%nat ltac:(lia)) as F1.
      destruct (requests_get url params 0%nat); [|contradiction].
      destruct (requests_get url params 1%nat); [|contradiction].
      rewrite Hok. reflexivity.
    + pose proof (F 0%nat ltac:(lia)) as F0. pose proof (F 1%nat ltac:(lia)) as F1.
      pose proof (F 2%nat ltac:(lia)) as F2.
      destruct (requests_get url params 0%nat); [|contradiction].
      destruct (requests_get url params 1%nat); [|contradiction].
      destruct (requests_get url params 2%nat); [|contradiction].
      rewrite Hok. reflexivity.
    + pose proof (F 0%nat ltac:(lia)) as F0. pose proof (F 1%nat ltac:(lia)) as F1.
      pose proof (F 2%nat ltac:(lia)) as F2. pose proof (F 3%nat ltac:(lia)) as F3.
      destruct (requests_get url params 0%nat); [|contradiction].
      destruct (requests_get url params 1%nat); [|contradiction].
      destruct (requests_get url params 2%nat); [|contradiction].
      destruct (requests_get url params 3%nat); [|contradiction].
      rewrite Hok. reflexivity.
  - intros e4 Hfail H4. clear Hsleeps.
    destruct (Hfail 0%nat ltac:(lia)) as [e0 H0].
    destruct (Hfail 1%nat ltac:(lia)) as [e1 H1].
    destruct (Hfail 2%nat ltac:(lia)) as [e2 H2].
    destruct (Hfail 3%nat ltac:(lia)) as [e3 H3].
    simpl. rewrite H0, H1, H2, H3, H4. reflexivity.
Qed.

(** The theorem at [flaky_transport]: two failures, each followed by
    its sleep, then the payload. *)
Lemma req_get_bounded_retry_witness :
  req_get flaky_transport "/api/v1/contract/ping" None
  = (Ok (JArr [JInt 1]),
     [EvGet (String.append BASE "/api/v1/contract/ping") 0; EvSleep (6 # 10);
      EvGet (String.append BASE "/api/v1/contract/ping") 1; EvSleep (12 # 10);
      EvGet (String.append BASE "/api/v1/contract/ping") 2]).
Proof.
  refine (proj1 (proj2 (proj2 (proj2
            (req_get_bounded_retry flaky_transport "/api/v1/contract/ping" None))))
            2%nat (JObj [("success", JBool true); ("data", JArr [JInt 1])]%string) _ _ _).
  - repeat constructor.
  - intros i Hi. destruct i as [|[|i]].
    + exists Timeout. reflexivity.
    + exists HTTPError. reflexivity.
    + exfalso. do 2 apply Nat.succ_lt_mono in Hi. inversion Hi.
  - reflexivity.
Defined.

End ClientSpec.

(** ** The page decoder *)

Module DecoderSpec.
Import Kline.

Lemma t_iso_column_ok (to_datetime_s : Z -> option string) (ts : list Z) :
  (forall x, In x ts -> to_datetime_s x <> None) ->
  exists isos, t_iso_column to_datetime_s ts = Ok isos.
Proof.
  induction ts as [|x ts IH]; intros H; simpl.
  - eexists; reflexivity.
  - destruct (to_datetime_s x) eqn:E.
    + destruct IH as [isos ->]; [intros y Hy; apply H; now right|].
      eexists; reflexivity.
    + exfalso. apply (H x); [now left | exact E].
Qed.

Lemma t_iso_column_length (to_datetime_s : Z -> option string) (ts : list Z) :
  forall isos, t_iso_column to_datetime_s ts = Ok isos -> length isos = length ts.
Proof.
  induction ts as [|x ts IH]; intros isos H; simpl in H.
  - now injection H as <-.
  - destruct (to_datetime_s x); [|discriminate].
    destruct (t_iso_column to_datetime_s ts) as [isos'|e]; [|discriminate].
    cbn in H. injection H as <-. simpl. now rewrite (IH isos').
Qed.

Lemma frame_rows_interval (interval : string) (ts : list Z) :
  forall isos o h l c v a,
    Forall (fun r => col_interval r = interval) (frame_rows interval ts isos o h l c v a).
Proof.
  induction ts as [|t ts IH];
    intros [|iso isos] [|x1 o] [|x2 h] [|x3 l] [|x4 c] [|x5 v] [|x6 a]; simpl;
    try constructor; [reflexivity | apply IH].
Qed.

(** The frame has the columns it was built from. *)
Lemma frame_rows_columns (interval : string) (ts : list Z) :
  forall isos o h l c v a,
    length isos = length ts -> length o = length ts -> length h = length ts ->
    length l = length ts -> length c = length ts -> length v = length ts ->
    length a = length ts ->
    let rows := frame_rows interval ts isos o h l c v a in
    map col_t rows = ts /\ map col_open rows = o /\ map col_high rows = h
    /\ map col_low rows = l /\ map col_close rows = c /\ map col_vol rows = v
    /\ map col_amount rows = a.
Proof.
  induction ts as [|t ts IH];
    intros [|iso isos] [|x1 o] [|x2 h] [|x3 l] [|x4 c] [|x5 v] [|x6 a];
    simpl; intros H0 H1 H2 H3 H4 H5 H6; try discriminate; [repeat split|].
  destruct (IH isos o h l c v a) as [E0 [E1 [E2 [E3 [E4 [E5 E6]]]]]]; try lia.
  repeat split; f_equal; assumption.
Qed.

Lemma Forall_of_map_replicate {A B} (f : A -> B) (x : B) (rows : list A) :
  forall n, map f rows = replicate n x -> Forall (fun r => f r = x) rows.
Proof.
  induction rows as [|r rows IH]; intros [|n] H; simpl in H; try discriminate;
    constructor.
  - now injection H.
  - injection H as _ H. now apply (IH n).
Qed.

(** What the decoder returns: every row carries the interval asked for. *)
Lemma decoder_interval (to_datetime_s : Z -> option string) payload interval df :
  _kline_payload_to_df to_datetime_s payload interval = Ok df ->
  Forall (fun r => col_interval r = interval) df.
Proof.
  unfold _kline_payload_to_df. intros H.
  destruct payload as [|d]; [injection H as <-; constructor|].
  destruct (time d) as [[|x ts]|]; try (injection H as <-; constructor).
  destruct (forallb _ _); [|discriminate].
  destruct (t_iso_column to_datetime_s (x :: ts)) as [isos|e]; [|discriminate].
  cbv beta iota delta [mbind result_bind] in H.
  injection H as <-.
  exact (frame_rows_interval interval (x :: ts) isos _ _ _ _ _ _).
Qed.

(** The decoded page of a well-shaped reply. *)
Lemma decoder_rows (to_datetime_s : Z -> option string) (interval : string)
      (d : kline_dict) (ts : list Z) :
  time d = Some ts -> ts <> [] ->
  (forall c l, In c [open d; high d; low d; close d; vol d; amount d] ->
               c = Some l -> length l = length ts) ->
  (forall x, In x ts -> to_datetime_s x <> None) ->
  let col (c : option (list json)) := default (replicate (length ts) JNull) c in
  exists isos,
    length isos = length ts
    /\ (forall c, In c [open d; high d; low d; close d; vol d; amount d] ->
                  length (col c) = length ts)
    /\ _kline_payload_to_df to_datetime_s (Dict d) interval
       = Ok (frame_rows interval ts isos (col (open d)) (col (high d)) (col (low d))
                        (col (close d)) (col (vol d)) (col (amount d))).
Proof.
  intros Ht Hne Hlen Hiso. cbv zeta.
  destruct (t_iso_column_ok to_datetime_s ts Hiso) as [isos Hisos].
  assert (L : forall c, In c [open d; high d; low d; close d; vol d; amount d] ->
                        length (default (replicate (length ts) JNull) c) = length ts).
  { intros c Hc. destruct c as [l|].
    - now apply (Hlen (Some l) l).
    - exact (length_replicate (length ts) JNull). }
  exists isos. split; [now apply (t_iso_column_length to_datetime_s)|].
  split; [exact L|].
  unfold _kline_payload_to_df. rewrite Ht.
  destruct ts as [|x ts']; [congruence|].
  set (ts := x :: ts') in *.
  assert (F : forallb (fun c => Nat.eqb (length (default (replicate (length ts) JNull) c))
                                        (length ts))
                [open d; high d; low d; close d; vol d; amount d] = true).
  { apply List.forallb_forall. intros c Hc. apply Nat.eqb_eq. now apply L. }
  rewrite F, Hisos. reflexivity.
Qed.

(** C7 as amended.  The decoder returns an empty page, not an error,
    for a payload that is not a dict, has no [time] key or has an empty
    [time] array.  For a payload with [n > 0] timestamps that pandas can
    convert, in which every field array that is present has [n]
    entries, it returns [n] rows with the timestamps in order, and each
    of the six fields that is absent is [None] in every row. *)
Theorem decoder_tolerates_missing_fields
  (to_datetime_s : Z -> option string) (interval : string) :
  _kline_payload_to_df to_datetime_s NotADict interval = Ok []
  /\ (forall d, time d = None \/ time d = Some [] ->
                _kline_payload_to_df to_datetime_s (Dict d) interval = Ok [])
  /\ (forall d ts,
        time d = Some ts -> ts <> [] ->
        (forall c l, In c [open d; high d; low d; close d; vol d; amount d] ->
                     c = Some l -> length l = length ts) ->
        (forall x, In x ts -> to_datetime_s x <> None) ->
        exists rows,
          _kline_payload_to_df to_datetime_s (Dict d) interval = Ok rows
          /\ length rows = length ts
          /\ map col_t rows = ts
          /\ (open d = None -> Forall (fun r => col_open r = JNull) rows)
          /\ (high d = None -> Forall (fun r => col_high r = JNull) rows)
          /\ (low d = None -> Forall (fun r => col_low r = JNull) rows)
          /\ (close d = None -> Forall (fun r => col_close r = JNull) rows)
          /\ (vol d = None -> Forall (fun r => col_vol r = JNull) rows)
          /\ (amount d = None -> Forall (fun r => col_amount r = JNull) rows)).
Proof.
  split; [reflexivity|]. split.
  - intros d [H|H]; unfold _kline_payload_to_df; rewrite H; reflexivity.
  - intros d ts Ht Hne Hlen Hiso.
    destruct (decoder_rows to_datetime_s interval d ts Ht Hne Hlen Hiso)
      as [isos [Hisos [L ->]]].
    pose proof (L (open d) (or_introl eq_refl)) as L1.
    pose proof (L (high d) (or_intror (or_introl eq_refl))) as L2.
    pose proof (L (low d) (or_intror (or_intror (or_introl eq_refl)))) as L3.
    pose proof (L (close d) (or_intror (or_intror (or_intror (or_introl eq_refl))))) as L4.
    pose proof (L (vol d)
                  (or_intror (or_intror (or_intror (or_intror (or_introl eq_refl))))))
      as L5.
    pose proof (L (amount d)
                  (or_intror (or_intror (or_intror (or_intror (or_intror
                     (or_introl eq_refl))))))) as L6.
    destruct (frame_rows_columns interval ts isos _ _ _ _ _ _ Hisos L1 L2 L3 L4 L5 L6)
      as [E0 [E1 [E2 [E3 [E4 [E5 E6]]]]]].
    eexists. split; [reflexivity|].
    split; [etransitivity; [symmetry; apply (List.length_map col_t)|]; now rewrite E0|].
    split; [exact E0|].
    repeat split; intros Hmiss;
      [rewrite Hmiss in E1 |- *; exact (Forall_of_map_replicate _ _ _ _ E1)
      | rewrite Hmiss in E2 |- *; exact (Forall_of_map_replicate _ _ _ _ E2)
      | rewrite Hmiss in E3 |- *; exact (Forall_of_map_replicate _ _ _ _ E3)
      | rewrite Hmiss in E4 |- *; exact (Forall_of_map_replicate _ _ _ _ E4)
      | rewrite Hmiss in E5 |- *; exact (Forall_of_map_replicate _ _ _ _ E5)
      | rewrite Hmiss in E6 |- *; exact (Forall_of_map_replicate _ _ _ _ E6)].
Qed.

Lemma decoder_tolerates_missing_fields_witness :
  exists rows,
    _kline_payload_to_df any_iso (Dict close_only_dict) "Min1" = Ok rows
    /\ length rows = 2%nat
    /\ map col_t rows = [60; 120]
    /\ Forall (fun r => col_open r = JNull) rows.
Proof.
  destruct (proj2 (proj2 (decoder_tolerates_missing_fields any_iso "Min1"))
              close_only_dict [60; 120] eq_refl ltac:(discriminate))
    as [rows [H1 [H2 [H3 [H4 _]]]]].
  - intros c l Hc Hl. simpl in Hc.
    destruct Hc as [<-|[<-|[<-|[<-|[<-|[<-|[]]]]]]]; try discriminate Hl.
    injection Hl as <-. reflexivity.
  - intros x _. discriminate.
  - exists rows. repeat split; [exact H1 | exact H2 | exact H3 | exact (H4 eq_refl)].
Defined.

(** C7 as stated fails: with the [open] array missing and a [high]
    array shorter than [time], [pd.DataFrame] raises [ValueError] and no
    row is produced. *)
Lemma decoder_missing_field_counterexample :
  ~ (forall (to_datetime_s : Z -> option string) (interval : string) d ts,
        time d = Some ts -> ts <> [] -> open d = None ->
        exists rows,
          _kline_payload_to_df to_datetime_s (Dict d) interval = Ok rows
          /\ length rows = length ts
          /\ Forall (fun r => col_open r = JNull) rows).
Proof.
  intros H.
  destruct (H any_iso "Min1"%string ragged_dict [1; 2] eq_refl ltac:(discriminate) eq_refl)
    as [rows [Hrows _]].
  vm_compute in Hrows. discriminate Hrows.
Qed.

End DecoderSpec.

(** ** Deduplication and sorting *)

Module PostprocessSpec.
Import Kline.

Lemma key_eqb_eq (k1 k2 : Z * string) : key_eqb k1 k2 = true <-> k1 = k2.
Proof.
  destruct k1 as [t1 i1], k2 as [t2 i2]. unfold key_eqb. simpl.
  rewrite Bool.andb_true_iff, Z.eqb_eq, String.eqb_eq.
  split; [intros [-> ->]; reflexivity | intros H; injection H; auto].
Qed.

Lemma key_eqb_refl (k : Z * string) : key_eqb k k = true.
Proof. now apply key_eqb_eq. Qed.

Lemma key_eqb_neq (k1 k2 : Z * string) : key_eqb k1 k2 = false <-> k1 <> k2.
Proof.
  rewrite <- key_eqb_eq. destruct (key_eqb k1 k2); split; congruence.
Qed.

Lemma seen_iff (k : Z * string) (seen : list (Z * string)) :
  existsb (key_eqb k) seen = true <-> In k seen.
Proof.
  rewrite List.existsb_exists. split.
  - intros [k' [Hin Heq]]. apply key_eqb_eq in Heq. now subst.
  - intros Hin. exists k. split; [exact Hin | apply key_eqb_refl].
Qed.

(** [keep="first"]: a row survives iff it is the first of its key and
    the key was not seen before. *)
Lemma drop_duplicates_from_In (rows : list candle) :
  forall seen r,
    In r (drop_duplicates_from seen rows)
    <-> first_with_key (key_of r) rows = Some r /\ ~ In (key_of r) seen.
Proof.
  unfold first_with_key.
  induction rows as [|r0 rest IH]; intros seen r; simpl.
  - split; [tauto | intros [H _]; discriminate].
  - destruct (existsb (key_eqb (key_of r0)) seen) eqn:Es.
    + apply seen_iff in Es. rewrite IH.
      destruct (key_eqb (key_of r) (key_of r0)) eqn:Ek.
      * apply key_eqb_eq in Ek. rewrite Ek. split; intros [_ Hn]; contradiction.
      * tauto.
    + assert (Hnot : ~ In (key_of r0) seen).
      { intros Hin. apply seen_iff in Hin. congruence. }
      simpl. rewrite IH. simpl.
      destruct (key_eqb (key_of r) (key_of r0)) eqn:Ek.
      * apply key_eqb_eq in Ek. split.
        -- intros [->|[_ Hn]]; [split; [reflexivity | exact Hnot]|].
           exfalso. apply Hn. left. congruence.
        -- intros [H _]. left. congruence.
      * apply key_eqb_neq in Ek. split.
        -- intros [->|[Hf Hn]]; [congruence|]. split; [exact Hf | tauto].
        -- intros [Hf Hn]. right. split; [exact Hf|]. intros [E|Hin]; [congruence | tauto].
Qed.

Lemma drop_duplicates_from_NoDup (rows : list candle) :
  forall seen, List.NoDup (map key_of (drop_duplicates_from seen rows)).
Proof.
  induction rows as [|r0 rest IH]; intros seen; simpl; [constructor|].
  destruct (existsb (key_eqb (key_of r0)) seen); [apply IH|].
  simpl. constructor; [|apply IH].
  intros Hin. apply List.in_map_iff in Hin. destruct Hin as [r [Hk Hr]].
  apply drop_duplicates_from_In in Hr. destruct Hr as [_ Hn].
  apply Hn. left. congruence.
Qed.

Lemma insert_by_t_perm (r : candle) (l : list candle) :
  Permutation (insert_by_t r l) (r :: l).
Proof.
  induction l as [|r' l IH]; simpl; [reflexivity|].
  destruct (col_t r <=? col_t r'); [reflexivity|].
  rewrite IH. apply perm_swap.
Qed.

Lemma sort_values_perm (l : list candle) : Permutation (sort_values l) l.
Proof.
  induction l as [|r l IH]; simpl; [reflexivity|].
  rewrite insert_by_t_perm. now constructor.
Qed.

Lemma insert_by_t_sorted (r : candle) (l : list candle) :
  StronglySorted (fun a b => col_t a <= col_t b) l ->
  StronglySorted (fun a b => col_t a <= col_t b) (insert_by_t r l).
Proof.
  induction l as [|r' l IH]; intros Hs; simpl.
  - constructor; constructor.
  - inversion Hs as [|? ? Hs' Hall]; subst.
    destruct (col_t r <=? col_t r') eqn:E.
    + apply Z.leb_le in E. constructor; [exact Hs|].
      constructor; [exact E|].
      eapply List.Forall_impl; [|exact Hall]. simpl. intros; lia.
    + apply Z.leb_gt in E. constructor; [now apply IH|].
      apply List.Forall_forall. intros y Hy.
      apply (Permutation_in _ (insert_by_t_perm r l)) in Hy.
      destruct Hy as [<-|Hy]; [lia|].
      rewrite List.Forall_forall in Hall. now apply Hall.
Qed.

Lemma sort_values_sorted (l : list candle) :
  StronglySorted (fun a b => col_t a <= col_t b) (sort_values l).
Proof.
  induction l as [|r l IH]; simpl; [constructor | now apply insert_by_t_sorted].
Qed.

Lemma sorted_strict (l : list candle) :
  StronglySorted (fun a b => col_t a <= col_t b) l ->
  List.NoDup (map col_t l) ->
  StronglySorted (fun a b => col_t a < col_t b) l.
Proof.
  induction l as [|r l IH]; intros Hs Hnd; [constructor|].
  inversion Hs as [|? ? Hs' Hall]; subst.
  simpl in Hnd. inversion Hnd as [|? ? Hnotin Hnd']; subst.
  constructor; [now apply IH|].
  apply List.Forall_forall. intros y Hy.
  rewrite List.Forall_forall in Hall. specialize (Hall y Hy).
  assert (col_t r <> col_t y).
  { intros E. apply Hnotin. rewrite E. now apply List.in_map. }
  lia.
Qed.

(** With a single interval, distinct keys are distinct timestamps. *)
Lemma same_interval_NoDup_t (interval : string) (l : list candle) :
  Forall (fun r => col_interval r = interval) l ->
  List.NoDup (map key_of l) -> List.NoDup (map col_t l).
Proof.
  induction l as [|r l IH]; intros Hi Hnd; simpl; [constructor|].
  inversion Hi as [|? ? Hr Hl]; subst.
  simpl in Hnd. inversion Hnd as [|? ? Hnotin Hnd']; subst.
  constructor; [|now apply IH].
  intros Hin. apply Hnotin. apply List.in_map_iff in Hin.
  destruct Hin as [y [Ey Hy]]. apply List.in_map_iff. exists y. split; [|exact Hy].
  unfold key_of. rewrite List.Forall_forall in Hl. rewrite (Hl y Hy), Ey. reflexivity.
Qed.

(** The postprocessing of the plain-candle backfills: first-seen wins,
    strictly ascending. *)
Lemma dedup_sort_first_seen (interval : string) (acc : list candle) :
  Forall (fun r => col_interval r = interval) acc ->
  first_seen_sorted acc (dedup_sort acc).
Proof.
  intros Hi. unfold first_seen_sorted, dedup_sort, drop_duplicates.
  pose proof (sort_values_perm (drop_duplicates_from [] acc)) as Hp.
  assert (Hsub : forall r, In r (drop_duplicates_from [] acc) -> In r acc).
  { intros r Hr. apply drop_duplicates_from_In in Hr. destruct Hr as [Hf _].
    now apply List.find_some in Hf. }
  split.
  - apply sorted_strict; [apply sort_values_sorted|].
    apply (Permutation_NoDup (l := map col_t (drop_duplicates_from [] acc)));
      [apply Permutation_map; now symmetry|].
    apply (same_interval_NoDup_t interval); [|apply drop_duplicates_from_NoDup].
    apply List.Forall_forall. intros r Hr.
    rewrite List.Forall_forall in Hi. apply Hi. now apply Hsub.
  - intros r. split.
    + intros Hr. apply (Permutation_in _ Hp) in Hr.
      apply drop_duplicates_from_In in Hr. tauto.
    + intros Hf. apply (Permutation_in _ (Permutation_sym Hp)).
      apply drop_duplicates_from_In. split; [exact Hf | intros []].
Qed.

End PostprocessSpec.

(** ** The k-line paginators *)

Module BackfillSpec.
Import Kline PostprocessSpec.

Section Loops.

Variable to_datetime_s : Z -> option string.
Variables utc_min utc_max : Z.
Variable req_get : nat -> kline_request -> result kline_payload.
Variable now_s : Z.

Local Abbreviation decode := (_kline_payload_to_df to_datetime_s).
Local Abbreviation body := (backward_body to_datetime_s utc_min utc_max req_get).
Local Abbreviation loop := (backward_loop to_datetime_s utc_min utc_max req_get).
Local Abbreviation after := (backward_after to_datetime_s utc_min utc_max req_get).

(** What one pass through the loop body can do. *)
Lemma backward_body_cases (path interval : string) (s : bstate) :
  let rq := backward_request path interval s in
  match body path interval s with
  | Break r tr =>
      tr = st_tr s ++ [rq]
      /\ match r with
         | Ok all_df =>
             all_df = st_all_df s
             \/ exists data df,
                 req_get (length (st_tr s)) rq = Ok data
                 /\ decode data interval = Ok df
                 /\ all_df = st_all_df s ++ [df]
         | Raise _ => True
         end
  | Continue s' =>
      exists data df,
        req_get (length (st_tr s)) rq = Ok data
        /\ decode data interval = Ok df
        /\ df <> []
        /\ KLINE_MAX <= Z.of_nat (length df)
        /\ utc_min <= min_t df <= utc_max
        /\ (forall m, st_last_min_t s = Some m -> min_t df < m)
        /\ s' = {| st_all_df := st_all_df s ++ [df];
                   st_last_min_t := Some (min_t df);
                   st_end_s := min_t df - 1;
                   st_tr := st_tr s ++ [rq] |}
  end.
Proof.
  intros rq. unfold backward_body. fold (backward_request path interval s). fold rq.
  destruct (req_get (length (st_tr s)) rq) as [data|e] eqn:Hreq; [|now split].
  destruct (decode data interval) as [df|e] eqn:Hdec; [|now split].
  destruct df as [|r0 df']; [simpl; split; [reflexivity | now left]|].
  set (df := r0 :: df') in *.
  change (is_empty df) with false. cbv iota.
  destruct (Z.of_nat (length df) <? KLINE_MAX) eqn:Hlen.
  { split; [reflexivity|]. right. exists data, df. auto. }
  apply Z.ltb_ge in Hlen.
  destruct (match st_last_min_t s with Some m => min_t df >=? m | None => false end) eqn:Hg.
  { split; [reflexivity|]. right. exists data, df. auto. }
  unfold utcfromtimestamp.
  destruct ((utc_min <=? min_t df) && (min_t df <=? utc_max)) eqn:Hu; [|now split].
  apply Bool.andb_true_iff in Hu. destruct Hu as [Hu1 Hu2].
  apply Z.leb_le in Hu1. apply Z.leb_le in Hu2.
  exists data, df. repeat split; auto; try discriminate.
  intros m Hm. rewrite Hm in Hg. rewrite Z.geb_leb in Hg. apply Z.leb_gt in Hg. lia.
Qed.

Lemma backward_body_trace (path interval : string) (s : bstate) :
  match body path interval s with
  | Break _ tr => tr = st_tr s ++ [backward_request path interval s]
  | Continue s' => st_tr s' = st_tr s ++ [backward_request path interval s]
  end.
Proof.
  pose proof (backward_body_cases path interval s) as H. simpl in H.
  destruct (body path interval s) as [r tr|s'].
  - tauto.
  - destruct H as [data [df H]]. decompose [and] H. subst s'. reflexivity.
Qed.

(** [n] rounds followed by the rest of the loop. *)
Lemma backward_loop_after (n : nat) (path interval : string) :
  forall s s' fuel,
    after n path interval s = Some s' ->
    loop (n + fuel) path interval s = loop fuel path interval s'.
Proof.
  induction n as [|n IH]; intros s s' fuel H; simpl in *.
  - now injection H as ->.
  - destruct (body path interval s) as [r tr|s1]; [discriminate|]. now apply IH.
Qed.

Lemma backward_after_trace (n : nat) (path interval : string) :
  forall s s', after n path interval s = Some s' ->
               length (st_tr s') = (length (st_tr s) + n)%nat.
Proof.
  induction n as [|n IH]; intros s s' H; simpl in *.
  - injection H as ->. lia.
  - pose proof (backward_body_trace path interval s) as Ht.
    destruct (body path interval s) as [r tr|s1]; [discriminate|].
    rewrite (IH _ _ H), Ht, List.length_app. simpl. lia.
Qed.

Lemma backward_body_pages (path interval : string) (s : bstate) :
  pages_of interval (st_all_df s) ->
  match body path interval s with
  | Break (Ok all_df) _ => pages_of interval all_df
  | Break (Raise _) _ => True
  | Continue s' => pages_of interval (st_all_df s')
  end.
Proof.
  intros HP. pose proof (backward_body_cases path interval s) as H. simpl in H.
  unfold pages_of in *.
  destruct (body path interval s) as [[all_df|e] tr|s'].
  - destruct H as [_ [->|[data [df [_ [Hd ->]]]]]]; [exact HP|].
    apply List.Forall_app. split; [exact HP|].
    constructor; [|constructor]. eapply DecoderSpec.decoder_interval. exact Hd.
  - exact I.
  - destruct H as [data [df H]]. decompose [and] H. subst s'. simpl.
    apply List.Forall_app. split; [exact HP|].
    constructor; [|constructor]. eapply DecoderSpec.decoder_interval. eassumption.
Qed.

Lemma backward_after_pages (n : nat) (path interval : string) :
  forall s s', pages_of interval (st_all_df s) ->
               after n path interval s = Some s' ->
               pages_of interval (st_all_df s').
Proof.
  induction n as [|n IH]; intros s s' HP H; simpl in *.
  - now injection H as <-.
  - pose proof (backward_body_pages path interval s HP) as Hb.
    destruct (body path interval s) as [r tr|s1]; [discriminate|]. now apply (IH s1).
Qed.

Lemma backward_loop_pages (fuel : nat) (path interval : string) :
  forall s all_df tr,
    pages_of interval (st_all_df s) ->
    loop fuel path interval s = (Some (Ok all_df), tr) ->
    pages_of interval all_df.
Proof.
  induction fuel as [|fuel IH]; intros s all_df tr HP H; simpl in *; [discriminate|].
  pose proof (backward_body_pages path interval s HP) as Hb.
  destruct (body path interval s) as [[a|e] tr0|s1].
  - injection H as <- _. exact Hb.
  - discriminate.
  - now apply (IH s1 all_df tr).
Qed.

Lemma range_loop_pages (fuel : nat) (symbol interval : string) (step end_s : Z) :
  forall all_df cur tr all_df' tr',
    pages_of interval all_df ->
    range_loop to_datetime_s utc_min utc_max req_get fuel symbol interval step end_s
               all_df cur tr = (Some (Ok all_df'), tr') ->
    pages_of interval all_df'.
Proof.
  induction fuel as [|fuel IH]; intros all_df cur tr all_df' tr' HP H; simpl in *;
    [discriminate|].
  destruct (cur <=? end_s); [|injection H as <- _; exact HP].
  destruct (req_get _ _) as [data|e]; [|discriminate].
  destruct (decode data interval) as [df|e] eqn:Hd; [|discriminate].
  destruct (_ ← utcfromtimestamp utc_min utc_max cur; _) as [u|e]; [|discriminate].
  apply IH in H; [exact H|].
  apply List.Forall_app. split; [exact HP|].
  constructor; [|constructor]. eapply DecoderSpec.decoder_interval. exact Hd.
Qed.

Lemma pages_concat (interval : string) (all_df : list (list candle)) :
  pages_of interval all_df ->
  Forall (fun r => col_interval r = interval) (pd_concat all_df).
Proof.
  unfold pages_of, pd_concat. induction 1 as [|df rest Hdf _ IH]; simpl; [constructor|].
  apply List.Forall_app. now split.
Qed.

Lemma guarded_dedup_sort (all_df : list (list candle)) :
  match all_df with [] => [] | _ => dedup_sort (pd_concat all_df) end
  = dedup_sort (pd_concat all_df).
Proof. destruct all_df; reflexivity. Qed.

Lemma fetch_full_of_loop (fuel : nat) (symbol interval : string) (end_s : option Z) :
  fetch_kline_full_history to_datetime_s utc_min utc_max req_get now_s fuel symbol interval
                           end_s
  = match loop fuel (kline_path symbol) interval (backward_init (default now_s end_s)) with
    | (Some (Ok all_df), tr) => (Some (Ok (dedup_sort (pd_concat all_df))), tr)
    | (Some (Raise e), tr) => (Some (Raise e), tr)
    | (None, tr) => (None, tr)
    end.
Proof.
  unfold fetch_kline_full_history.
  destruct (loop fuel _ _ _) as [[[all_df|e]|] tr]; try reflexivity.
  now rewrite guarded_dedup_sort.
Qed.

(** The loop leaves on a page that is not empty and shorter than
    [KLINE_MAX], with that page appended. *)
Lemma backward_body_short (path interval : string) (s : bstate) data df :
  req_get (length (st_tr s)) (backward_request path interval s) = Ok data ->
  decode data interval = Ok df ->
  df <> [] ->
  Z.of_nat (length df) < KLINE_MAX ->
  body path interval s
  = Break (Ok (st_all_df s ++ [df])) (st_tr s ++ [backward_request path interval s]).
Proof.
  intros Hreq Hdec Hne Hlen. unfold backward_body.
  fold (backward_request path interval s). rewrite Hreq, Hdec.
  destruct df as [|r0 df']; [congruence|]. cbv beta iota delta [is_empty].
  apply Z.ltb_lt in Hlen. now rewrite Hlen.
Qed.

(** The guard: the loop leaves on a page whose earliest timestamp is
    not below the previous one. *)
Lemma backward_body_guard (path interval : string) (s : bstate) data df m :
  req_get (length (st_tr s)) (backward_request path interval s) = Ok data ->
  decode data interval = Ok df ->
  df <> [] ->
  st_last_min_t s = Some m ->
  m <= min_t df ->
  body path interval s
  = Break (Ok (st_all_df s ++ [df])) (st_tr s ++ [backward_request path interval s]).
Proof.
  intros Hreq Hdec Hne Hm Hge. unfold backward_body.
  fold (backward_request path interval s). rewrite Hreq, Hdec, Hm.
  destruct df as [|r0 df']; [congruence|]. cbv beta iota delta [is_empty].
  destruct (Z.of_nat (length (r0 :: df')) <? KLINE_MAX); [reflexivity|].
  assert (G : (min_t (r0 :: df') >=? m) = true) by (rewrite Z.geb_leb; now apply Z.leb_le).
  now rewrite G.
Qed.

(** Below a known previous minimum the loop runs at most as many
    rounds as there are accepted timestamps below it, plus one. *)
Lemma backward_loop_bounded (path interval : string) (k : nat) :
  forall s m fuel,
    st_last_min_t s = Some m ->
    utc_min <= m ->
    m - utc_min < Z.of_nat k ->
    (k <= fuel)%nat ->
    exists r tr,
      loop fuel path interval s = (Some r, tr)
      /\ (length tr <= length (st_tr s) + k)%nat.
Proof.
  induction k as [|k IH]; intros s m fuel Hm Hlo Hk Hfuel; [lia|].
  destruct fuel as [|fuel]; [lia|]. simpl.
  pose proof (backward_body_cases path interval s) as Hb. simpl in Hb.
  destruct (body path interval s) as [r tr|s'].
  - exists r, tr. split; [reflexivity|]. destruct Hb as [-> _].
    rewrite List.length_app. simpl. lia.
  - destruct Hb as [data [df [_ [_ [_ [_ [Hu [Hlt ->]]]]]]]].
    specialize (Hlt m Hm).
    destruct (IH (mk_bstate (st_all_df s ++ [df]) (Some (min_t df)) (min_t df - 1)
                            (st_tr s ++ [backward_request path interval s]))
                 (min_t df) fuel eq_refl ltac:(lia) ltac:(lia) ltac:(lia))
      as [r [tr [Hl Hn]]].
    exists r, tr. split; [exact Hl|].
    simpl in Hn. rewrite List.length_app in Hn. simpl in Hn. lia.
Qed.

Lemma backward_loop_terminates (path interval : string) (end_s : Z) (fuel : nat) :
  (request_bound utc_min utc_max <= fuel)%nat ->
  exists r tr,
    loop fuel path interval (backward_init end_s) = (Some r, tr)
    /\ (length tr <= request_bound utc_min utc_max)%nat.
Proof.
  unfold request_bound. intros Hfuel.
  destruct fuel as [|fuel]; [lia|]. simpl.
  pose proof (backward_body_cases path interval (backward_init end_s)) as Hb. simpl in Hb.
  destruct (body path interval (backward_init end_s)) as [r tr|s'].
  - exists r, tr. split; [reflexivity|]. destruct Hb as [-> _]. simpl. lia.
  - destruct Hb as [data [df [_ [_ [_ [_ [Hu [_ ->]]]]]]]].
    destruct (backward_loop_bounded path interval (Z.to_nat (utc_max - utc_min) + 1)
                {| st_all_df := [] ++ [df]; st_last_min_t := Some (min_t df);
                   st_end_s := min_t df - 1;
                   st_tr := [] ++ [backward_request path interval (backward_init end_s)] |}
                (min_t df) fuel eq_refl ltac:(lia) ltac:(lia) ltac:(lia))
      as [r [tr [Hl Hn]]].
    exists r, tr. split; [exact Hl|]. simpl in Hn. lia.
Qed.

Lemma interval_seconds_pos (interval : string) :
  0 < default 60 (INTERVAL_SECONDS !! interval).
Proof.
  destruct (INTERVAL_SECONDS !! interval) as [z|] eqn:E; simpl; [|lia].
  unfold INTERVAL_SECONDS in E. apply elem_of_list_to_map_2 in E.
  repeat (apply elem_of_cons in E; destruct E as [E|E]; [injection E as -> ->; lia|]).
  now apply elem_of_nil in E.
Qed.

(** The forward loop leaves after at most one round per second of the
    range, and one more look at its condition. *)
Lemma range_loop_terminates (symbol interval : string) (step end_s : Z) :
  1 <= step ->
  forall k all_df cur tr fuel,
    end_s - cur + 1 <= Z.of_nat k ->
    (k < fuel)%nat ->
    exists r tr',
      range_loop to_datetime_s utc_min utc_max req_get fuel symbol interval step end_s
                 all_df cur tr = (Some r, tr')
      /\ (length tr' <= length tr + k)%nat.
Proof.
  intros Hstep. induction k as [|k IH]; intros all_df cur tr fuel Hk Hfuel;
    (destruct fuel as [|fuel]; [lia|]); simpl;
    destruct (cur <=? end_s) eqn:Hc;
    try (eexists; eexists; split; [reflexivity | lia]).
  - apply Z.leb_le in Hc. lia.
  - apply Z.leb_le in Hc.
    destruct (req_get _ _) as [data|e];
      [|eexists; eexists; split; [reflexivity | rewrite List.length_app; simpl; lia]].
    destruct (decode data interval) as [df|e];
      [|eexists; eexists; split; [reflexivity | rewrite List.length_app; simpl; lia]].
    destruct (_ ← utcfromtimestamp utc_min utc_max cur; _) as [u|e];
      [|eexists; eexists; split; [reflexivity | rewrite List.length_app; simpl; lia]].
    edestruct (IH (all_df ++ [df]) (Z.min end_s (cur + step - 1) + 1)) as [r [tr' [Hl Hn]]];
      [|shelve|rewrite Hl; eexists; eexists; split; [reflexivity|]].
    + lia.
    + rewrite List.length_app in Hn. simpl in Hn. lia.
    Unshelve. lia.
Qed.

(** C1 as amended.  Whenever [fetch_kline_full_history] or
    [fetch_kline_range] returns a frame, the frame is the accumulated
    pages with, for every (t, interval) key, the first-seen row of that
    key and no other, in strictly ascending order of [t].  Both
    functions do return or raise: the backward loop within
    [request_bound] rounds, the forward loop within one round per
    second of the range. *)
Theorem backfill_first_seen_sorted (symbol interval : string) :
  (forall fuel end_s out tr,
      fetch_kline_full_history to_datetime_s utc_min utc_max req_get now_s fuel symbol
                               interval end_s = (Some (Ok out), tr) ->
      exists all_df,
        loop fuel (kline_path symbol) interval (backward_init (default now_s end_s))
        = (Some (Ok all_df), tr)
        /\ first_seen_sorted (pd_concat all_df) out)
  /\ (forall fuel start_s end_s out tr,
        fetch_kline_range to_datetime_s utc_min utc_max req_get fuel symbol interval
                          start_s end_s = (Some (Ok out), tr) ->
        exists all_df,
          range_loop to_datetime_s utc_min utc_max req_get fuel symbol interval
                     (default 60 (INTERVAL_SECONDS !! interval) * KLINE_MAX) end_s
                     [] start_s [] = (Some (Ok all_df), tr)
          /\ first_seen_sorted (pd_concat all_df) out)
  /\ (forall fuel end_s,
        (request_bound utc_min utc_max <= fuel)%nat ->
        exists r tr,
          fetch_kline_full_history to_datetime_s utc_min utc_max req_get now_s fuel symbol
                                   interval end_s = (Some r, tr))
  /\ (forall fuel start_s end_s,
        (Z.to_nat (end_s - start_s + 1) < fuel)%nat ->
        exists r tr,
          fetch_kline_range to_datetime_s utc_min utc_max req_get fuel symbol interval
                            start_s end_s = (Some r, tr)).
Proof.
  split; [|split; [|split]]; intros fuel.
  3:{ intros end_s Hfuel. rewrite fetch_full_of_loop.
      destruct (backward_loop_terminates (kline_path symbol) interval
                  (default now_s end_s) fuel Hfuel) as [r [tr [-> _]]].
      destruct r; eexists; eexists; reflexivity. }
  3:{ intros start_s end_s Hfuel. unfold fetch_kline_range.
      pose proof (interval_seconds_pos interval) as Hpos.
      assert (Hstep : 1 <= default 60 (INTERVAL_SECONDS !! interval) * KLINE_MAX)
        by (unfold KLINE_MAX; lia).
      assert (Hk : end_s - start_s + 1 <= Z.of_nat (Z.to_nat (end_s - start_s + 1)))
        by lia.
      destruct (range_loop_terminates symbol interval _ end_s Hstep
                  (Z.to_nat (end_s - start_s + 1)) [] start_s [] fuel Hk Hfuel)
        as [r [tr [-> _]]].
      destruct r; eexists; eexists; reflexivity. }
  - intros end_s out tr H. rewrite fetch_full_of_loop in H.
    destruct (loop fuel _ _ _) as [[[all_df|e]|] tr0] eqn:El; try discriminate.
    injection H as <- <-. exists all_df. split; [reflexivity|].
    apply (dedup_sort_first_seen interval). apply pages_concat.
    eapply backward_loop_pages; [|exact El]. constructor.
  - intros start_s end_s out tr H. unfold fetch_kline_range in H.
    destruct (range_loop _ _ _ _ _ _ _ _ _ _ _ _) as [[[all_df|e]|] tr0] eqn:El;
      try discriminate.
    rewrite guarded_dedup_sort in H.
    injection H as <- <-. exists all_df. split; [reflexivity|].
    apply (dedup_sort_first_seen interval). apply pages_concat.
    eapply range_loop_pages; [|exact El]. constructor.
Qed.

(** C2.  (a) For every upstream, [fetch_kline_full_history] leaves its
    loop after at most [request_bound] requests, a number that does not
    depend on the replies.  (b) Whenever a round, reached after [n]
    rounds that went on, gets a page that is not empty and whose
    earliest timestamp is not strictly below the previous round's, the
    function returns with that request as its last, [n + 1] requests in
    all.  (c) An upstream that answers every request with the same page
    is asked at most twice. *)
Theorem full_history_terminates (symbol interval : string) (end_s : option Z) :
  let fetch fuel :=
    fetch_kline_full_history to_datetime_s utc_min utc_max req_get now_s fuel symbol
                             interval end_s in
  (forall fuel,
      (request_bound utc_min utc_max <= fuel)%nat ->
      exists r tr, fetch fuel = (Some r, tr)
                   /\ (length tr <= request_bound utc_min utc_max)%nat)
  /\ (forall n s data df m fuel,
        after n (kline_path symbol) interval (backward_init (default now_s end_s)) = Some s ->
        req_get (length (st_tr s)) (backward_request (kline_path symbol) interval s)
        = Ok data ->
        decode data interval = Ok df ->
        df <> [] ->
        st_last_min_t s = Some m ->
        m <= min_t df ->
        (n < fuel)%nat ->
        fetch fuel
        = (Some (Ok (dedup_sort (pd_concat (st_all_df s ++ [df])))),
           st_tr s ++ [backward_request (kline_path symbol) interval s])
        /\ length (st_tr s ++ [backward_request (kline_path symbol) interval s]) = S n)
  /\ (forall page fuel,
        (forall n rq, req_get n rq = Ok page) ->
        (2 <= fuel)%nat ->
        exists r tr, fetch fuel = (Some r, tr) /\ (length tr <= 2)%nat).
Proof.
  intros fetch. subst fetch. cbv beta. split; [|split].
  - intros fuel Hfuel. rewrite fetch_full_of_loop.
    destruct (backward_loop_terminates (kline_path symbol) interval (default now_s end_s)
                fuel Hfuel) as [r [tr [-> Hn]]].
    destruct r as [all_df|e]; eexists; eexists; (split; [reflexivity | exact Hn]).
  - intros n s data df m fuel Hafter Hreq Hdec Hne Hm Hge Hfuel.
    rewrite fetch_full_of_loop.
    replace fuel with (n + S (fuel - S n))%nat by lia.
    rewrite (backward_loop_after n _ _ _ _ _ Hafter). simpl.
    rewrite (backward_body_guard _ _ _ data df m Hreq Hdec Hne Hm Hge).
    split; [reflexivity|].
    rewrite List.length_app, (backward_after_trace n _ _ _ _ Hafter). simpl. lia.
  - intros page fuel Hconst Hfuel. rewrite fetch_full_of_loop.
    destruct fuel as [|[|fuel]]; try lia.
    set (s0 := backward_init (default now_s end_s)).
    assert (Hout : exists r tr, loop (S (S fuel)) (kline_path symbol) interval s0
                                = (Some r, tr) /\ (length tr <= 2)%nat).
    { cbn [backward_loop].
      pose proof (backward_body_cases (kline_path symbol) interval s0) as Hb. simpl in Hb.
      destruct (body (kline_path symbol) interval s0) as [r tr|s1].
      - exists r, tr. split; [reflexivity|]. destruct Hb as [-> _]. simpl. lia.
      - destruct Hb as [data [df [Hreq [Hdec [Hne [_ [_ [_ ->]]]]]]]].
        rewrite Hconst in Hreq. injection Hreq as <-.
        erewrite (backward_body_guard _ _ _ page df (min_t df)).
        + eexists; eexists; split; [reflexivity|]. simpl. lia.
        + apply Hconst.
        + exact Hdec.
        + exact Hne.
        + reflexivity.
        + lia. }
    destruct Hout as [r [tr [-> Hn]]].
    destruct r as [all_df|e]; eexists; eexists; (split; [reflexivity | exact Hn]).
Qed.

(** C5.  Whenever a round of the full-history loop, reached after [n]
    rounds that went on, gets a page that is not empty and has fewer
    than [KLINE_MAX] rows, the function returns the accumulated pages
    with that page appended (deduplicated and sorted), the request of
    that round is the last one issued, [n + 1] in all, and every key of
    the page is in the returned frame. *)
Theorem short_page_ends_full_history (symbol interval : string) (end_s : option Z)
        (n : nat) (s : bstate) data df (fuel : nat) :
  after n (kline_path symbol) interval (backward_init (default now_s end_s)) = Some s ->
  req_get (length (st_tr s)) (backward_request (kline_path symbol) interval s) = Ok data ->
  decode data interval = Ok df ->
  df <> [] ->
  Z.of_nat (length df) < KLINE_MAX ->
  (n < fuel)%nat ->
  let out := dedup_sort (pd_concat (st_all_df s ++ [df])) in
  let tr := st_tr s ++ [backward_request (kline_path symbol) interval s] in
  fetch_kline_full_history to_datetime_s utc_min utc_max req_get now_s fuel symbol interval
                           end_s = (Some (Ok out), tr)
  /\ length tr = S n
  /\ (forall r, In r df -> exists r', In r' out /\ key_of r' = key_of r).
Proof.
  intros Hafter Hreq Hdec Hne Hlen Hfuel out tr. subst out tr.
  split; [|split].
  - rewrite fetch_full_of_loop.
    replace fuel with (n + S (fuel - S n))%nat by lia.
    rewrite (backward_loop_after n _ _ _ _ _ Hafter). simpl.
    now rewrite (backward_body_short _ _ _ data df Hreq Hdec Hne Hlen).
  - rewrite List.length_app, (backward_after_trace n _ _ _ _ Hafter). simpl. lia.
  - intros r Hr.
    set (acc := pd_concat (st_all_df s ++ [df])).
    assert (Hacc : Forall (fun r => col_interval r = interval) acc).
    { apply pages_concat. apply List.Forall_app. split.
      - eapply backward_after_pages; [|exact Hafter]. constructor.
      - constructor; [|constructor]. eapply DecoderSpec.decoder_interval. exact Hdec. }
    destruct (dedup_sort_first_seen interval acc Hacc) as [_ Hin].
    assert (Hracc : In r acc).
    { unfold acc, pd_concat. rewrite List.concat_app. apply List.in_or_app. right.
      simpl. rewrite List.app_nil_r. exact Hr. }
    destruct (first_with_key (key_of r) acc) as [r'|] eqn:Ef.
    + pose proof (List.find_some _ _ Ef) as [_ Hk]. apply key_eqb_eq in Hk.
      exists r'. split; [|now symmetry]. apply Hin. now rewrite <- Hk.
    + pose proof (List.find_none _ _ Ef r Hracc) as Hk. simpl in Hk.
      now rewrite key_eqb_refl in Hk.
Qed.

End Loops.

Lemma backfill_first_seen_sorted_witness :
  exists all_df,
    backward_loop any_iso year_1 year_9999 dup_api 1
                  (kline_path "XAUT_USDT") "Min1" (backward_init 10)
    = (Some (Ok all_df),
       [backward_request (kline_path "XAUT_USDT") "Min1" (backward_init 10)])
    /\ first_seen_sorted (pd_concat all_df) (firstn 1 dup_rows).
Proof.
  apply (proj1 (backfill_first_seen_sorted any_iso year_1 year_9999 dup_api 0
                  "XAUT_USDT" "Min1") 1%nat (Some 10)).
  reflexivity.
Defined.

(** C1 as stated fails: [drop_duplicates] keeps the first row of a key.
    On a page that holds the timestamp 5 twice the returned frame has
    the first of the two rows, not the last. *)
Lemma backfill_last_seen_counterexample :
  ~ (forall (to_datetime_s : Z -> option string) (utc_min utc_max : Z)
            (req_get : nat -> kline_request -> result kline_payload) (now_s : Z)
            (fuel : nat) (symbol interval : string) (end_s : option Z) out tr,
        fetch_kline_full_history to_datetime_s utc_min utc_max req_get now_s fuel symbol
                                 interval end_s = (Some (Ok out), tr) ->
        exists all_df,
          backward_loop to_datetime_s utc_min utc_max req_get fuel (kline_path symbol)
                        interval (backward_init (default now_s end_s))
          = (Some (Ok all_df), tr)
          /\ last_seen_sorted (pd_concat all_df) out).
Proof.
  intros H.
  destruct (H any_iso year_1 year_9999 dup_api 0 1%nat "XAUT_USDT"%string
              "Min1"%string (Some 10) (firstn 1 dup_rows) _ eq_refl)
    as [all_df [Hloop [_ Hin]]].
  vm_compute in Hloop. injection Hloop as <-.
  specialize (Hin (nth 0 dup_rows (nth 1 dup_rows (nth 0 dup_rows
                (mk_candle 0 "" "" JNull JNull JNull JNull JNull JNull))))).
  destruct Hin as [Hin _]. specialize (Hin (or_introl eq_refl)).
  vm_compute in Hin. discriminate Hin.
Qed.

Lemma full_history_terminates_witness :
  exists r tr,
    fetch_kline_full_history any_iso year_1 year_9999 repeat_api 0 2
                             "XAUT_USDT" "Min1" None = (Some r, tr)
    /\ (length tr <= 2)%nat.
Proof.
  apply (proj2 (proj2 (full_history_terminates any_iso year_1 year_9999
                         repeat_api 0 "XAUT_USDT" "Min1" None))
           (Dict full_page) 2%nat).
  - intros n rq. reflexivity.
  - apply le_n.
Defined.

Lemma short_page_ends_full_history_witness :
  fetch_kline_full_history any_iso year_1 year_9999 dup_api 0 1
                           "XAUT_USDT" "Min1" (Some 10)
  = (Some (Ok (dedup_sort (pd_concat ([] ++ [dup_rows])))),
     [] ++ [backward_request (kline_path "XAUT_USDT") "Min1" (backward_init 10)])
  /\ length ([] ++ [backward_request (kline_path "XAUT_USDT") "Min1" (backward_init 10)])
     = 1%nat
  /\ (forall r, In r dup_rows ->
                exists r', In r' (dedup_sort (pd_concat ([] ++ [dup_rows])))
                           /\ key_of r' = key_of r).
Proof.
  apply (short_page_ends_full_history any_iso year_1 year_9999 dup_api 0
           "XAUT_USDT" "Min1" (Some 10) 0 (backward_init 10) (Dict dup_page) dup_rows 1).
  - reflexivity.
  - reflexivity.
  - reflexivity.
  - discriminate.
  - reflexivity.
  - apply le_n.
Defined.

Lemma ascending_tb_of_sorted (l : list candle) :
  StronglySorted (fun a b => col_t a < col_t b) l -> ascending_tb (map col_t l) = true.
Proof.
  induction l as [|a l IH]; intros Hs; [reflexivity|].
  inversion Hs as [|? ? Hs' Hall]; subst.
  destruct l as [|b l]; [reflexivity|].
  change (((col_t a <? col_t b) && ascending_tb (map col_t (b :: l))) = true).
  rewrite (IH Hs'), Bool.andb_true_r. apply Z.ltb_lt.
  inversion Hall; subst. assumption.
Qed.

Lemma two_requests_and_elim (p : list candle -> bool) (r : run kline_request (list candle)) :
  two_requests_and p r = true ->
  exists out tr, r = (Some (Ok out), tr) /\ length tr = 2%nat /\ p out = true.
Proof.
  destruct r as [[[out|e]|] tr]; simpl; try discriminate.
  intros H. apply Bool.andb_true_iff in H. destruct H as [H1 H2].
  apply Nat.eqb_eq in H1. now exists out, tr.
Qed.

Lemma not_ascending_sound (out : list candle) :
  not_ascending out = true -> ~ StronglySorted (fun a b => col_t a < col_t b) out.
Proof.
  unfold not_ascending. intros H Hs. apply ascending_tb_of_sorted in Hs.
  rewrite Hs in H. discriminate H.
Qed.

Lemma same_key_0_2000_sound (out : list candle) :
  same_key_0_2000 out = true -> ~ List.NoDup (map key_of out).
Proof.
  unfold same_key_0_2000. intros H Hnd.
  apply Bool.andb_true_iff in H. destruct H as [Hlen Hk].
  apply Nat.ltb_lt in Hlen. apply key_eqb_eq in Hk.
  assert (E : 0%nat = 2000%nat); [|discriminate E].
  apply (proj1 (List.NoDup_nth (map key_of out) (key_of blank_row)) Hnd).
  - rewrite List.length_map. lia.
  - rewrite List.length_map. exact Hlen.
  - now rewrite !List.map_nth.
Qed.

(** C3 on the code.  Served a history of 3000 candles in two pages, a
    full one and then the older rest, [fetch_index_kline_full] and
    [fetch_fair_kline_full] return the pages in the order fetched: the
    frame is not ascending.  Served the same full page again and again,
    they return it twice: row 0 and row 2000 have the same key. *)
Theorem index_fair_full_not_postprocessed :
  (exists out tr,
      fetch_index_kline_full any_iso year_1 year_9999 history_api 5000 2
                             "XAUT_USDT" "Min1" = (Some (Ok out), tr)
      /\ length tr = 2%nat
      /\ ~ StronglySorted (fun a b => col_t a < col_t b) out)
  /\ (exists out tr,
        fetch_fair_kline_full any_iso year_1 year_9999 history_api 5000 2
                              "XAUT_USDT" "Min1" = (Some (Ok out), tr)
        /\ length tr = 2%nat
        /\ ~ StronglySorted (fun a b => col_t a < col_t b) out)
  /\ (exists out tr,
        fetch_index_kline_full any_iso year_1 year_9999 repeat_api 5000 2
                               "XAUT_USDT" "Min1" = (Some (Ok out), tr)
        /\ length tr = 2%nat
        /\ ~ List.NoDup (map key_of out))
  /\ (exists out tr,
        fetch_fair_kline_full any_iso year_1 year_9999 repeat_api 5000 2
                              "XAUT_USDT" "Min1" = (Some (Ok out), tr)
        /\ length tr = 2%nat
        /\ ~ List.NoDup (map key_of out)).
Proof.
  split; [|split; [|split]].
  - destruct (two_requests_and_elim not_ascending
                (fetch_index_kline_full any_iso year_1 year_9999 history_api
                                        5000 2 "XAUT_USDT" "Min1"))
      as [out [tr [E [Hn Hp]]]]; [vm_compute; reflexivity|].
    exists out, tr. auto using not_ascending_sound.
  - destruct (two_requests_and_elim not_ascending
                (fetch_fair_kline_full any_iso year_1 year_9999 history_api
                                       5000 2 "XAUT_USDT" "Min1"))
      as [out [tr [E [Hn Hp]]]]; [vm_compute; reflexivity|].
    exists out, tr. auto using not_ascending_sound.
  - destruct (two_requests_and_elim same_key_0_2000
                (fetch_index_kline_full any_iso year_1 year_9999 repeat_api
                                        5000 2 "XAUT_USDT" "Min1"))
      as [out [tr [E [Hn Hp]]]]; [vm_compute; reflexivity|].
    exists out, tr. auto using same_key_0_2000_sound.
  - destruct (two_requests_and_elim same_key_0_2000
                (fetch_fair_kline_full any_iso year_1 year_9999 repeat_api
                                       5000 2 "XAUT_USDT" "Min1"))
      as [out [tr [E [Hn Hp]]]]; [vm_compute; reflexivity|].
    exists out, tr. auto using same_key_0_2000_sound.
Qed.

End BackfillSpec.

(** ** The funding-history paginator *)

Module FundingSpec.
Import Funding.

Lemma pages_from_S (symbol : string) (page_size p : Z) (k : nat) :
  pages_from symbol page_size p (S k)
  = {| rq_symbol := symbol; page_num := p; page_size := page_size |}
      :: pages_from symbol page_size (p + 1) k.
Proof.
  unfold pages_from. simpl. rewrite Z.add_0_r. f_equal.
  rewrite <- seq_shift, List.map_map. apply List.map_ext. intros i. f_equal. lia.
Qed.

Lemma pages_from_nums (symbol : string) (page_size : Z) (k : nat) :
  map page_num (pages_from symbol page_size 1 k) = map Z.of_nat (seq 1 k).
Proof.
  unfold pages_from. rewrite List.map_map. simpl.
  rewrite <- seq_shift, List.map_map. apply List.map_ext. intros i. lia.
Qed.

Section Loops.

Variable isoformat_ms : json -> result string.
Variable int_of_str : string -> option Z.
Variable req_get : nat -> funding_request -> result json.

Local Abbreviation body := (funding_body isoformat_ms int_of_str req_get).
Local Abbreviation loop := (funding_loop isoformat_ms int_of_str req_get).
Local Abbreviation after := (funding_after isoformat_ms int_of_str req_get).

(** What one pass through the loop body can do. *)
Lemma funding_body_cases (symbol : string) (page_size : Z) (s : fstate) :
  let rq := request_of symbol page_size s in
  match body symbol page_size s with
  | Break _ tr => tr = pg_tr s ++ [rq]
  | Continue s' =>
      exists data total rows,
        req_get (length (pg_tr s)) rq = Ok (JObj data)
        /\ py_int int_of_str (get_or "totalPage" (JInt (pg_page s)) data) = Ok total
        /\ pg_page s < total
        /\ s' = {| pg_rows := rows; pg_page := pg_page s + 1; pg_tr := pg_tr s ++ [rq] |}
  end.
Proof.
  intros rq. unfold funding_body. fold (request_of symbol page_size s). fold rq.
  destruct (req_get (length (pg_tr s)) rq) as [v|e] eqn:Hreq; [|reflexivity].
  destruct v as [| | | | | |data]; try reflexivity.
  destruct (dict_get "resultList" data) as [rl|]; [|reflexivity].
  destruct (iter_json rl) as [items|e]; [|reflexivity]. cbn.
  destruct (append_rows isoformat_ms (pg_rows s) items) as [rows|e]; [|reflexivity]. cbn.
  destruct (py_int int_of_str (get_or "totalPage" (JInt (pg_page s)) data))
    as [total|e] eqn:Hint; [|reflexivity]. cbn.
  destruct (pg_page s >=? total) eqn:Hge; [reflexivity|].
  rewrite Z.geb_leb in Hge. apply Z.leb_gt in Hge.
  exists data, total, rows. auto.
Qed.

Lemma funding_body_malformed (symbol : string) (page_size : Z) (s : fstate) (v : json) :
  req_get (length (pg_tr s)) (request_of symbol page_size s) = Ok v ->
  lacks_result_list v ->
  body symbol page_size s
  = Break (Ok (pg_rows s)) (pg_tr s ++ [request_of symbol page_size s]).
Proof.
  intros Hreq Hv. unfold funding_body. fold (request_of symbol page_size s).
  rewrite Hreq. destruct v; try reflexivity. simpl in Hv. now rewrite Hv.
Qed.

Lemma funding_loop_after (n : nat) (symbol : string) (page_size : Z) :
  forall s s' fuel,
    after n symbol page_size s = Some s' ->
    loop (n + fuel) symbol page_size s = loop fuel symbol page_size s'.
Proof.
  induction n as [|n IH]; intros s s' fuel H; simpl in *.
  - now injection H as ->.
  - destruct (body symbol page_size s) as [r tr|s1]; [discriminate|]. now apply IH.
Qed.

Lemma funding_after_trace (n : nat) (symbol : string) (page_size : Z) :
  forall s s', after n symbol page_size s = Some s' ->
               length (pg_tr s') = (length (pg_tr s) + n)%nat.
Proof.
  induction n as [|n IH]; intros s s' H; simpl in *.
  - injection H as ->. lia.
  - pose proof (funding_body_cases symbol page_size s) as Hb. simpl in Hb.
    destruct (body symbol page_size s) as [r tr|s1]; [discriminate|].
    destruct Hb as [data [total [rows [_ [_ [_ ->]]]]]].
    rewrite (IH _ _ H). simpl. rewrite List.length_app. simpl. lia.
Qed.


(** When no page declares more than [M] pages, at most [max 1 M]
    rounds remain from page 1 on. *)
Lemma funding_loop_bounded (symbol : string) (page_size M : Z) :
  (forall n rq data v total,
      req_get n rq = Ok (JObj data) ->
      dict_get "totalPage" data = Some v ->
      py_int int_of_str v = Ok total ->
      total <= M) ->
  forall k s fuel,
    M - pg_page s < Z.of_nat (S k) ->
    (S k <= fuel)%nat ->
    exists r tr,
      loop fuel symbol page_size s = (Some r, tr)
      /\ (length tr <= length (pg_tr s) + S k)%nat.
Proof.
  intros HM. induction k as [|k IH]; intros s fuel Hk Hfuel;
    (destruct fuel as [|fuel]; [lia|]); simpl;
    pose proof (funding_body_cases symbol page_size s) as Hb; simpl in Hb;
    destruct (body symbol page_size s) as [r tr|s'];
    try (exists r, tr; split; [reflexivity|]; rewrite Hb, List.length_app; simpl; lia);
    destruct Hb as [data [total [rows [Hreq [Hint [Hlt ->]]]]]];
    assert (Htot : total <= M)
      by (unfold get_or in Hint;
          destruct (dict_get "totalPage" data) as [v|] eqn:Et;
          [exact (HM _ _ _ _ _ Hreq Et Hint) | simpl in Hint; injection Hint as <-; lia]).
  - lia.
  - destruct (IH (mk_fstate rows (pg_page s + 1)
                            (pg_tr s ++ [request_of symbol page_size s])) fuel)
      as [r [tr [Hl Hn]]]; [simpl; lia | lia |].
    exists r, tr. split; [exact Hl|].
    simpl in Hn. rewrite List.length_app in Hn. simpl in Hn. lia.
Qed.

Lemma append_rows_ok (items : list json) :
  (forall x, In x items -> exists r, row_of isoformat_ms x = Ok r) ->
  forall rows, exists rows', append_rows isoformat_ms rows items = Ok rows'.
Proof.
  induction items as [|x items IH]; intros H rows; simpl.
  - eexists; reflexivity.
  - destruct (H x (or_introl eq_refl)) as [r ->]. cbn.
    apply IH. intros y Hy. apply H. now right.
Qed.

(** With a consistent [totalPage = N] and well-formed pages, the loop
    started at page [p <= N] asks for the pages [p .. N] and returns. *)
Lemma funding_loop_consistent (symbol : string) (page_size N : Z) :
  (forall n rq, exists data items,
      req_get n rq = Ok (JObj data)
      /\ dict_get "resultList" data = Some (JArr items)
      /\ (forall x, In x items -> exists r, row_of isoformat_ms x = Ok r)
      /\ dict_get "totalPage" data = Some (JInt N)) ->
  forall k s fuel,
    pg_page s + Z.of_nat k = N ->
    (k < fuel)%nat ->
    exists rows,
      loop fuel symbol page_size s
      = (Some (Ok rows), pg_tr s ++ pages_from symbol page_size (pg_page s) (S k)).
Proof.
  intros Hapi. induction k as [|k IH]; intros s fuel Hp Hfuel;
    (destruct fuel as [|fuel]; [lia|]);
    destruct (Hapi (length (pg_tr s)) (request_of symbol page_size s))
      as [data [items [Hreq [Hrl [Hitems Htot]]]]];
    destruct (append_rows_ok items Hitems (pg_rows s)) as [rows' Hrows];
    cbn [funding_loop]; unfold funding_body; fold (request_of symbol page_size s);
    rewrite Hreq, Hrl; cbn; rewrite Hrows; cbn; unfold get_or; rewrite Htot; cbn.
  - replace (pg_page s >=? N) with true by (symmetry; rewrite Z.geb_leb; apply Z.leb_le; lia).
    exists rows'. reflexivity || (unfold pages_from, request_of; simpl; now rewrite Z.add_0_r).
  - replace (pg_page s >=? N) with false
      by (symmetry; rewrite Z.geb_leb; apply Z.leb_gt; lia).
    destruct (IH (mk_fstate rows' (pg_page s + 1)
                            (pg_tr s ++ [request_of symbol page_size s])) fuel)
      as [rows Hl]; [simpl; lia | lia |].
    exists rows. rewrite Hl.
    rewrite (pages_from_S symbol page_size (pg_page s) (S k)).
    cbn [pg_tr pg_page]. rewrite <- List.app_assoc. reflexivity.
Qed.

(** C4 as amended.  The loop has no cap of its own: it asks for the
    pages 1, 2, ... and leaves at the first page that is malformed,
    raises, or declares a [totalPage] not above its number.  So (a) when
    no page declares more than [M] pages, at most [max 1 M] requests are
    issued, and (b) when every page is well formed and declares the
    same [totalPage = N >= 1], exactly the [N] requests for the pages
    [1 .. N] are issued and the rows are returned. *)
Theorem funding_requests_follow_total_page (symbol : string) (page_size : Z) :
  (forall M fuel,
      (forall n rq data v total,
          req_get n rq = Ok (JObj data) ->
          dict_get "totalPage" data = Some v ->
          py_int int_of_str v = Ok total ->
          total <= M) ->
      (Z.to_nat (Z.max 1 M) <= fuel)%nat ->
      exists r tr,
        get_funding_history isoformat_ms int_of_str req_get fuel symbol page_size
        = (Some r, tr)
        /\ (length tr <= Z.to_nat (Z.max 1 M))%nat)
  /\ (forall N fuel,
        (forall n rq, exists data items,
            req_get n rq = Ok (JObj data)
            /\ dict_get "resultList" data = Some (JArr items)
            /\ (forall x, In x items -> exists r, row_of isoformat_ms x = Ok r)
            /\ dict_get "totalPage" data = Some (JInt N)) ->
        1 <= N ->
        (Z.to_nat N <= fuel)%nat ->
        exists rows tr,
          get_funding_history isoformat_ms int_of_str req_get fuel symbol page_size
          = (Some (Ok rows), tr)
          /\ length tr = Z.to_nat N
          /\ map page_num tr = map Z.of_nat (seq 1 (Z.to_nat N))).
Proof.
  split.
  - intros M fuel HM Hfuel. unfold get_funding_history.
    destruct (funding_loop_bounded symbol page_size M HM (Z.to_nat (Z.max 1 M) - 1)
                funding_init fuel) as [r [tr [Hl Hn]]]; [simpl; lia | lia |].
    exists r, tr. split; [exact Hl|]. simpl in Hn. lia.
  - intros N fuel Hapi HN Hfuel. unfold get_funding_history.
    destruct (funding_loop_consistent symbol page_size N Hapi (Z.to_nat N - 1)
                funding_init fuel) as [rows Hl]; [simpl; lia | lia |].
    rewrite Hl. eexists; eexists. split; [reflexivity|].
    replace (S (Z.to_nat N - 1)) with (Z.to_nat N) by lia. simpl pg_tr. simpl pg_page.
    simpl app. split; [unfold pages_from; now rewrite List.length_map, List.length_seq|].
    apply pages_from_nums.
Qed.

End Loops.

Lemma funding_requests_follow_total_page_witness :
  exists rows tr,
    get_funding_history iso_stub int_stub three_pages_api 3 "XAUT_USDT" 1000
    = (Some (Ok rows), tr)
    /\ length tr = 3%nat
    /\ map page_num tr = [1; 2; 3].
Proof.
  apply (proj2 (funding_requests_follow_total_page iso_stub int_stub three_pages_api
                  "XAUT_USDT" 1000) 3 3%nat).
  - intros n rq. eexists; eexists. split; [reflexivity|]. split; [reflexivity|].
    split; [|reflexivity].
    intros x [<-|[]]. eexists. reflexivity.
  - discriminate.
  - apply le_n.
Defined.


(** An upstream whose [totalPage] grows with every page keeps the loop
    running: after any number of rounds it has issued that many requests
    and has not left. *)
Lemma growing_total_never_leaves (fuel : nat) :
  forall s,
    funding_loop iso_stub int_stub growing_api fuel "XAUT_USDT" 1000 s
    = (None, pg_tr s ++ pages_from "XAUT_USDT" 1000 (pg_page s) fuel).
Proof.
  induction fuel as [|fuel IH]; intros s.
  - simpl. now rewrite List.app_nil_r.
  - cbn [funding_loop]. unfold funding_body. cbn.
    replace (pg_page s >=? pg_page s + 1) with false
      by (symmetry; rewrite Z.geb_leb; apply Z.leb_gt; lia).
    rewrite IH. rewrite pages_from_S.
    cbn [pg_tr pg_page]. rewrite <- List.app_assoc. reflexivity.
Qed.

(** C4 as stated fails: the loop has no cap.  Against an upstream that
    declares [totalPage = 2] on page 1 and one more on every later
    page, more than [2 + 1] requests are issued. *)
Lemma funding_cap_counterexample :
  ~ (forall (isoformat_ms : json -> result string) (int_of_str : string -> option Z)
            (req_get : nat -> funding_request -> result json)
            (symbol : string) (page_size : Z) (fuel : nat) data total,
        req_get 0%nat {| rq_symbol := symbol; page_num := 1; page_size := page_size |}
        = Ok (JObj data) ->
        py_int int_of_str (get_or "totalPage" (JInt 1) data) = Ok total ->
        Z.of_nat (length (snd (get_funding_history isoformat_ms int_of_str req_get fuel
                                                   symbol page_size)))
        <= total + 1).
Proof.
  intros H.
  specialize (H iso_stub int_stub growing_api "XAUT_USDT"%string 1000 4%nat
                _ 2 eq_refl eq_refl).
  vm_compute in H. apply H. reflexivity.
Qed.

End FundingSpec.

(** ** The stream recorder *)

Module RecorderSpec.
Import Recorder.

Lemma append_inj (p a b : string) : String.append p a = String.append p b -> a = b.
Proof.
  induction p as [|c p IH]; simpl; intros H; [exact H|].
  injection H as H. now apply IH.
Qed.

(** The six sink files are six different paths. *)
Lemma sink_paths_distinct (outdir : string) :
  List.NoDup (map snd (sink_files outdir)).
Proof.
  unfold sink_files, path_join. simpl.
  destruct (String.eqb outdir EmptyString || ends_with_sep outdir);
    repeat constructor; simpl; intros H;
    repeat (destruct H as [H|H]; [apply append_inj in H; discriminate H|]);
    exact H.
Qed.

Lemma earlier_le_r (a b : Q) : (earlier a b <= b)%Q.
Proof.
  unfold earlier. destruct (Qle_bool a b) eqn:E.
  - now apply Qle_bool_iff.
  - apply Qle_refl.
Qed.

Section Session.

Variable can_open : string -> bool.
Variable json_loads : string -> option json.
Variable str_of : json -> string.
Variable json_dumps : json -> string.
Variable json_dumps_noascii : json -> string.

Local Abbreviation on_message :=
  (_on_message can_open json_loads str_of json_dumps json_dumps_noascii).
Local Abbreviation run_session :=
  (MexcWSRecorder_run can_open json_loads str_of json_dumps json_dumps_noascii).
Local Abbreviation deliver_frames :=
  (deliver can_open json_loads str_of json_dumps json_dumps_noascii).

(** The recorder [__init__] returns. *)
Lemma init_ok (symbol0 outdir0 : string) (r d : Z) (fs fs' : filesystem)
      (self : MexcWSRecorder) :
  __init__ can_open symbol0 outdir0 r d fs = (Ok self, fs') ->
  self = {| symbol := symbol0; outdir := outdir0; run_seconds := Z.max 10 r;
            depth_limit := d; ws_url := "wss://contract.mexc.com/edge";
            files := list_to_map (sink_files outdir0) |}.
Proof.
  unfold __init__.
  destruct (init_headers can_open (sink_files outdir0) fs) as [[u|e] fs1]; intros H.
  - now injection H as <- _.
  - discriminate H.
Qed.


Lemma write_lookup (path text : string) (fs : filesystem) :
  write path text (open_append path fs) !! path
  = Some (String.append (default EmptyString (fs !! path)) text)
  /\ forall p, p <> path -> write path text (open_append path fs) !! p = fs !! p.
Proof.
  unfold write, open_append. split.
  - rewrite lookup_insert_eq. destruct (fs !! path) eqn:E.
    + now rewrite E.
    + now rewrite lookup_insert_eq.
  - intros p Hp. rewrite lookup_insert_ne by congruence.
    destruct (fs !! path); [reflexivity|]. now rewrite lookup_insert_ne by congruence.
Qed.

Lemma append_line_ok (self : MexcWSRecorder) (k path text : string) (fs : filesystem) :
  files self !! k = Some path ->
  can_open path = true ->
  append_line can_open self k (Ok text) fs
  = (Ok tt, write path (String.append text nl) (open_append path fs)).
Proof. intros H Ho. unfold append_line. now rewrite H, Ho. Qed.

Lemma py_or_dict (d : list (string * json)) : py_or (JObj d) (JObj []) = JObj d.
Proof. destruct d; reflexivity. Qed.

Lemma files_lookup (self : MexcWSRecorder) (k path : string) :
  files self = list_to_map (sink_files (outdir self)) ->
  In (k, path) (sink_files (outdir self)) ->
  files self !! k = Some path.
Proof.
  intros Hfiles Hin. rewrite Hfiles. unfold sink_files in *. simpl in Hin.
  cbn [list_to_map foldr].
  destruct Hin as [E|[E|[E|[E|[E|[E|[]]]]]]]; injection E as <- <-;
    cbn [fst snd uncurry];
    repeat (rewrite lookup_insert_ne by discriminate); apply lookup_insert_eq.
Qed.

(** A recognised push with a dict as [data] and, on the channels whose
    line is built with [",".join], a string as symbol, adds the line of
    its channel to the file of its channel, when that file can be
    opened. *)
Lemma route_recognised (self : MexcWSRecorder) (c : string) (ts sym : json)
      (d : list (string * json)) (fs : filesystem) :
  files self = list_to_map (sink_files (outdir self)) ->
  In c channels ->
  (In c ["push.deal"; "push.depth"; "push.ticker"]%string -> exists x, sym = JStr x) ->
  can_open (sink_path self c) = true ->
  route can_open str_of json_dumps json_dumps_noascii self (JStr c) ts sym (JObj d) fs
  = (Ok tt,
     write (sink_path self c)
           (String.append (expected_line str_of json_dumps json_dumps_noascii self c ts sym d)
                          nl)
           (open_append (sink_path self c) fs)).
Proof.
  intros Hfiles Hc Hsym Hopen.
  pose proof (files_lookup self) as L.
  unfold channels in Hc. simpl in Hc.
  destruct Hc as [<-|[<-|[<-|[<-|[<-|[<-|[]]]]]]].
  - destruct Hsym as [x ->]; [simpl; tauto|].
    rewrite <- (append_line_ok self "deal"); [reflexivity | | exact Hopen].
    apply L; [exact Hfiles | left; reflexivity].
  - destruct Hsym as [x ->]; [simpl; tauto|].
    rewrite <- (append_line_ok self "depth"); [reflexivity | | exact Hopen].
    apply L; [exact Hfiles | right; left; reflexivity].
  - destruct Hsym as [x ->]; [simpl; tauto|].
    rewrite <- (append_line_ok self "ticker"); [| | exact Hopen].
    + unfold route. cbn [is_str String.eqb Ascii.eqb Bool.eqb]. rewrite py_or_dict.
      reflexivity.
    + apply L; [exact Hfiles | do 2 right; left; reflexivity].
  - rewrite <- (append_line_ok self "index"); [reflexivity | | exact Hopen].
    apply L; [exact Hfiles | do 3 right; left; reflexivity].
  - rewrite <- (append_line_ok self "fair"); [reflexivity | | exact Hopen].
    apply L; [exact Hfiles | do 4 right; left; reflexivity].
  - rewrite <- (append_line_ok self "funding"); [reflexivity | | exact Hopen].
    apply L; [exact Hfiles | do 5 right; left; reflexivity].
Qed.

Lemma route_unrecognised (self : MexcWSRecorder) (ch ts sym data : json) (fs : filesystem) :
  (forall c, In c channels -> is_str ch c = false) ->
  route can_open str_of json_dumps json_dumps_noascii self ch ts sym data fs = (Ok tt, fs).
Proof.
  intros H. unfold route.
  rewrite !H by (unfold channels; simpl; tauto). reflexivity.
Qed.

(** A frame whose handler returns without touching a file can be taken
    out of what the receive loop delivers. *)
Lemma deliver_skip (self : MexcWSRecorder) (f : frame) (pre post : list frame) :
  (forall fs, on_message self (clock_ms f) (text f) fs = (Ok tt, fs)) ->
  forall errs fs,
    deliver_frames self (pre ++ f :: post) errs fs = deliver_frames self (pre ++ post) errs fs.
Proof.
  intros Hf. induction pre as [|g pre IH]; intros errs fs; simpl.
  - now rewrite Hf.
  - destruct (on_message self (clock_ms g) (text g) fs) as [[u|e] fs1]; apply IH.
Qed.

Lemma quiet_is_dropped (self : MexcWSRecorder) (now_ms : Z) (message : string)
      (fs : filesystem) :
  (forall now fs1, on_message self now message fs1 = (Ok tt, fs1)) ->
  dropped_quietly can_open json_loads str_of json_dumps json_dumps_noascii
                  self now_ms message fs.
Proof.
  intros Hq. split; [apply Hq|].
  intros c c' pre post f fs0 Htext Hin Hin' Href Hlost.
  unfold MexcWSRecorder_run. rewrite Href.
  destruct (refused c); [reflexivity|].
  unfold session_end. rewrite Hlost, Hin, Hin'.
  rewrite !List.filter_app. cbn [List.filter].
  destruct (arrives_before _ f); [|reflexivity].
  rewrite deliver_skip; [reflexivity|].
  intros fs1. rewrite Htext. apply Hq.
Qed.


End Session.





End RecorderSpec.

(** * Further properties *)

(** ** Deduplication and sorting, continued *)

Module PostprocessExtra.
Import Kline PostprocessSpec.

(** A strictly ascending frame is determined by its rows. *)
Lemma strictly_sorted_unique (l1 : list candle) :
  forall l2,
    StronglySorted (fun a b => col_t a < col_t b) l1 ->
    StronglySorted (fun a b => col_t a < col_t b) l2 ->
    (forall r, In r l1 <-> In r l2) ->
    l1 = l2.
Proof.
  induction l1 as [|a l1 IH]; intros l2 H1 H2 Hin.
  - destruct l2 as [|b l2]; [reflexivity|].
    exfalso. apply (proj2 (Hin b)). now left.
  - destruct l2 as [|b l2]; [exfalso; apply (proj1 (Hin a)); now left|].
    inversion H1 as [|? ? H1' A1]; subst. inversion H2 as [|? ? H2' A2]; subst.
    rewrite List.Forall_forall in A1, A2.
    assert (E : a = b).
    { destruct (proj1 (Hin a) (or_introl eq_refl)) as [E|Ha]; [now symmetry|].
      destruct (proj2 (Hin b) (or_introl eq_refl)) as [E|Hb]; [exact E|].
      specialize (A1 b Hb). specialize (A2 a Ha). lia. }
    subst b. f_equal. apply IH; [assumption | assumption |].
    intros r. split; intros Hr.
    + destruct (proj1 (Hin r) (or_intror Hr)) as [E|Hr2]; [|exact Hr2].
      subst r. specialize (A1 a Hr). lia.
    + destruct (proj2 (Hin r) (or_intror Hr)) as [E|Hr1]; [|exact Hr1].
      subst r. specialize (A2 a Hr). lia.
Qed.

Lemma first_with_key_NoDup (l : list candle) (r : candle) :
  List.NoDup (map key_of l) -> In r l -> first_with_key (key_of r) l = Some r.
Proof.
  unfold first_with_key. induction l as [|a l IH]; intros Hnd Hr; [contradiction|].
  simpl in Hnd. inversion Hnd as [|? ? Hnotin Hnd']; subst. simpl.
  destruct (key_eqb (key_of r) (key_of a)) eqn:E.
  - apply key_eqb_eq in E. destruct Hr as [->|Hr]; [reflexivity|].
    exfalso. apply Hnotin. rewrite <- E. now apply List.in_map.
  - destruct Hr as [->|Hr]; [now rewrite key_eqb_refl in E | now apply IH].
Qed.

Lemma strictly_sorted_NoDup_keys (l : list candle) :
  StronglySorted (fun a b => col_t a < col_t b) l -> List.NoDup (map key_of l).
Proof.
  induction 1 as [|a l Hs IH Ha]; simpl; constructor; [|exact IH].
  intros Hin. apply List.in_map_iff in Hin. destruct Hin as [b [Hk Hb]].
  rewrite List.Forall_forall in Ha. specialize (Ha b Hb).
  unfold key_of in Hk. injection Hk as Hk _. lia.
Qed.

Lemma first_with_key_app_seen (k : Z * string) (acc more : list candle) :
  In k (map key_of acc) -> first_with_key k (acc ++ more) = first_with_key k acc.
Proof.
  unfold first_with_key. induction acc as [|a acc IH]; intros Hk; [contradiction|].
  simpl. destruct (key_eqb k (key_of a)) eqn:E; [reflexivity|].
  apply IH. destruct Hk as [Hk|Hk]; [|exact Hk].
  apply key_eqb_neq in E. congruence.
Qed.

Lemma first_with_key_Some_key (k : Z * string) (acc : list candle) (r : candle) :
  first_with_key k acc = Some r -> In r acc /\ key_of r = k.
Proof.
  intros H. apply List.find_some in H. destruct H as [Hin Hk].
  apply key_eqb_eq in Hk. auto.
Qed.

Lemma first_with_key_found (k : Z * string) (acc : list candle) :
  In k (map key_of acc) -> exists r, first_with_key k acc = Some r.
Proof.
  intros Hk. apply List.in_map_iff in Hk. destruct Hk as [r [<- Hr]].
  destruct (first_with_key (key_of r) acc) as [r'|] eqn:E; [now exists r'|].
  pose proof (List.find_none _ _ E r Hr) as Hn. simpl in Hn.
  now rewrite key_eqb_refl in Hn.
Qed.

(** X1.  Postprocessing a frame that was already postprocessed changes
    nothing. *)
Theorem dedup_sort_idempotent (interval : string) (acc : list candle) :
  Forall (fun r => col_interval r = interval) acc ->
  dedup_sort (dedup_sort acc) = dedup_sort acc.
Proof.
  intros Hi.
  destruct (dedup_sort_first_seen interval acc Hi) as [Hs Hin].
  assert (Hi' : Forall (fun r => col_interval r = interval) (dedup_sort acc)).
  { apply List.Forall_forall. intros r Hr. apply Hin in Hr.
    apply first_with_key_Some_key in Hr. rewrite List.Forall_forall in Hi. now apply Hi. }
  destruct (dedup_sort_first_seen interval (dedup_sort acc) Hi') as [Hs' Hin'].
  apply strictly_sorted_unique; [exact Hs' | exact Hs |].
  intros r. rewrite Hin'. split.
  - intros H. now apply first_with_key_Some_key in H.
  - intros H. apply first_with_key_NoDup; [|exact H].
    now apply strictly_sorted_NoDup_keys.
Qed.

Lemma dedup_sort_idempotent_witness :
  dedup_sort (dedup_sort dup_rows) = dedup_sort dup_rows.
Proof.
  apply (dedup_sort_idempotent "Min1" dup_rows).
  repeat constructor.
Defined.

(** X2.  Pages that only repeat keys already accumulated do not change
    the result: the rows fetched first stay. *)
Theorem dedup_sort_ignores_refetched (interval : string) (acc more : list candle) :
  Forall (fun r => col_interval r = interval) (acc ++ more) ->
  (forall r, In r more -> In (key_of r) (map key_of acc)) ->
  dedup_sort (acc ++ more) = dedup_sort acc.
Proof.
  intros Hi Hsub.
  assert (Hia : Forall (fun r => col_interval r = interval) acc).
  { apply List.Forall_app in Hi. tauto. }
  destruct (dedup_sort_first_seen interval (acc ++ more) Hi) as [Hs Hin].
  destruct (dedup_sort_first_seen interval acc Hia) as [Hs' Hin'].
  apply strictly_sorted_unique; [exact Hs | exact Hs' |].
  intros r. rewrite Hin, Hin'.
  assert (Hkey : first_with_key (key_of r) (acc ++ more) = Some r ->
                 In (key_of r) (map key_of acc)).
  { intros H. apply first_with_key_Some_key in H. destruct H as [Hr _].
    apply List.in_app_or in Hr. destruct Hr as [Hr|Hr]; [now apply List.in_map | auto]. }
  split; intros H.
  - rewrite <- (first_with_key_app_seen _ acc more); [exact H | now apply Hkey].
  - rewrite first_with_key_app_seen; [exact H|].
    apply first_with_key_Some_key in H. destruct H as [Hr _]. now apply List.in_map.
Qed.

Lemma dedup_sort_ignores_refetched_witness :
  dedup_sort (firstn 1 dup_rows ++ skipn 1 dup_rows) = dedup_sort (firstn 1 dup_rows).
Proof.
  apply (dedup_sort_ignores_refetched "Min1").
  - repeat constructor.
  - intros r [<-|[]]. left. reflexivity.
Defined.

(** X3.  The result does not depend on how ties are broken or on the
    sorting algorithm: any arrangement of the deduplicated rows that is
    ascending by [t] is the frame returned. *)
Theorem dedup_sort_any_sort (interval : string) (acc out : list candle) :
  Forall (fun r => col_interval r = interval) acc ->
  Permutation out (drop_duplicates acc) ->
  StronglySorted (fun a b => col_t a <= col_t b) out ->
  out = dedup_sort acc.
Proof.
  intros Hi Hp Hs.
  destruct (dedup_sort_first_seen interval acc Hi) as [Hs' Hin].
  assert (Hsub : forall r, In r (drop_duplicates acc) -> In r acc).
  { intros r Hr. apply drop_duplicates_from_In in Hr. destruct Hr as [Hf _].
    now apply List.find_some in Hf. }
  apply strictly_sorted_unique; [|exact Hs'|].
  - apply sorted_strict; [exact Hs|].
    apply (Permutation_NoDup (l := map col_t (drop_duplicates acc)));
      [apply Permutation_map; now symmetry|].
    apply (same_interval_NoDup_t interval); [|apply drop_duplicates_from_NoDup].
    apply List.Forall_forall. intros r Hr.
    rewrite List.Forall_forall in Hi. apply Hi. now apply Hsub.
  - intros r. split; intros Hr.
    + apply (Permutation_in _ (Permutation_sym (sort_values_perm (drop_duplicates acc)))).
      now apply (Permutation_in _ Hp).
    + apply (Permutation_in _ (Permutation_sym Hp)).
      now apply (Permutation_in _ (sort_values_perm (drop_duplicates acc))).
Qed.

Lemma dedup_sort_any_sort_witness :
  firstn 1 dup_rows = dedup_sort dup_rows.
Proof.
  apply (dedup_sort_any_sort "Min1").
  - repeat constructor.
  - apply Permutation_refl.
  - repeat constructor.
Defined.

End PostprocessExtra.

(** ** The page decoder, continued *)

Module DecoderExtra.
Import Kline DecoderSpec.

(** X4.  The decoder does not truncate or pad a field array that is
    present: when one of them has a length other than the number of
    timestamps, building the frame raises [ValueError]. *)
Theorem decoder_rejects_unequal_lengths
  (to_datetime_s : Z -> option string) (interval : string) (d : kline_dict)
  (ts : list Z) (c : option (list json)) (l : list json) :
  time d = Some ts -> ts <> [] ->
  In c [open d; high d; low d; close d; vol d; amount d] ->
  c = Some l ->
  length l <> length ts ->
  _kline_payload_to_df to_datetime_s (Dict d) interval = Raise ValueError.
Proof.
  intros Ht Hne Hc Hl Hlen. unfold _kline_payload_to_df. rewrite Ht.
  destruct ts as [|x ts']; [congruence|].
  destruct (forallb _ _) eqn:F; [|reflexivity].
  exfalso. rewrite List.forallb_forall in F. specialize (F c Hc).
  apply Nat.eqb_eq in F. subst c. simpl in F. contradiction.
Qed.

Lemma decoder_rejects_unequal_lengths_witness :
  _kline_payload_to_df any_iso (Dict ragged_dict) "Min1" = Raise ValueError.
Proof.
  apply (decoder_rejects_unequal_lengths any_iso "Min1" ragged_dict [1; 2]
           (Some [JInt 1]) [JInt 1]).
  - reflexivity.
  - discriminate.
  - simpl. right. left. reflexivity.
  - reflexivity.
  - discriminate.
Defined.

(** X5.  Whatever the decoder returns is a whole page: a non-empty
    result has one row per timestamp, in the order of the [time] array,
    and reproduces every field array that is present entry for entry. *)
Theorem decoder_pages_are_whole
  (to_datetime_s : Z -> option string) (payload : kline_payload) (interval : string)
  (rows : list candle) :
  _kline_payload_to_df to_datetime_s payload interval = Ok rows ->
  rows <> [] ->
  exists d ts,
    payload = Dict d /\ time d = Some ts
    /\ length rows = length ts
    /\ map col_t rows = ts
    /\ (forall l, open d = Some l -> map col_open rows = l)
    /\ (forall l, high d = Some l -> map col_high rows = l)
    /\ (forall l, low d = Some l -> map col_low rows = l)
    /\ (forall l, close d = Some l -> map col_close rows = l)
    /\ (forall l, vol d = Some l -> map col_vol rows = l)
    /\ (forall l, amount d = Some l -> map col_amount rows = l).
Proof.
  unfold _kline_payload_to_df. intros H Hne.
  destruct payload as [|d]; [injection H as <-; congruence|].
  destruct (time d) as [[|x ts']|] eqn:Ht; try (injection H as <-; congruence).
  set (ts := x :: ts') in *.
  destruct (forallb _ _) eqn:F; [|discriminate].
  destruct (t_iso_column to_datetime_s ts) as [isos|e] eqn:Hisos; [|discriminate].
  cbv beta iota delta [mbind result_bind] in H.
  match type of H with Ok ?r = _ => set (fr := r) in * end.
  injection H as <-. subst fr.
  rewrite List.forallb_forall in F.
  assert (L : forall c, In c [open d; high d; low d; close d; vol d; amount d] ->
                        length (default (replicate (length ts) JNull) c) = length ts).
  { intros c Hc. apply Nat.eqb_eq. now apply F. }
  pose proof (L (open d) (or_introl eq_refl)) as L1.
  pose proof (L (high d) (or_intror (or_introl eq_refl))) as L2.
  pose proof (L (low d) (or_intror (or_intror (or_introl eq_refl)))) as L3.
  pose proof (L (close d) (or_intror (or_intror (or_intror (or_introl eq_refl))))) as L4.
  pose proof (L (vol d)
                (or_intror (or_intror (or_intror (or_intror (or_introl eq_refl))))))
    as L5.
  pose proof (L (amount d)
                (or_intror (or_intror (or_intror (or_intror (or_intror
                   (or_introl eq_refl))))))) as L6.
  destruct (frame_rows_columns interval ts isos _ _ _ _ _ _
              (t_iso_column_length to_datetime_s ts isos Hisos) L1 L2 L3 L4 L5 L6)
    as [E0 [E1 [E2 [E3 [E4 [E5 E6]]]]]].
  exists d, ts. split; [reflexivity|]. split; [exact Ht|].
  split; [etransitivity; [symmetry; apply (List.length_map col_t)|]; now rewrite E0|].
  split; [exact E0|].
  repeat split; intros l Hl;
    [rewrite Hl in E1 |- *; exact E1 | rewrite Hl in E2 |- *; exact E2
     | rewrite Hl in E3 |- *; exact E3 | rewrite Hl in E4 |- *; exact E4
     | rewrite Hl in E5 |- *; exact E5 | rewrite Hl in E6 |- *; exact E6].
Qed.

Lemma decoder_pages_are_whole_witness :
  exists d ts,
    Dict dup_page = Dict d /\ time d = Some ts
    /\ length dup_rows = length ts
    /\ map col_t dup_rows = ts
    /\ (forall l, open d = Some l -> map col_open dup_rows = l)
    /\ (forall l, high d = Some l -> map col_high dup_rows = l)
    /\ (forall l, low d = Some l -> map col_low dup_rows = l)
    /\ (forall l, close d = Some l -> map col_close dup_rows = l)
    /\ (forall l, vol d = Some l -> map col_vol dup_rows = l)
    /\ (forall l, amount d = Some l -> map col_amount dup_rows = l).
Proof.
  apply (decoder_pages_are_whole any_iso (Dict dup_page) "Min1" dup_rows).
  - reflexivity.
  - discriminate.
Defined.

Lemma t_iso_column_out_of_bounds (to_datetime_s : Z -> option string) (ts : list Z) :
  (exists x, In x ts /\ to_datetime_s x = None) ->
  t_iso_column to_datetime_s ts = Raise OutOfBoundsDatetime.
Proof.
  induction ts as [|y ts IH]; intros [x [Hx Hn]]; [contradiction|]. simpl.
  destruct (to_datetime_s y) eqn:Ey; [|reflexivity].
  destruct Hx as [->|Hx]; [congruence|].
  rewrite IH; [reflexivity | now exists x].
Qed.

(** X6.  One timestamp that pandas cannot convert makes the whole page
    fail with [OutOfBoundsDatetime], however well shaped the arrays. *)
Theorem decoder_rejects_unconvertible_time
  (to_datetime_s : Z -> option string) (interval : string) (d : kline_dict)
  (ts : list Z) (x : Z) :
  time d = Some ts ->
  (forall c l, In c [open d; high d; low d; close d; vol d; amount d] ->
               c = Some l -> length l = length ts) ->
  In x ts -> to_datetime_s x = None ->
  _kline_payload_to_df to_datetime_s (Dict d) interval = Raise OutOfBoundsDatetime.
Proof.
  intros Ht Hlen Hx Hn. unfold _kline_payload_to_df. rewrite Ht.
  destruct ts as [|y ts']; [contradiction|].
  set (ts := y :: ts') in *.
  assert (F : forallb (fun c => Nat.eqb (length (default (replicate (length ts) JNull) c))
                                        (length ts))
                [open d; high d; low d; close d; vol d; amount d] = true).
  { apply List.forallb_forall. intros c Hc. apply Nat.eqb_eq. destruct c as [l|].
    - now apply (Hlen (Some l) l).
    - exact (length_replicate (length ts) JNull). }
  rewrite F, (t_iso_column_out_of_bounds to_datetime_s ts); [reflexivity|].
  now exists x.
Qed.

Lemma decoder_rejects_unconvertible_time_witness :
  _kline_payload_to_df (fun x => if x <? 100 then Some EmptyString else None)
                       (Dict close_only_dict) "Min1"
  = Raise OutOfBoundsDatetime.
Proof.
  apply (decoder_rejects_unconvertible_time _ "Min1" close_only_dict [60; 120] 120).
  - reflexivity.
  - intros c l Hc Hl. simpl in Hc.
    destruct Hc as [<-|[<-|[<-|[<-|[<-|[<-|[]]]]]]]; try discriminate Hl.
    injection Hl as <-. reflexivity.
  - simpl. right. left. reflexivity.
  - reflexivity.
Defined.

End DecoderExtra.

(** ** The k-line paginators, continued *)

Module BackfillExtra.
Import Kline PostprocessSpec BackfillSpec Vocab.

Lemma tiles_covers (path interval : string) (step end_s : Z) (tr : list kline_request) :
  1 <= step ->
  forall start_s,
    tiles path interval step end_s start_s tr ->
    covers_range path interval step start_s end_s tr.
Proof.
  intros Hstep. induction tr as [|rq rest IH]; intros start_s Ht; simpl in Ht.
  - repeat split; try discriminate; try (intros; exact Ht); try contradiction.
  - destruct Ht as [Hle [Hrq Hrest]].
    destruct (IH _ Hrest) as [I1 [I2 [I3 [I4 I5]]]].
    assert (Hend : rq_end rq = Z.min end_s (start_s + step - 1)) by now subst rq.
    split; [split; [discriminate | lia]|].
    split; [intros rq0 rest0 E; injection E as <- _; now subst rq|].
    split.
    { intros [|i] a b Ha Hb; simpl in Ha, Hb.
      - injection Ha as <-. destruct rest as [|r1 rest1]; [discriminate|].
        injection Hb as <-. rewrite (I2 r1 rest1 eq_refl). now rewrite Hend.
      - now apply (I3 i). }
    split.
    { intros a Ha. destruct rest as [|r1 rest1].
      - simpl in Ha. injection Ha as <-. simpl in Hrest. lia.
      - apply I4. rewrite <- Ha. reflexivity. }
    intros a [<-|Ha].
    + subst rq. simpl. repeat split; try reflexivity.
      exists start_s. repeat split; lia.
    + destruct (I5 a Ha) as [P1 [P2 [s [P3 [P4 [P5 P6]]]]]].
      repeat split; try assumption. exists s. repeat split; try assumption; lia.
Qed.

Section Loops.

Variable to_datetime_s : Z -> option string.
Variables utc_min utc_max : Z.
Variable req_get : nat -> kline_request -> result kline_payload.
Variable now_s : Z.

Local Abbreviation decode := (_kline_payload_to_df to_datetime_s).
Local Abbreviation body := (backward_body to_datetime_s utc_min utc_max req_get).
Local Abbreviation loop := (backward_loop to_datetime_s utc_min utc_max req_get).
Local Abbreviation after := (backward_after to_datetime_s utc_min utc_max req_get).

Lemma range_loop_tiles (symbol interval : string) (step end_s : Z) (fuel : nat) :
  forall all_df cur tr all_df' tr',
    range_loop to_datetime_s utc_min utc_max req_get fuel symbol interval step end_s
               all_df cur tr = (Some (Ok all_df'), tr') ->
    exists new,
      tr' = tr ++ new /\ tiles (kline_path symbol) interval step end_s cur new.
Proof.
  induction fuel as [|fuel IH]; intros all_df cur tr all_df' tr' H; simpl in H;
    [discriminate|].
  destruct (cur <=? end_s) eqn:Hc.
  - apply Z.leb_le in Hc.
    destruct (req_get _ _) as [data|e]; [|discriminate].
    destruct (decode data interval) as [df|e]; [|discriminate].
    destruct (_ ← utcfromtimestamp utc_min utc_max cur; _) as [u|e]; [|discriminate].
    apply IH in H. destruct H as [new [-> Hnew]].
    eexists. rewrite <- List.app_assoc. split; [reflexivity|].
    simpl. auto.
  - apply Z.leb_gt in Hc. injection H as _ <-. exists [].
    rewrite List.app_nil_r. split; [reflexivity | exact Hc].
Qed.

(** X7.  When [fetch_kline_range] returns a frame, the windows it
    requested tile the range: none for an empty range, else the first
    starts at [start_s], each next one starts a second after the
    previous ended, the last ends at [end_s], and none is longer than
    [INTERVAL_SECONDS.get(interval, 60) * KLINE_MAX] seconds. *)
Theorem range_windows_cover (fuel : nat) (symbol interval : string) (start_s end_s : Z)
        (out : list candle) (tr : list kline_request) :
  fetch_kline_range to_datetime_s utc_min utc_max req_get fuel symbol interval
                    start_s end_s = (Some (Ok out), tr) ->
  covers_range (kline_path symbol) interval
               (default 60 (INTERVAL_SECONDS !! interval) * KLINE_MAX) start_s end_s tr.
Proof.
  unfold fetch_kline_range. intros H.
  destruct (range_loop _ _ _ _ _ _ _ _ _ _ _ _) as [[[all_df|e]|] tr0] eqn:El;
    try discriminate.
  injection H as _ <-.
  apply range_loop_tiles in El. destruct El as [new [-> Hnew]].
  apply tiles_covers; [|exact Hnew].
  pose proof (interval_seconds_pos interval). unfold KLINE_MAX. lia.
Qed.

Lemma backward_loop_empty (path interval : string) (s : bstate) data :
  req_get (length (st_tr s)) (backward_request path interval s) = Ok data ->
  decode data interval = Ok [] ->
  body path interval s
  = Break (Ok (st_all_df s)) (st_tr s ++ [backward_request path interval s]).
Proof.
  intros Hreq Hdec. unfold backward_body.
  fold (backward_request path interval s). now rewrite Hreq, Hdec.
Qed.

(** X8.  Whenever a round of the full-history loop, reached after [n]
    rounds that went on, gets an empty page, [fetch_kline_full_history]
    returns what the earlier rounds accumulated, deduplicated and
    sorted, and issues no further request. *)
Theorem empty_page_ends_full_history (symbol interval : string) (end_s : option Z)
        (n : nat) (s : bstate) data (fuel : nat) :
  after n (kline_path symbol) interval (backward_init (default now_s end_s)) = Some s ->
  req_get (length (st_tr s)) (backward_request (kline_path symbol) interval s) = Ok data ->
  decode data interval = Ok [] ->
  (n < fuel)%nat ->
  fetch_kline_full_history to_datetime_s utc_min utc_max req_get now_s fuel symbol interval
                           end_s
  = (Some (Ok (dedup_sort (pd_concat (st_all_df s)))),
     st_tr s ++ [backward_request (kline_path symbol) interval s])
  /\ length (st_tr s ++ [backward_request (kline_path symbol) interval s]) = S n.
Proof.
  intros Hafter Hreq Hdec Hfuel. split.
  - rewrite fetch_full_of_loop.
    replace fuel with (n + S (fuel - S n))%nat by lia.
    rewrite (backward_loop_after _ _ _ _ n _ _ _ _ _ Hafter). simpl.
    now rewrite (backward_loop_empty _ _ _ data Hreq Hdec).
  - rewrite List.length_app, (backward_after_trace _ _ _ _ n _ _ _ _ Hafter). simpl. lia.
Qed.

Lemma backward_body_raises (path interval : string) (s : bstate) (e : exn) :
  (req_get (length (st_tr s)) (backward_request path interval s) = Raise e
   \/ exists data,
       req_get (length (st_tr s)) (backward_request path interval s) = Ok data
       /\ decode data interval = Raise e) ->
  body path interval s = Break (Raise e) (st_tr s ++ [backward_request path interval s]).
Proof.
  unfold backward_body. fold (backward_request path interval s).
  intros [H|[data [H1 H2]]]; [now rewrite H | now rewrite H1, H2].
Qed.

(** X9.  A request that raises, or a page the decoder rejects, ends
    each of the three backward backfills with that exception at that
    round: no further request is issued and the pages accumulated so
    far are not returned. *)
Theorem backward_failure_propagates (symbol interval : string) (end_s : option Z)
        (path : string) (start : Z) (n : nat) (s : bstate) (e : exn) (fuel : nat) :
  after n path interval (backward_init start) = Some s ->
  (req_get (length (st_tr s)) (backward_request path interval s) = Raise e
   \/ exists data,
       req_get (length (st_tr s)) (backward_request path interval s) = Ok data
       /\ decode data interval = Raise e) ->
  (n < fuel)%nat ->
  let tr := st_tr s ++ [backward_request path interval s] in
  (path = kline_path symbol -> start = default now_s end_s ->
   fetch_kline_full_history to_datetime_s utc_min utc_max req_get now_s fuel symbol
                            interval end_s = (Some (Raise e), tr))
  /\ (path = index_path symbol -> start = now_s ->
      fetch_index_kline_full to_datetime_s utc_min utc_max req_get now_s fuel symbol
                             interval = (Some (Raise e), tr))
  /\ (path = fair_path symbol -> start = now_s ->
      fetch_fair_kline_full to_datetime_s utc_min utc_max req_get now_s fuel symbol
                            interval = (Some (Raise e), tr)).
Proof.
  intros Hafter Hfail Hfuel tr.
  assert (Hl : loop fuel path interval (backward_init start) = (Some (Raise e), tr)).
  { replace fuel with (n + S (fuel - S n))%nat by lia.
    rewrite (backward_loop_after _ _ _ _ n _ _ _ _ _ Hafter). simpl.
    now rewrite (backward_body_raises _ _ _ e Hfail). }
  repeat split; intros -> ->.
  - rewrite fetch_full_of_loop. now rewrite Hl.
  - unfold fetch_index_kline_full. now rewrite Hl.
  - unfold fetch_fair_kline_full. now rewrite Hl.
Qed.

Lemma min_t_least (df : list candle) :
  df <> [] -> In (min_t df) (map col_t df) /\ Forall (fun r => min_t df <= col_t r) df.
Proof.
  destruct df as [|r0 rest]; [congruence|]. intros _. unfold min_t.
  assert (G : forall l m,
             (fold_left Z.min l m = m \/ In (fold_left Z.min l m) l)
             /\ fold_left Z.min l m <= m
             /\ Forall (fun x => fold_left Z.min l m <= x) l).
  { induction l as [|x l IH]; intros m; simpl.
    - split; [now left|]. split; [lia | constructor].
    - destruct (IH (Z.min m x)) as [I1 [I2 I3]]. split; [|split].
      + destruct I1 as [I1|I1]; [|right; now right].
        rewrite I1. destruct (Z.min_spec m x) as [[_ ->]|[_ ->]]; [now left | right; now left].
      + lia.
      + constructor; [lia | exact I3]. }
  destruct (G (map col_t rest) (col_t r0)) as [G1 [G2 G3]]. split.
  - simpl. destruct G1 as [->|G1]; [now left | now right].
  - constructor; [exact G2|].
    rewrite List.Forall_map in G3. exact G3.
Qed.

Lemma last_snoc {A} (l : list A) (x : A) : last (l ++ [x]) = Some x.
Proof. induction l as [|a [|b l] IH]; simpl in *; auto. Qed.

Lemma sorted_snoc (all_df : list (list candle)) (df : list candle) :
  StronglySorted (fun a b => min_t b < min_t a) all_df ->
  Forall (fun d => min_t df < min_t d) all_df ->
  StronglySorted (fun a b => min_t b < min_t a) (all_df ++ [df]).
Proof.
  induction 1 as [|a l Hs IH Ha]; intros Hall; simpl.
  - repeat constructor.
  - inversion Hall; subst. constructor; [now apply IH|].
    apply List.Forall_app. split; [exact Ha|]. now repeat constructor.
Qed.

Lemma sorted_below_last (all_df : list (list candle)) (df : list candle) (m : Z) :
  StronglySorted (fun a b => min_t b < min_t a) all_df ->
  last all_df = Some df ->
  m < min_t df ->
  Forall (fun d => m < min_t d) all_df.
Proof.
  induction 1 as [|a l Hs IH Ha]; intros Hl Hm; [constructor|].
  destruct l as [|b l'].
  - simpl in Hl. injection Hl as ->. now repeat constructor.
  - assert (Hl' : last (b :: l') = Some df) by exact Hl.
    specialize (IH Hl' Hm). constructor; [|exact IH].
    rewrite List.Forall_forall in Ha.
    assert (Hin : In df (b :: l')).
    { clear -Hl'. revert Hl'. generalize (b :: l'). intros l.
      induction l as [|x [|y l] IHl]; simpl; intros H; try discriminate.
      - injection H as ->. now left.
      - right. now apply IHl. }
    specialize (Ha df Hin). lia.
Qed.

(** X10.  The backward loops walk strictly backward: after any number
    of rounds that went on, every accumulated page is full, the
    earliest timestamps of the pages strictly decrease in fetch order,
    one page was kept per request, and the next request asks for
    nothing newer than one second before the earliest row of the
    latest page. *)
Theorem backward_rounds_walk_backward (path interval : string) (start : Z) (n : nat)
        (s : bstate) :
  after n path interval (backward_init start) = Some s ->
  walks_backward s /\ length (st_tr s) = n.
Proof.
  intros H. split; [|now rewrite (backward_after_trace _ _ _ _ n _ _ _ _ H)].
  assert (G : forall k s0 s1, walks_backward s0 -> after k path interval s0 = Some s1 ->
                              walks_backward s1).
  { clear. induction k as [|k IH]; intros s0 s1 Hw Ha; simpl in Ha.
    - now injection Ha as <-.
    - pose proof (backward_body_cases to_datetime_s utc_min utc_max req_get path
                    interval s0) as Hb. simpl in Hb.
      destruct (body path interval s0) as [r tr|s']; [discriminate|].
      apply (IH s' s1); [|exact Ha].
      destruct Hb as [data [df [_ [_ [Hne [Hfull [_ [Hlt ->]]]]]]]].
      destruct Hw as [W1 [W2 [W3 W4]]]. unfold walks_backward. simpl.
      rewrite last_snoc. destruct (min_t_least df Hne) as [_ Hleast].
      split; [|split; [|split; [|split; [reflexivity|split; [reflexivity|]]]]].
      + apply sorted_snoc; [exact W1|].
        destruct (last (st_all_df s0)) as [d0|] eqn:El.
        * destruct W4 as [Hm _]. apply (sorted_below_last _ d0); auto.
        * destruct (st_all_df s0) as [|a l]; [constructor|].
          exfalso. clear -El. revert a El.
          induction l as [|b l IHl]; intros a El; simpl in El; [discriminate|].
          now apply (IHl b).
      + apply List.Forall_app. split; [exact W2 | now repeat constructor].
      + rewrite !List.length_app. simpl. lia.
      + eapply List.Forall_impl; [|exact Hleast]. simpl. intros; lia. }
  apply (G n (backward_init start) s); [|exact H].
  unfold walks_backward. simpl. repeat split; constructor.
Qed.

Lemma backward_body_last (path interval : string) (s : bstate) data df :
  req_get (length (st_tr s)) (backward_request path interval s) = Ok data ->
  decode data interval = Ok df ->
  Z.of_nat (length df) < KLINE_MAX ->
  body path interval s
  = Break (Ok (st_all_df s ++ (if is_empty df then [] else [df])))
          (st_tr s ++ [backward_request path interval s]).
Proof.
  intros Hreq Hdec Hlen. destruct df as [|r0 df'].
  - rewrite (backward_loop_empty _ _ _ data Hreq Hdec). simpl.
    now rewrite List.app_nil_r.
  - apply (backward_body_short to_datetime_s utc_min utc_max req_get _ _ _ data);
      [exact Hreq | exact Hdec | discriminate | exact Hlen].
Qed.

(** X11.  Whenever a round of [fetch_index_kline_full] or
    [fetch_fair_kline_full], reached after [n] rounds that went on,
    gets a page shorter than [KLINE_MAX], the function returns the pages
    fetched, one after the other in the order fetched and row for row
    as decoded, with that request as the last one. *)
Theorem index_fair_return_pages_in_fetch_order (symbol interval : string) (path : string)
        (n : nat) (s : bstate) data df (fuel : nat) :
  after n path interval (backward_init now_s) = Some s ->
  req_get (length (st_tr s)) (backward_request path interval s) = Ok data ->
  decode data interval = Ok df ->
  Z.of_nat (length df) < KLINE_MAX ->
  (n < fuel)%nat ->
  let out := pd_concat (st_all_df s) ++ df in
  let tr := st_tr s ++ [backward_request path interval s] in
  (path = index_path symbol ->
   fetch_index_kline_full to_datetime_s utc_min utc_max req_get now_s fuel symbol interval
   = (Some (Ok out), tr))
  /\ (path = fair_path symbol ->
      fetch_fair_kline_full to_datetime_s utc_min utc_max req_get now_s fuel symbol
                            interval = (Some (Ok out), tr)).
Proof.
  intros Hafter Hreq Hdec Hlen Hfuel out tr.
  assert (Hl : loop fuel path interval (backward_init now_s)
               = (Some (Ok (st_all_df s ++ (if is_empty df then [] else [df]))), tr)).
  { replace fuel with (n + S (fuel - S n))%nat by lia.
    rewrite (backward_loop_after _ _ _ _ n _ _ _ _ _ Hafter). simpl.
    now rewrite (backward_body_last _ _ _ data df Hreq Hdec Hlen). }
  assert (Hout : match st_all_df s ++ (if is_empty df then [] else [df]) with
                 | [] => []
                 | _ => pd_concat (st_all_df s ++ (if is_empty df then [] else [df]))
                 end = out).
  { unfold out, pd_concat.
    destruct df as [|r0 df']; simpl.
    - rewrite !List.app_nil_r. destruct (st_all_df s); reflexivity.
    - rewrite List.concat_app. simpl. rewrite List.app_nil_r.
      destruct (st_all_df s ++ [r0 :: df']) eqn:E; [|reflexivity].
      destruct (st_all_df s); discriminate E. }
  split; intros ->.
  - unfold fetch_index_kline_full. rewrite Hl. now rewrite Hout.
  - unfold fetch_fair_kline_full. rewrite Hl. now rewrite Hout.
Qed.

End Loops.

Lemma range_windows_cover_witness :
  covers_range (kline_path "XAUT_USDT") "Min1"
               (default 60 (INTERVAL_SECONDS !! "Min1") * KLINE_MAX) 0 200000
               [ {| rq_path := kline_path "XAUT_USDT"; rq_interval := "Min1";
                    rq_start := Some 0; rq_end := 119999 |};
                 {| rq_path := kline_path "XAUT_USDT"; rq_interval := "Min1";
                    rq_start := Some 120000; rq_end := 200000 |} ].
Proof.
  apply (range_windows_cover any_iso year_1 year_9999 empty_api 3 "XAUT_USDT" "Min1"
           0 200000 []).
  vm_compute. reflexivity.
Defined.

Lemma empty_page_ends_full_history_witness :
  fetch_kline_full_history any_iso year_1 year_9999 empty_api 0 1 "XAUT_USDT" "Min1"
                           (Some 10)
  = (Some (Ok (dedup_sort (pd_concat []))),
     [] ++ [backward_request (kline_path "XAUT_USDT") "Min1" (backward_init 10)])
  /\ length ([] ++ [backward_request (kline_path "XAUT_USDT") "Min1" (backward_init 10)])
     = 1%nat.
Proof.
  apply (empty_page_ends_full_history any_iso year_1 year_9999 empty_api 0 "XAUT_USDT"
           "Min1" (Some 10) 0 (backward_init 10) (Dict (no_fields [])) 1).
  - reflexivity.
  - reflexivity.
  - reflexivity.
  - apply le_n.
Defined.

Lemma backward_failure_propagates_witness :
  fetch_index_kline_full any_iso year_1 year_9999 failing_api 10 1 "XAUT_USDT" "Min1"
  = (Some (Raise ConnectionError),
     [] ++ [backward_request (index_path "XAUT_USDT") "Min1" (backward_init 10)]).
Proof.
  apply (proj1 (proj2 (backward_failure_propagates any_iso year_1 year_9999 failing_api 10
                         "XAUT_USDT" "Min1" None (index_path "XAUT_USDT") 10 0
                         (backward_init 10) ConnectionError 1 eq_refl
                         (or_introl eq_refl) (le_n 1)))).
  - reflexivity.
  - reflexivity.
Defined.

Lemma backward_rounds_walk_backward_witness :
  let s := default (backward_init 0)
             (backward_after any_iso year_1 year_9999 repeat_api 1
                             (kline_path "XAUT_USDT") "Min1" (backward_init 5000)) in
  walks_backward s /\ length (st_tr s) = 1%nat.
Proof.
  apply (backward_rounds_walk_backward any_iso year_1 year_9999 repeat_api
           (kline_path "XAUT_USDT") "Min1" 5000 1).
  vm_compute. reflexivity.
Defined.

Lemma index_fair_return_pages_in_fetch_order_witness :
  fetch_fair_kline_full any_iso year_1 year_9999 dup_api 10 1 "XAUT_USDT" "Min1"
  = (Some (Ok (pd_concat [] ++ dup_rows)),
     [] ++ [backward_request (fair_path "XAUT_USDT") "Min1" (backward_init 10)]).
Proof.
  apply (proj2 (index_fair_return_pages_in_fetch_order any_iso year_1 year_9999 dup_api 10
                  "XAUT_USDT" "Min1" (fair_path "XAUT_USDT") 0 (backward_init 10)
                  (Dict dup_page) dup_rows 1 eq_refl eq_refl eq_refl eq_refl (le_n 1))).
  reflexivity.
Defined.

End BackfillExtra.

(** ** The funding-history paginator, continued *)

Module FundingExtra.
Import Funding FundingSpec Vocab.

Lemma pages_from_length (symbol : string) (page_size p : Z) (k : nat) :
  length (pages_from symbol page_size p k) = k.
Proof. unfold pages_from. now rewrite List.length_map, List.length_seq. Qed.

Lemma pages_from_one (symbol : string) (page_size p : Z) :
  pages_from symbol page_size p 1
  = [ {| rq_symbol := symbol; page_num := p; page_size := page_size |} ].
Proof. now rewrite pages_from_S. Qed.

Section Loops.

Variable isoformat_ms : json -> result string.
Variable int_of_str : string -> option Z.
Variable req_get : nat -> funding_request -> result json.

Local Abbreviation body := (funding_body isoformat_ms int_of_str req_get).
Local Abbreviation loop := (funding_loop isoformat_ms int_of_str req_get).
Local Abbreviation after := (funding_after isoformat_ms int_of_str req_get).

Lemma funding_loop_trace (symbol : string) (page_size : Z) (fuel : nat) :
  forall s, exists k,
    snd (loop fuel symbol page_size s)
    = pg_tr s ++ pages_from symbol page_size (pg_page s) k.
Proof.
  induction fuel as [|fuel IH]; intros s.
  - exists 0%nat. simpl. unfold pages_from. simpl. now rewrite List.app_nil_r.
  - simpl.
    pose proof (funding_body_cases isoformat_ms int_of_str req_get symbol page_size s)
      as Hb. simpl in Hb.
    destruct (body symbol page_size s) as [r tr|s'].
    + exists 1%nat. simpl. now rewrite Hb, pages_from_one.
    + destruct Hb as [data [total [rows [_ [_ [_ ->]]]]]].
      destruct (IH (mk_fstate rows (pg_page s + 1)
                              (pg_tr s ++ [request_of symbol page_size s])))
        as [k Hk].
      exists (S k). rewrite Hk. cbn [pg_tr pg_page].
      now rewrite pages_from_S, <- List.app_assoc.
Qed.

(** X12.  Whatever the upstream replies and however long the loop has
    run, the requests issued are the pages 1, 2, 3, ... in order, none
    skipped or repeated, each with the symbol and page size of the
    call. *)
Theorem funding_requests_in_page_order (fuel : nat) (symbol : string) (page_size : Z) :
  let tr := snd (get_funding_history isoformat_ms int_of_str req_get fuel symbol
                                     page_size) in
  tr = pages_from symbol page_size 1 (length tr)
  /\ map page_num tr = map Z.of_nat (seq 1 (length tr)).
Proof.
  unfold get_funding_history.
  destruct (funding_loop_trace symbol page_size fuel funding_init) as [k Hk].
  simpl in Hk. cbv zeta. rewrite Hk, pages_from_length.
  split; [reflexivity | apply pages_from_nums].
Qed.

Lemma append_rows_prefix (items : list json) :
  forall rows rows',
    append_rows isoformat_ms rows items = Ok rows' ->
    exists more, rows' = rows ++ more /\ length more = length items.
Proof.
  induction items as [|x items IH]; intros rows rows' H; simpl in H.
  - injection H as <-. exists []. now rewrite List.app_nil_r.
  - destruct (row_of isoformat_ms x) as [r|e]; [|discriminate].
    cbv beta iota delta [mbind result_bind] in H.
    apply IH in H. destruct H as [more [-> Hlen]].
    exists (r :: more). rewrite <- List.app_assoc. simpl. split; [reflexivity | lia].
Qed.

Lemma funding_body_rows (symbol : string) (page_size : Z) (s : fstate) :
  match body symbol page_size s with
  | Break (Ok rows) _ => exists more, rows = pg_rows s ++ more
  | Break (Raise _) _ => True
  | Continue s' => exists more, pg_rows s' = pg_rows s ++ more
  end.
Proof.
  unfold funding_body.
  destruct (req_get _ _) as [v|e]; [|exact I].
  assert (Hsame : exists more, pg_rows s = pg_rows s ++ more)
    by (exists []; now rewrite List.app_nil_r).
  destruct v as [| | | | | |data]; try exact Hsame.
  destruct (dict_get "resultList" data) as [rl|]; [|exact Hsame].
  destruct (iter_json rl) as [items|e]; [|exact I].
  cbv beta iota delta [mbind result_bind].
  destruct (append_rows isoformat_ms (pg_rows s) items) as [rows|e] eqn:Ha; [|exact I].
  destruct (py_int int_of_str _) as [total|e]; [|exact I].
  apply append_rows_prefix in Ha. destruct Ha as [more [-> _]].
  destruct (pg_page s >=? total); simpl; now exists more.
Qed.

Lemma funding_loop_rows (symbol : string) (page_size : Z) (fuel : nat) :
  forall s rows tr,
    loop fuel symbol page_size s = (Some (Ok rows), tr) ->
    exists more, rows = pg_rows s ++ more.
Proof.
  induction fuel as [|fuel IH]; intros s rows tr H; simpl in H; [discriminate|].
  pose proof (funding_body_rows symbol page_size s) as Hb.
  destruct (body symbol page_size s) as [[rows0|e] tr0|s'].
  - injection H as <- _. exact Hb.
  - discriminate.
  - destruct Hb as [m1 Hm1]. apply IH in H. destruct H as [m2 ->].
    exists (m1 ++ m2). now rewrite Hm1, List.app_assoc.
Qed.

Lemma funding_after_then_loop (symbol : string) (page_size : Z) (n : nat) :
  forall s0 s fuel r tr,
    after n symbol page_size s0 = Some s ->
    loop fuel symbol page_size s0 = (Some r, tr) ->
    (n < fuel)%nat /\ loop (fuel - n) symbol page_size s = (Some r, tr).
Proof.
  induction n as [|n IH]; intros s0 s fuel r tr Ha Hl; simpl in Ha.
  - injection Ha as <-. destruct fuel as [|fuel]; [discriminate|].
    split; [lia|]. now rewrite Nat.sub_0_r.
  - destruct fuel as [|fuel]; [discriminate|]. simpl in Hl.
    destruct (body symbol page_size s0) as [r0 tr0|s1]; [discriminate|].
    destruct (IH _ _ _ _ _ Ha Hl) as [Hlt Hl']. split; [lia | exact Hl'].
Qed.

(** X13.  Rows are never dropped or reordered: when the function
    returns, the rows accumulated after any number of rounds are the
    beginning of the rows returned. *)
Theorem funding_rows_only_grow (symbol : string) (page_size : Z) (n : nat) (s : fstate)
        (fuel : nat) (rows : list funding_row) (tr : list funding_request) :
  after n symbol page_size funding_init = Some s ->
  get_funding_history isoformat_ms int_of_str req_get fuel symbol page_size
  = (Some (Ok rows), tr) ->
  exists more, rows = pg_rows s ++ more.
Proof.
  unfold get_funding_history. intros Ha Hl.
  destruct (funding_after_then_loop symbol page_size n _ _ _ _ _ Ha Hl) as [_ Hl'].
  now apply funding_loop_rows in Hl'.
Qed.

(** X14.  A page without ["totalPage"] is taken to be the last one: its
    rows are added and the function returns without another request. *)
Theorem page_without_total_is_last (symbol : string) (page_size : Z) (n : nat)
        (s : fstate) data rl items rows' (fuel : nat) :
  after n symbol page_size funding_init = Some s ->
  req_get (length (pg_tr s)) (request_of symbol page_size s) = Ok (JObj data) ->
  dict_get "resultList" data = Some rl ->
  iter_json rl = Ok items ->
  append_rows isoformat_ms (pg_rows s) items = Ok rows' ->
  dict_get "totalPage" data = None ->
  (n < fuel)%nat ->
  get_funding_history isoformat_ms int_of_str req_get fuel symbol page_size
  = (Some (Ok rows'), pg_tr s ++ [request_of symbol page_size s]).
Proof.
  intros Ha Hreq Hrl Hit Hrows Htot Hfuel. unfold get_funding_history.
  replace fuel with (n + S (fuel - S n))%nat by lia.
  rewrite (funding_loop_after _ _ _ n _ _ _ _ _ Ha).
  cbn [funding_loop]. unfold funding_body. fold (request_of symbol page_size s).
  rewrite Hreq, Hrl, Hit. cbv beta iota delta [mbind result_bind].
  rewrite Hrows. unfold get_or. rewrite Htot. cbn [py_int].
  replace (pg_page s >=? pg_page s) with true
    by (symmetry; rewrite Z.geb_leb; apply Z.leb_refl).
  reflexivity.
Qed.

Lemma append_rows_bad_item (good rest : list json) (x : json) :
  (forall g, In g good -> exists r, row_of isoformat_ms g = Ok r) ->
  match x with JObj _ => False | _ => True end ->
  forall rows, append_rows isoformat_ms rows (good ++ x :: rest) = Raise AttributeError.
Proof.
  intros Hgood Hx. induction good as [|g good IH]; intros rows; simpl.
  - destruct x; try reflexivity. contradiction.
  - destruct (Hgood g (or_introl eq_refl)) as [r ->].
    cbv beta iota delta [mbind result_bind].
    apply IH. intros g' Hg'. apply Hgood. now right.
Qed.

(** X15.  An element of ["resultList"] that is not a dict makes the
    function raise [AttributeError] at that page: the rows accumulated
    so far are not returned and no further page is requested. *)
Theorem non_dict_record_raises (symbol : string) (page_size : Z) (n : nat) (s : fstate)
        data good x rest (fuel : nat) :
  after n symbol page_size funding_init = Some s ->
  req_get (length (pg_tr s)) (request_of symbol page_size s) = Ok (JObj data) ->
  dict_get "resultList" data = Some (JArr (good ++ x :: rest)) ->
  (forall g, In g good -> exists r, row_of isoformat_ms g = Ok r) ->
  match x with JObj _ => False | _ => True end ->
  (n < fuel)%nat ->
  get_funding_history isoformat_ms int_of_str req_get fuel symbol page_size
  = (Some (Raise AttributeError), pg_tr s ++ [request_of symbol page_size s]).
Proof.
  intros Ha Hreq Hrl Hgood Hx Hfuel. unfold get_funding_history.
  replace fuel with (n + S (fuel - S n))%nat by lia.
  rewrite (funding_loop_after _ _ _ n _ _ _ _ _ Ha).
  cbn [funding_loop]. unfold funding_body. fold (request_of symbol page_size s).
  rewrite Hreq, Hrl. cbn [iter_json]. cbv beta iota delta [mbind result_bind].
  now rewrite (append_rows_bad_item good rest x Hgood Hx).
Qed.

End Loops.

Lemma funding_rows_only_grow_witness :
  exists more,
    [funding_row_at 1; funding_row_at 2; funding_row_at 3] = [funding_row_at 1] ++ more.
Proof.
  apply (funding_rows_only_grow iso_stub int_stub three_pages_api "XAUT_USDT" 1000 1
           {| pg_rows := [funding_row_at 1]; pg_page := 2;
              pg_tr := [ {| rq_symbol := "XAUT_USDT"; page_num := 1;
                            page_size := 1000 |} ] |}
           3 [funding_row_at 1; funding_row_at 2; funding_row_at 3]
           (pages_from "XAUT_USDT" 1000 1 3)).
  - reflexivity.
  - reflexivity.
Defined.

Lemma page_without_total_is_last_witness :
  get_funding_history iso_stub int_stub untotalled_api 1 "XAUT_USDT" 1000
  = (Some (Ok [ {| symbol := JStr "XAUT_USDT"; fundingRate := JNull;
                   settleTime := JNull; settleTime_iso := "" |} ]),
     [] ++ [request_of "XAUT_USDT" 1000 funding_init]).
Proof.
  apply (page_without_total_is_last iso_stub int_stub untotalled_api "XAUT_USDT" 1000 0
           funding_init
           [("resultList", JArr [JObj [("symbol", JStr "XAUT_USDT")]])]%string
           (JArr [JObj [("symbol", JStr "XAUT_USDT")]%string])
           [JObj [("symbol", JStr "XAUT_USDT")]%string]).
  - reflexivity.
  - reflexivity.
  - reflexivity.
  - reflexivity.
  - reflexivity.
  - reflexivity.
  - apply le_n.
Defined.

Lemma non_dict_record_raises_witness :
  get_funding_history iso_stub int_stub bad_item_api 1 "XAUT_USDT" 1000
  = (Some (Raise AttributeError), [] ++ [request_of "XAUT_USDT" 1000 funding_init]).
Proof.
  apply (non_dict_record_raises iso_stub int_stub bad_item_api "XAUT_USDT" 1000 0
           funding_init [("resultList", JArr [JInt 7]); ("totalPage", JInt 1)]%string
           [] (JInt 7) []).
  - reflexivity.
  - reflexivity.
  - reflexivity.
  - intros g [].
  - exact I.
  - apply le_n.
Defined.

End FundingExtra.

(** ** The stream recorder, continued *)

Module RecorderExtra.
Import Recorder RecorderSpec Vocab.

Lemma append_empty_r (c : string) : String.append c EmptyString = c.
Proof.
  induction c as [|a c IH]; [reflexivity|].
  change (String a (String.append c EmptyString) = String a c). now f_equal.
Qed.

Section Files.

Variable can_open : string -> bool.

(** The header loop when every missing file can be opened. *)
Lemma init_headers_ok (items : list (string * string)) :
  List.NoDup (map snd items) ->
  forall fs,
    (forall k path, In (k, path) items -> fs !! path = None -> can_open path = true) ->
    exists fs',
      init_headers can_open items fs = (Ok tt, fs')
      /\ (forall k path, In (k, path) items ->
                         fs' !! path = Some (default (header_of k) (fs !! path)))
      /\ (forall p, ~ In p (map snd items) -> fs' !! p = fs !! p).
Proof.
  induction items as [|[k0 p0] items IH]; intros Hnd fs Hopen.
  - exists fs. split; [reflexivity|]. split; [intros k path [] | reflexivity].
  - cbn [map snd] in Hnd. apply List.NoDup_cons_iff in Hnd. destruct Hnd as [Hnotin Hnd].
    assert (Hne : forall k path, In (k, path) items -> path <> p0).
    { intros k path Hin ->. apply Hnotin. apply List.in_map_iff. now exists (k, p0). }
    cbn [init_headers]. destruct (fs !! p0) as [c0|] eqn:E0.
    + destruct (IH Hnd fs) as [fs' [Hrun [I1 I2]]].
      { intros k path Hin. apply (Hopen k path). now right. }
      exists fs'. split; [exact Hrun|]. split.
      * intros k path [E|Hin].
        -- injection E as <- <-. rewrite (I2 p0 Hnotin), E0. reflexivity.
        -- now apply I1.
      * intros p Hp. apply I2. cbn [map snd In] in Hp. tauto.
    + rewrite (Hopen k0 p0 (or_introl eq_refl) E0).
      destruct (IH Hnd (<[p0 := header_of k0]> fs)) as [fs' [Hrun [I1 I2]]].
      { intros k path Hin Hnone. apply (Hopen k path); [now right|].
        rewrite lookup_insert_ne in Hnone; [exact Hnone|].
        intros ->. now apply (Hne k path Hin). }
      exists fs'. split; [exact Hrun|]. split.
      * intros k path [E|Hin].
        -- injection E as <- <-. rewrite (I2 p0 Hnotin), lookup_insert_eq, E0. reflexivity.
        -- rewrite (I1 k path Hin). rewrite lookup_insert_ne; [reflexivity|].
           intros ->. now apply (Hne k path Hin).
      * intros p Hp. cbn [map snd In] in Hp. rewrite I2 by tauto.
        apply lookup_insert_ne. intros ->. tauto.
Qed.

(** The header loop over files that all exist does nothing. *)
Lemma init_headers_present (items : list (string * string)) (fs : filesystem) :
  (forall k path, In (k, path) items -> exists c, fs !! path = Some c) ->
  init_headers can_open items fs = (Ok tt, fs).
Proof.
  induction items as [|[k0 p0] items IH]; intros H; [reflexivity|].
  cbn [init_headers]. destruct (H k0 p0 (or_introl eq_refl)) as [c ->].
  apply IH. intros k path Hin. apply (H k path). now right.
Qed.

(** The header loop when some missing file cannot be opened: files are
    only added. *)
Lemma init_headers_fail (items : list (string * string)) :
  forall fs,
    (exists k path, In (k, path) items /\ fs !! path = None /\ can_open path = false) ->
    exists fs',
      init_headers can_open items fs = (Raise OSError, fs')
      /\ forall p c, fs !! p = Some c -> fs' !! p = Some c.
Proof.
  induction items as [|[k0 p0] items IH]; intros fs [k [path [Hin [Hnone Hno]]]].
  - destruct Hin.
  - cbn [init_headers]. destruct (fs !! p0) as [c0|] eqn:E0.
    + destruct Hin as [E|Hin]; [injection E as <- <-; congruence|].
      apply IH. now exists k, path.
    + destruct (can_open p0) eqn:Ho.
      * destruct Hin as [E|Hin]; [injection E as <- <-; congruence|].
        assert (Hp : path <> p0) by (intros ->; congruence).
        destruct (IH (<[p0 := header_of k0]> fs)) as [fs' [Hrun Hkeep]].
        { exists k, path. split; [exact Hin|]. split; [|exact Hno].
          rewrite lookup_insert_ne by congruence. exact Hnone. }
        exists fs'. split; [exact Hrun|].
        intros p c Hc. apply Hkeep. rewrite lookup_insert_ne; [exact Hc|].
        intros <-. congruence.
      * exists fs. split; [reflexivity | auto].
Qed.

(** X16.  When every sink file that is not there yet can be opened for
    writing, [__init__] returns a recorder and leaves the six sink
    files in place: each exists afterwards, one that existed keeps its
    content, a new one holds the header line of its channel, and no
    other path is touched.  Creating the recorder again over the
    result returns the same recorder and changes nothing. *)
Theorem init_writes_headers_once (symbol0 outdir0 : string) (r d : Z) (fs : filesystem) :
  (forall k path, In (k, path) (sink_files outdir0) -> fs !! path = None ->
                  can_open path = true) ->
  exists self fs',
    __init__ can_open symbol0 outdir0 r d fs = (Ok self, fs')
    /\ headers_written outdir0 fs fs'
    /\ __init__ can_open symbol0 outdir0 r d fs' = (Ok self, fs').
Proof.
  intros Hopen.
  destruct (init_headers_ok (sink_files outdir0) (sink_paths_distinct outdir0) fs Hopen)
    as [fs' [Hrun [H1 H2]]].
  eexists. exists fs'. unfold __init__. rewrite Hrun.
  split; [reflexivity|]. split; [split; assumption|].
  rewrite init_headers_present; [reflexivity|].
  intros k path Hin. rewrite (H1 k path Hin). eauto.
Qed.


End Files.

Lemma init_writes_headers_once_witness :
  exists self fs',
    __init__ always_open "XAUT_USDT" "out" 180 20 ∅ = (Ok self, fs')
    /\ headers_written "out" ∅ fs'
    /\ __init__ always_open "XAUT_USDT" "out" 180 20 fs' = (Ok self, fs').
Proof.
  apply (init_writes_headers_once always_open "XAUT_USDT" "out" 180 20 ∅).
  intros k path _ _. reflexivity.
Defined.


Lemma appends_only_refl (fs : filesystem) : appends_only fs fs.
Proof.
  split.
  - intros p c H. exists EmptyString. now rewrite append_empty_r.
  - exists EmptyString. reflexivity.
Qed.

Section Dispatch.

Variable can_open : string -> bool.
Variable json_loads : string -> option json.
Variable str_of : json -> string.
Variable json_dumps : json -> string.
Variable json_dumps_noascii : json -> string.

Lemma append_line_appends (self : MexcWSRecorder) (k : string) (line : result string)
      (fs : filesystem) :
  appends_only fs (snd (append_line can_open self k line fs)).
Proof.
  unfold append_line. destruct (files self !! k) as [path|]; [|apply appends_only_refl].
  destruct (can_open path); [|apply appends_only_refl].
  assert (Ho : forall p c, fs !! p = Some c -> open_append path fs !! p = Some c).
  { intros p c H. unfold open_append. destruct (fs !! path) eqn:E; [exact H|].
    rewrite lookup_insert_ne; [exact H | congruence]. }
  assert (Hn : forall p, p <> path -> open_append path fs !! p = fs !! p).
  { intros p Hp. unfold open_append. destruct (fs !! path); [reflexivity|].
    now apply lookup_insert_ne. }
  destruct line as [text|e]; simpl.
  - split.
    + intros p c H. destruct (String.string_dec p path) as [->|Hp].
      * exists (String.append text nl). unfold write.
        rewrite lookup_insert_eq, (Ho path c H). reflexivity.
      * exists EmptyString. unfold write.
        rewrite lookup_insert_ne by congruence.
        rewrite (Ho p c H). now rewrite append_empty_r.
    + exists path. intros p Hp. unfold write.
      rewrite lookup_insert_ne by congruence. now apply Hn.
  - split.
    + intros p c H. exists EmptyString. rewrite (Ho p c H). now rewrite append_empty_r.
    + exists path. exact Hn.
Qed.

(** Whatever the message, the dispatch leaves the files alone or is
    one [append_line]. *)
Lemma route_shape (self : MexcWSRecorder) (ch ts sym data : json) (fs : filesystem) :
  snd (route can_open str_of json_dumps json_dumps_noascii self ch ts sym data fs) = fs
  \/ exists k line,
      route can_open str_of json_dumps json_dumps_noascii self ch ts sym data fs
      = append_line can_open self k line fs.
Proof.
  unfold route.
  destruct (is_str ch "push.deal").
  { destruct data; cbn -[append_line]; try (now left); right; eexists; eexists; reflexivity. }
  destruct (is_str ch "push.depth").
  { destruct data; cbn -[append_line]; try (now left); right; eexists; eexists; reflexivity. }
  destruct (is_str ch "push.ticker").
  { destruct (py_or data (JObj [])); cbn -[append_line]; try (now left);
      right; eexists; eexists; reflexivity. }
  destruct (is_str ch "push.index.price").
  { destruct data; cbn -[append_line]; try (now left); right; eexists; eexists; reflexivity. }
  destruct (is_str ch "push.fair.price").
  { destruct data; cbn -[append_line]; try (now left); right; eexists; eexists; reflexivity. }
  destruct (is_str ch "push.funding.rate").
  { destruct data; cbn -[append_line]; try (now left); right; eexists; eexists; reflexivity. }
  now left.
Qed.

(** X17.  The sink files are append-only under [_on_message]: whatever
    the message, whether it is dropped, written or makes a handler
    raise, every file that existed keeps its content as the beginning
    of what it holds afterwards, and at most one path changes. *)
Theorem on_message_appends_only (self : MexcWSRecorder) (now_ms : Z) (message : string)
        (fs : filesystem) :
  appends_only fs (snd (_on_message can_open json_loads str_of json_dumps
                                    json_dumps_noascii self now_ms message fs)).
Proof.
  unfold _on_message.
  destruct (json_loads message) as [obj|]; [|apply appends_only_refl].
  destruct obj; try apply appends_only_refl.
  match goal with
  | |- appends_only fs (snd (route _ _ _ _ self ?ch ?ts ?sym ?data fs)) =>
      destruct (route_shape self ch ts sym data fs) as [E|[k [line E]]]
  end.
  - rewrite E. apply appends_only_refl.
  - rewrite E. apply append_line_appends.
Qed.

End Dispatch.

End RecorderExtra.

(** ** The GET helper, continued *)

Module ClientExtra.
Import Client Vocab.

(** X18.  One call of [req_get] sleeps at most six seconds in all, and
    what it hands back always comes from one of its at most five
    attempts: the unwrapped body of the first attempt that succeeded,
    or the exception of the fifth when all five failed.  The [return {}]
    after the loop is never reached. *)
Theorem req_get_outcome
  (requests_get : string -> option (list (string * json)) -> nat -> http_result)
  (path : string) (params : option (list (string * json))) :
  let url := String.append BASE path in
  let out := req_get requests_get path params in
  (total_sleep (snd out) <= 6)%Q
  /\ ((exists k data,
          (k < 5)%nat
          /\ (forall i, (i < k)%nat -> exists e, requests_get url params i = HttpError e)
          /\ requests_get url params k = HttpBody data
          /\ out = (Ok (unwrap data), retry_trace url k))
      \/ (exists e,
            (forall i, (i < 4)%nat -> exists e', requests_get url params i = HttpError e')
            /\ requests_get url params 4%nat = HttpError e
            /\ out = (Raise e, retry_trace url 4))).
Proof.
  intros url out. subst out. unfold req_get. fold url. simpl.
  destruct (requests_get url params 0%nat) as [e0|d0] eqn:H0.
  2:{ split; [vm_compute; discriminate|]. left. exists 0%nat, d0.
      repeat split; [lia | intros i Hi; lia | exact H0]. }
  destruct (requests_get url params 1%nat) as [e1|d1] eqn:H1.
  2:{ split; [vm_compute; discriminate|]. left. exists 1%nat, d1.
      repeat split; [lia | | exact H1].
      intros i Hi. destruct i as [|i]; [eauto | lia]. }
  destruct (requests_get url params 2%nat) as [e2|d2] eqn:H2.
  2:{ split; [vm_compute; discriminate|]. left. exists 2%nat, d2.
      repeat split; [lia | | exact H2].
      intros i Hi. destruct i as [|[|i]]; [eauto | eauto | lia]. }
  destruct (requests_get url params 3%nat) as [e3|d3] eqn:H3.
  2:{ split; [vm_compute; discriminate|]. left. exists 3%nat, d3.
      repeat split; [lia | | exact H3].
      intros i Hi. destruct i as [|[|[|i]]]; [eauto | eauto | eauto | lia]. }
  assert (F : forall i, (i < 4)%nat -> exists e', requests_get url params i = HttpError e').
  { intros i Hi. destruct i as [|[|[|[|i]]]]; [eauto | eauto | eauto | eauto | lia]. }
  destruct (requests_get url params 4%nat) as [e4|d4] eqn:H4.
  - split; [vm_compute; discriminate|]. right. exists e4. auto.
  - split; [vm_compute; discriminate|]. left. exists 4%nat, d4.
    repeat split; [lia | exact F | exact H4].
Qed.

End ClientExtra.

(** ** The ping endpoint and the file-writing parts of [main] *)

Module GlueSpec.
Import Client Kline Glue Vocab.

Lemma dict_has_of_get (k : string) (f : list (string * json)) (v : json) :
  dict_get k f = Some v -> dict_has k f = true /\ get_or k JNull f = v.
Proof. intros H. unfold dict_has, get_or. now rewrite H. Qed.

(** X19.  When the first GET of the ping succeeds, [get_server_time]
    returns the integer of the reply whether the reply is the bare
    integer or any object holding it under [data] (with or without the
    [success]/[code] envelope), and 0 when the reply is [null], an
    empty object, an empty array or an empty string. *)
Theorem server_time_of_ping_reply
  (requests_get : string -> option (list (string * json)) -> nat -> http_result)
  (int_of_str : string -> option Z) (body : json) :
  requests_get (String.append BASE "/api/v1/contract/ping") None 0%nat = HttpBody body ->
  let out := fst (get_server_time requests_get int_of_str) in
  (forall t, body = JInt t -> out = Ok (JInt t))
  /\ (forall f t, body = JObj f -> dict_get "data" f = Some (JInt t) -> out = Ok (JInt t))
  /\ (body = JNull \/ body = JObj [] \/ body = JArr [] \/ body = JStr EmptyString ->
      out = Ok (JInt 0)).
Proof.
  intros H out. subst out. unfold get_server_time, req_get. simpl. rewrite H. simpl.
  repeat split.
  - intros t ->. reflexivity.
  - intros f t -> Hd. destruct (dict_has_of_get _ _ _ Hd) as [Hh Hg].
    unfold unwrap. rewrite Hh, Hg. simpl.
    destruct (dict_has "success" f || dict_has "code" f); simpl.
    + reflexivity.
    + now rewrite Hh, Hg.
  - intros [-> | [-> | [-> | ->]]]; reflexivity.
Qed.

Lemma server_time_of_ping_reply_witness :
  fst (get_server_time ping_transport Funding.int_stub) = Ok (JInt 1587442022003).
Proof.
  pose proof (server_time_of_ping_reply ping_transport Funding.int_stub _ eq_refl) as H.
  cbv zeta in H. destruct H as [_ [H _]].
  exact (H _ _ eq_refl eq_refl).
Defined.

(** X20.  [_depth_side_to_df] never fails on a short level and keeps
    the order of the book side: every row carries the side name, and
    its three fields are the level cut after its third entry or filled
    up to three with [None]; a missing side gives the empty frame. *)
Theorem depth_rows_cut_or_padded (side0 : option (list (list json))) (name : string) :
  map (fun r => [price r; volume r; order_count r]) (_depth_side_to_df side0 name)
  = map (fun x => firstn 3 (x ++ [JNull; JNull; JNull])) (default [] side0)
  /\ Forall (fun r => side r = name) (_depth_side_to_df side0 name)
  /\ _depth_side_to_df None name = [].
Proof.
  unfold _depth_side_to_df. repeat split.
  - induction (default [] side0) as [|x l IH]; [reflexivity|].
    simpl. rewrite IH. f_equal.
    destruct x as [|a [|b [|c x]]]; reflexivity.
  - induction (default [] side0) as [|x l IH]; constructor; [reflexivity | exact IH].
Qed.

Section Main.

Variable to_csv : list candle -> string.
Variable fetch : string -> result (list candle).

Lemma main_kline_round_lookup (fs : gmap string string) (itv : string) :
  main_kline_round to_csv fetch fs itv !! kline_csv itv = kline_file_after to_csv fetch fs itv
  /\ forall p, p <> kline_csv itv -> main_kline_round to_csv fetch fs itv !! p = fs !! p.
Proof.
  unfold main_kline_round, save_csv, kline_file_after, kline_csv.
  destruct (fetch itv) as [df|e]; [|now split].
  destruct (is_empty df); [now split|].
  split; [apply lookup_insert_eq | intros p Hp; now apply lookup_insert_ne].
Qed.

Lemma fold_kline_rounds (l : list string) :
  List.NoDup (map kline_csv l) ->
  forall fs,
    (forall itv, In itv l ->
                 fold_left (main_kline_round to_csv fetch) l fs !! kline_csv itv
                 = kline_file_after to_csv fetch fs itv)
    /\ (forall p, ~ In p (map kline_csv l) ->
                  fold_left (main_kline_round to_csv fetch) l fs !! p = fs !! p).
Proof.
  induction l as [|i0 l IH]; intros Hnd fs; cbn [fold_left map].
  - split; [intros itv [] | reflexivity].
  - cbn [map] in Hnd. apply List.NoDup_cons_iff in Hnd. destruct Hnd as [Hnotin Hnd'].
    destruct (IH Hnd' (main_kline_round to_csv fetch fs i0)) as [I1 I2].
    destruct (main_kline_round_lookup fs i0) as [H1 H2].
    split.
    + intros itv [<-|Hin].
      * rewrite (I2 (kline_csv i0) Hnotin). exact H1.
      * rewrite (I1 itv Hin).
        assert (Hne : kline_csv itv <> kline_csv i0).
        { intros E. apply Hnotin. rewrite <- E. apply (List.in_map kline_csv). exact Hin. }
        unfold kline_file_after. rewrite (H2 _ Hne). reflexivity.
    + intros p Hp. cbn [In] in Hp. rewrite I2 by tauto. apply H2. intros ->. tauto.
Qed.

Lemma kline_paths_distinct : List.NoDup (map kline_csv KLINE_INTERVALS).
Proof.
  vm_compute. repeat constructor; simpl; intros H;
    repeat (destruct H as [H|H]; [discriminate H|]); exact H.
Qed.

(** X21.  The k-line loop of [main] keeps the intervals apart: after
    it, the file of an interval holds the CSV of its own frame when its
    backfill returned a non-empty frame, and is as it was before when
    the backfill raised or returned nothing, whatever happened to the
    other six intervals; no path besides the seven is touched. *)
Theorem main_klines_isolates_failures (fs : gmap string string) (itv : string) :
  In itv KLINE_INTERVALS ->
  main_klines to_csv fetch fs !! kline_csv itv = kline_file_after to_csv fetch fs itv
  /\ forall p, ~ In p (map kline_csv KLINE_INTERVALS) ->
               main_klines to_csv fetch fs !! p = fs !! p.
Proof.
  intros Hin. unfold main_klines.
  destruct (fold_kline_rounds KLINE_INTERVALS kline_paths_distinct fs) as [F1 F2].
  split; [now apply F1 | exact F2].
Qed.

End Main.

Lemma main_klines_isolates_failures_witness :
  main_klines csv_stub patchy_fetch ∅ !! kline_csv "Min5" = None
  /\ main_klines csv_stub patchy_fetch ∅ !! kline_csv "Day1" = Some "csv"%string.
Proof.
  assert (H5 : In "Min5"%string KLINE_INTERVALS) by (simpl; tauto).
  assert (H1 : In "Day1"%string KLINE_INTERVALS) by (simpl; tauto).
  destruct (main_klines_isolates_failures csv_stub patchy_fetch ∅ "Min5" H5) as [E5 _].
  destruct (main_klines_isolates_failures csv_stub patchy_fetch ∅ "Day1" H1) as [E1 _].
  split.
  - rewrite E5. reflexivity.
  - rewrite E1. reflexivity.
Defined.

End GlueSpec.
